(** * DNS zone synthesis and publication: management/dns_update.py

    A shallow embedding of the zone engine of management/dns_update.py:
    the domain set resolver ([get_dns_zones]), the custom override store
    ([get_custom_records], [set_custom_dns_record]), the record synthesizer
    ([build_zone]), the zone publication controller ([write_nsd_zone]), the
    report of the records ([build_recommended_dns]) and the writers of the
    configuration of nsd and OpenDKIM ([write_nsd_conf],
    [write_opendkim_tables]).

    Conventions of the embedding.
    - A Python [str] is a [string]; text is ASCII, so the character classes
      of [re] and [str] are those of the code points below 128.
    - A Python [set] is a list; every order of iteration is a possible list,
      and the functions below never depend on more than membership unless
      a comment says so.  A [dict] is an association list in insertion
      order.
    - An exception is a value [Raise e] of the type [result].
    - What the module gets from other modules (mailconfig, utils, ipaddress,
      hashlib) and from the machine (files, the clock, shell commands) is a
      variable of the enclosing section or an explicit argument. *)

From Stdlib Require Import List String Ascii Bool Arith NArith ZArith Lia.
From Stdlib Require Import Permutation Sorted.
From Stdlib Require Import DecimalString DecimalPos DecimalN.
Import ListNotations.
Local Open Scope string_scope.
Local Open Scope list_scope.
Local Open Scope nat_scope.

Set Implicit Arguments.

(** String concatenation, written apart from the concatenation of lists. *)
Infix "+++" := String.append (at level 60, right associativity).

(** ** Python strings *)

Module Py.

(** [s.startswith(p)] *)
Definition startswith (s p : string) : bool := String.prefix p s.

(** [s.endswith(suf)]: [suf] is [s] or the end of a tail of [s]. *)
Fixpoint endswith (s suf : string) : bool :=
  String.eqb s suf ||
  match s with
  | EmptyString => false
  | String _ s' => endswith s' suf
  end.

(** [s[0:n]] for [0 <= n]. *)
Definition take (n : nat) (s : string) : string := String.substring 0 n s.

(** [s[0:-k]] for [0 < k], which Python reads as [s[0:len(s)-k]], the empty
    string when [k] exceeds the length. *)
Definition drop_last (k : nat) (s : string) : string :=
  take (String.length s - k) s.

(** [s.split(c)] for a one-character separator: never the empty list. *)
Fixpoint split (c : ascii) (s : string) : list string :=
  match s with
  | EmptyString => [EmptyString]
  | String a s' =>
      if Ascii.eqb a c then EmptyString :: split c s'
      else match split c s' with
           | [] => [String a EmptyString]
           | w :: ws => String a w :: ws
           end
  end.

(** [str.isspace] on one ASCII character, which is also [\s] of [re] on a
    [str] pattern: tab to carriage return, the four separators 28..31, and
    the space. *)
Definition isspace (c : ascii) : bool :=
  let n := nat_of_ascii c in
  ((9 <=? n) && (n <=? 13)) || ((28 <=? n) && (n <=? 32)).

(** [\d] of [re], on ASCII text. *)
Definition isdigit (c : ascii) : bool :=
  let n := nat_of_ascii c in (48 <=? n) && (n <=? 57).

(** [s.strip() == ""]: nothing but white space. *)
Fixpoint isblank (s : string) : bool :=
  match s with
  | EmptyString => true
  | String c s' => isspace c && isblank s'
  end.

(** [s.upper()] on ASCII text. *)
Definition upper_char (c : ascii) : ascii :=
  let n := nat_of_ascii c in
  if (97 <=? n) && (n <=? 122) then ascii_of_nat (n - 32) else c.

Fixpoint upper (s : string) : string :=
  match s with
  | EmptyString => EmptyString
  | String c s' => String (upper_char c) (upper s')
  end.

(** [s.replace(old, new)] for a non-empty [old]: the occurrences of [old]
    are found from the left and do not overlap.  [skip] counts the
    characters of an occurrence still to be passed over. *)
Fixpoint replace_from (skip : nat) (old new s : string) : string :=
  match s with
  | EmptyString => EmptyString
  | String c s' =>
      match skip with
      | S k => replace_from k old new s'
      | O =>
          if String.prefix old s
          then new +++ replace_from (String.length old - 1) old new s'
          else String c (replace_from 0 old new s')
      end
  end.

Definition replace (s old new : string) : string := replace_from 0 old new s.

(** [s1 >= s2] and [min] on strings: the order of the code points. *)
Definition ge (s1 s2 : string) : bool := String.leb s2 s1.

Fixpoint min_str (x : string) (l : list string) : string :=
  match l with
  | [] => x
  | y :: l' => min_str (if String.ltb y x then y else x) l'
  end.

(** [int(s)] on a string of digits and [str(n)] on a natural number. *)
Definition int_of_digits (s : string) : option N :=
  option_map N.of_uint (NilZero.uint_of_string s).

Definition str_of_N (n : N) : string := NilZero.string_of_uint (N.to_uint n).

(** The order of two lists of strings, as Python compares lists. *)
Fixpoint list_le (k1 k2 : list string) : bool :=
  match k1, k2 with
  | [], _ => true
  | _ :: _, [] => false
  | a :: k1', b :: k2' =>
      match String.compare a b with
      | Lt => true
      | Gt => false
      | Eq => list_le k1' k2'
      end
  end.

(** [sorted(l, key=...)] and [list.sort(key=...)]: a stable sort, here by
    insertion; [le x y] says that the key of [x] is not above that of [y]. *)
Fixpoint insert_sorted {A} (le : A -> A -> bool) (x : A) (l : list A) : list A :=
  match l with
  | [] => [x]
  | y :: l' => if le x y then x :: l else y :: insert_sorted le x l'
  end.

Fixpoint sort {A} (le : A -> A -> bool) (l : list A) : list A :=
  match l with
  | [] => []
  | x :: l' => insert_sorted le x (sort le l')
  end.

(** [l.index(x)], which raises when [x] is not in [l]. *)
Fixpoint index (x : string) (l : list string) : option nat :=
  match l with
  | [] => None
  | y :: l' => if String.eqb y x then Some 0 else option_map S (index x l')
  end.

(** [x in l] *)
Definition mem (x : string) (l : list string) : bool :=
  existsb (String.eqb x) l.

(** [s.add(x)] and [s |= l] on a set. *)
Definition set_add (x : string) (s : list string) : list string :=
  if mem x s then s else s ++ [x].

Definition set_union (s l : list string) : list string :=
  fold_left (fun acc x => set_add x acc) l s.

(** A [dict] with string keys: [d.get(k)], [d[k] = v] (the key keeps its
    place when it is there already, and goes last otherwise) and
    [del d[k]]. *)
Fixpoint dict_get {V} (k : string) (d : list (string * V)) : option V :=
  match d with
  | [] => None
  | (k', v) :: d' => if String.eqb k' k then Some v else dict_get k d'
  end.

Fixpoint dict_set {V} (k : string) (v : V) (d : list (string * V))
  : list (string * V) :=
  match d with
  | [] => [(k, v)]
  | (k', v') :: d' =>
      if String.eqb k' k then (k, v) :: d' else (k', v') :: dict_set k v d'
  end.

Fixpoint dict_del {V} (k : string) (d : list (string * V))
  : list (string * V) :=
  match d with
  | [] => []
  | (k', v') :: d' =>
      if String.eqb k' k then d' else (k', v') :: dict_del k d'
  end.

(** The longest start of [s] whose characters are all in the class [p], and
    what follows it: how [re] reads [p+] or [p*] when the next thing to match
    is outside the class. *)
Fixpoint span (p : ascii -> bool) (s : string) : string * string :=
  match s with
  | EmptyString => (EmptyString, EmptyString)
  | String c s' =>
      if p c then let (a, b) := span p s' in (String c a, b)
      else (EmptyString, s)
  end.

(** What follows the literal [lit] at the start of [s]. *)
Fixpoint strip_prefix (lit s : string) : option string :=
  match lit, s with
  | EmptyString, _ => Some s
  | String a lit', String b s' =>
      if Ascii.eqb a b then strip_prefix lit' s' else None
  | String _ _, EmptyString => None
  end.

Definition nonempty (s : string) : bool :=
  match s with EmptyString => false | String _ _ => true end.

End Py.

(** ** Exceptions *)

Inductive exn : Type :=
| ValueError (msg : string)
| TypeError
| AttributeError
| OSError
| CalledProcessError
| RecursionError.

Inductive result (A : Type) : Type :=
| Ok (a : A)
| Raise (e : exn).

Arguments Ok {A} a.
Arguments Raise {A} e.

Definition bind {A B} (r : result A) (k : A -> result B) : result B :=
  match r with
  | Ok a => k a
  | Raise e => Raise e
  end.

Notation "x <- r ;; k" := (bind r (fun x => k))
  (at level 61, r at next level, right associativity).

Fixpoint mapM {A B} (f : A -> result B) (l : list A) : result (list B) :=
  match l with
  | [] => Ok []
  | x :: l' => y <- f x ;; ys <- mapM f l' ;; Ok (y :: ys)
  end.

(** ** The environment

    [env] is the dictionary of the box's settings.  [PUBLIC_IPV6] may be
    missing ([env.get] gives [None]); the other keys are always there. *)

Record env : Type := {
  PRIMARY_HOSTNAME : string;
  PUBLIC_IP : string;
  PUBLIC_IPV6 : option string;
  STORAGE_ROOT : string
}.

(** The truth value of [env.get('PUBLIC_IPV6')]: set and not empty. *)
Definition truthy (v : option string) : bool :=
  match v with
  | Some (String _ _) => true
  | _ => false
  end.

Definition option_eqb (a b : option string) : bool :=
  match a, b with
  | None, None => true
  | Some x, Some y => String.eqb x y
  | _, _ => false
  end.

(** Characters that a string literal cannot hold. *)
Definition TAB : string := String (ascii_of_nat 9) EmptyString.
Definition NL : string := String (ascii_of_nat 10) EmptyString.
Definition DQUOTE : string := String (ascii_of_nat 34) EmptyString.
Definition BACKSLASH : string := String (ascii_of_nat 92) EmptyString.

(** ** The custom override store (dns/custom.yaml)

    A name maps to a string (short for an A record), to a mapping from
    record type to value, or to something else that the YAML file may
    hold. *)

Inductive custom_value : Type :=
| ShortForm (value : string)
| MappingForm (values : list (string * string))
| OtherData.

Definition custom_dns_config : Type := list (string * custom_value).

(** What [ipaddress.ip_address] makes of a string. *)
Inductive ip_version : Type := IPv4Address | IPv6Address.

(** A resource record as [build_zone] holds it: [(qname, rtype, value,
    explanation)], where the name [None] is the zone's own and the
    explanation [None] is Python's [False] (a record that is not shown). *)
Definition record : Type := (option string * string * string * option string)%type.

(** What the synthesis reads from the machine. *)
Record host : Type := {
  (** [hashlib.sha256(certder).hexdigest()] of the certificate that openssl
      prints; [None] when the command fails *)
  ssl_certificate_sha256 : option string;
  (** the output of [ssh-keyscan localhost]; [None] when the command fails *)
  ssh_keyscan : option string;
  (** the contents of mail/dkim/mail.txt; [None] when it cannot be opened *)
  dkim_mail_txt : option string
}.

Section Engine.

Set Default Proof Using "Type".

(** [mailconfig.get_mail_domains] *)
Variable get_mail_domains : env -> list string.

(** [utils.sort_domains] and [utils.safe_domain_name] *)
Variable sort_domains : list string -> env -> list string.
Variable safe_domain_name : string -> string.

(** [ipaddress.ip_address]; [None] when it raises [ValueError]. *)
Variable ip_address : string -> option ip_version.

(** [hashlib.sha256(base64.b64decode(pubkey)).hexdigest().upper()]; [None]
    when the key does not decode. *)
Variable sshfp_digest : string -> option string.

(** ** The domain set resolver *)

Definition get_dns_domains (e : env) : list string :=
  let domains := [] in
  let domains := Py.set_union domains (get_mail_domains e) in
  Py.set_add (PRIMARY_HOSTNAME e) domains.

(** The inner loop of [get_dns_zones]: is [domain] below a zone already
    chosen? *)
Definition has_parent (zone_domains : list string) (domain : string) : bool :=
  existsb (fun d => Py.endswith domain ("." +++ d)) zone_domains.

(** The key of [sorted(domains, key=lambda d : len(d))]. *)
Definition shorter (a b : string) : bool := String.length a <=? String.length b.

(** The outer loop of [get_dns_zones], over the domains by length. *)
Definition zone_domains_of (domains : list string) : list string :=
  fold_left
    (fun zone_domains domain =>
       if has_parent zone_domains domain then zone_domains
       else Py.set_add domain zone_domains)
    (Py.sort shorter domains)
    [].

Definition get_dns_zones (e : env) : result (list (string * string)) :=
  let domains := get_dns_domains e in
  let zone_domains := zone_domains_of domains in
  let zonefiles :=
    map (fun domain => (domain, safe_domain_name domain +++ ".txt")) zone_domains in
  let zone_order := sort_domains (map fst zonefiles) e in
  keyed <- mapM (fun zone : string * string =>
                   match Py.index (fst zone) zone_order with
                   | Some i => Ok (i, zone)
                   | None => Raise (ValueError "not in list")
                   end) zonefiles ;;
  Ok (map snd (Py.sort (fun a b : nat * (string * string) => fst a <=? fst b) keyed)).

(** ** The custom override store *)

(** [get_custom_dns_config]: the stored mapping, empty when the file is not
    there or does not load. *)
Definition get_custom_dns_config (stored : option custom_dns_config) : custom_dns_config :=
  match stored with
  | Some c => c
  | None => []
  end.

(** The [(rtype, value)] pairs of one entry of the store. *)
Definition custom_values (e : env) (value : custom_value)
  : result (list (string * string)) :=
  match value with
  | ShortForm v =>
      Ok (("A", v) ::
          (if String.eqb v "local" && truthy (PUBLIC_IPV6 e)
           then [("AAAA", v)] else []))
  | MappingForm values => Ok values
  | OtherData => Raise (ValueError "")
  end.

(** The body of the loop over [values]: the keyword [local] stands for the
    box's own address. *)
Definition resolve_local (e : env) (rv : string * string)
  : list (string * string) :=
  let (rtype, value2) := rv in
  if String.eqb rtype "A" && String.eqb value2 "local" then
    [(rtype, PUBLIC_IP e)]
  else if String.eqb rtype "AAAA" && String.eqb value2 "local" then
    match PUBLIC_IPV6 e with
    | None => []
    | Some v6 => [(rtype, v6)]
    end
  else [(rtype, value2)].

(** The records that one entry of the store gives to the zone [domain]. *)
Definition custom_records_of_entry (domain : string) (e : env)
  (entry : string * custom_value)
  : result (list (option string * string * string)) :=
  let (qname, value) := entry in
  if negb (String.eqb qname domain) && negb (Py.endswith qname ("." +++ domain))
  then Ok []
  else
    let qname :=
      if String.eqb qname domain then None
      else Some (Py.take (String.length qname - String.length ("." +++ domain)) qname) in
    values <- custom_values e value ;;
    Ok (map (fun rv : string * string => (qname, fst rv, snd rv))
            (flat_map (resolve_local e) values)).

(** [get_custom_records]: everything the generator yields, or the exception
    that ends it. *)
Definition get_custom_records (domain : string) (additional_records : custom_dns_config)
  (e : env) : result (list (option string * string * string)) :=
  chunks <- mapM (custom_records_of_entry domain e) additional_records ;;
  Ok (List.concat chunks).

(** The checks on the record type and the value. *)
Definition validate_rtype (rtype : string) (value : option string)
  : result unit :=
  match value with
  | None => Ok tt
  | Some value =>
      if Py.mem rtype ["A"; "AAAA"] then
        match ip_address value with
        | None => Raise (ValueError "does not appear to be an IPv4 or IPv6 address")
        | Some v =>
            match v with
            | IPv6Address =>
                if String.eqb rtype "A"
                then Raise (ValueError "That's an IPv6 address.")
                else Ok tt
            | IPv4Address =>
                if String.eqb rtype "AAAA"
                then Raise (ValueError "That's an IPv4 address.")
                else Ok tt
            end
        end
      else if Py.mem rtype ["CNAME"; "TXT"] then Ok tt
      else Raise (ValueError ("Unknown record type '" +++ rtype +++ "'."))
  end.

(** The first loop of [set_custom_dns_record]: is [qname] a zone or below
    one? *)
Definition is_managed (zones : list (string * string)) (qname : string) : bool :=
  existsb (fun zone : string * string =>
             String.eqb qname (fst zone)
             || Py.endswith qname ("." +++ fst zone)) zones.

(** [set_custom_dns_record].  [stored] is what dns/custom.yaml holds.  The
    result is the value returned and, when the function writes the file,
    the mapping it writes. *)
Definition set_custom_dns_record (qname rtype : string) (value : option string)
  (e : env) (stored : option custom_dns_config)
  : result (bool * option custom_dns_config) :=
  zones <- get_dns_zones e ;;
  if negb (is_managed zones qname)
  then Raise (ValueError (qname +++
         " is not a domain name or a subdomain of a domain name managed by this box."))
  else
    let rtype := Py.upper rtype in
    _ <- validate_rtype rtype value ;;
    let config := get_custom_dns_config stored in
    let save (config : custom_dns_config)
      : result (bool * option custom_dns_config) := Ok (true, Some config) in
    match Py.dict_get qname config with
    | None =>
        match value with
        | None => Ok (false, None)
        | Some value =>
            if String.eqb rtype "A"
            then save (Py.dict_set qname (ShortForm value) config)
            else save (Py.dict_set qname (MappingForm [(rtype, value)]) config)
        end
    | Some (ShortForm current) =>
        match value with
        | None =>
            if negb (String.eqb rtype "A") then Ok (false, None)
            else save (Py.dict_del qname config)
        | Some value =>
            if String.eqb rtype "A" then
              if String.eqb current "value" then Ok (false, None)
              else save (Py.dict_set qname (ShortForm value) config)
            else
              save (Py.dict_set qname
                      (MappingForm [("A", current); (rtype, value)]) config)
        end
    | Some (MappingForm values) =>
        match value with
        | None =>
            match Py.dict_get rtype values with
            | None => Ok (false, None)
            | Some _ =>
                let values := Py.dict_del rtype values in
                if List.length values =? 0
                then save (Py.dict_del qname config)
                else save (Py.dict_set qname (MappingForm values) config)
            end
        | Some value =>
            if option_eqb (Py.dict_get rtype values) (Some "value")
            then Ok (false, None)
            else save (Py.dict_set qname
                         (MappingForm (Py.dict_set rtype value values)) config)
        end
    | Some OtherData =>
        (* the entry is no dict: [in], [del] and [get] raise on it *)
        Raise TypeError
    end.

(** The store after a call: what was written, or what was there. *)
Definition store_after (stored : option custom_dns_config)
  (r : result (bool * option custom_dns_config)) : option custom_dns_config :=
  match r with
  | Ok (_, Some c) => Some c
  | _ => stored
  end.

(** ** The record synthesizer *)

Definition build_tlsa_record (h : host) : result string :=
  match ssl_certificate_sha256 h with
  | Some certhash => Ok ("3 0 1 " +++ certhash)
  | None => Raise CalledProcessError
  end.

Definition algorithm_number : list (string * N) :=
  [("ssh-rsa", 1%N); ("ssh-dss", 2%N); ("ecdsa-sha2-nistp256", 3%N)].

(** One line of the key scan: the SSHFP value it gives, if any.  A line that
    does not split into three parts, names an unknown key type or holds a
    key that does not decode is passed over. *)
Definition sshfp_of_key (key : string) : list string :=
  if Py.isblank key || Py.startswith key "#" then []
  else
    match Py.split " "%char key with
    | [_; keytype; pubkey] =>
        match Py.dict_get keytype algorithm_number, sshfp_digest pubkey with
        | Some n, Some digest =>
            [Py.str_of_N n +++ " " +++ Py.str_of_N 2 +++ " ( " +++ digest +++ " )"]
        | _, _ => []
        end
    | _ => []
    end.

Definition build_sshfp_records (h : host) : result (list string) :=
  match ssh_keyscan h with
  | Some keys => Ok (flat_map sshfp_of_key (Py.split (ascii_of_nat 10) keys))
  | None => Raise CalledProcessError
  end.

(** The expression that reads OpenDKIM's record,
    [(\S+)\s+IN\s+TXT\s+\( "([^"]+)"\s+"([^"]+)"\s*\)], matched at the start
    of the text: the name and the two quoted parts joined.  Each repetition is
    followed by something outside its class, so the longest run is the only
    one that can match. *)
Definition re_spaces (text : string) : option string :=
  let (w, rest) := Py.span Py.isspace text in
  if Py.nonempty w then Some rest else None.

Definition re_quoted (text : string) : option (string * string) :=
  match Py.strip_prefix DQUOTE text with
  | None => None
  | Some text =>
      let (part, rest) :=
        Py.span (fun c => negb (Ascii.eqb c (ascii_of_nat 34))) text in
      if Py.nonempty part then
        match Py.strip_prefix DQUOTE rest with
        | Some rest => Some (part, rest)
        | None => None
        end
      else None
  end.

Definition option_bind {A B} (o : option A) (k : A -> option B) : option B :=
  match o with
  | Some a => k a
  | None => None
  end.

Definition match_dkim_record (text : string) : option (string * string) :=
  let (name, text) := Py.span (fun c => negb (Py.isspace c)) text in
  if negb (Py.nonempty name) then None
  else
    option_bind (re_spaces text) (fun text =>
    option_bind (Py.strip_prefix "IN" text) (fun text =>
    option_bind (re_spaces text) (fun text =>
    option_bind (Py.strip_prefix "TXT" text) (fun text =>
    option_bind (re_spaces text) (fun text =>
    option_bind (Py.strip_prefix "( " text) (fun text =>
    option_bind (re_quoted text) (fun '(part1, text) =>
    option_bind (re_spaces text) (fun text =>
    option_bind (re_quoted text) (fun '(part2, text) =>
    let (_, text) := Py.span Py.isspace text in
    option_bind (Py.strip_prefix ")" text) (fun _ =>
    Some (name, part1 +++ part2))))))))))).

(** [has_rec], over the records gathered so far. *)
Definition has_rec (records : list record) (qname : option string)
  (rtype : string) (prefix : option string) : bool :=
  existsb
    (fun rec : record =>
       let '(q, t, v, _) := rec in
       option_eqb q qname && String.eqb t rtype &&
       match prefix with
       | None => true
       | Some prefix => Py.startswith v prefix
       end)
    records.

(** A record of a subdomain's zone, named within the parent zone. *)
Definition requalify (subdomain_qname : string) (rec : record) : record :=
  let '(child_qname, child_rtype, child_value, child_explanation) := rec in
  let child_qname :=
    match child_qname with
    | None => subdomain_qname
    | Some child_qname => child_qname +++ "." +++ subdomain_qname
    end in
  (Some child_qname, child_rtype, child_value, child_explanation).

(** The records of the box itself, in the zone of PRIMARY_HOSTNAME. *)
Definition primary_hostname_records (h : host) (e : env) : result (list record) :=
  let records :=
    [ (Some "ns1", "A", PUBLIC_IP e, None);
      (Some "ns2", "A", PUBLIC_IP e, None) ] in
  let records :=
    match PUBLIC_IPV6 e with
    | Some v6 =>
        if truthy (PUBLIC_IPV6 e)
        then records ++ [ (Some "ns1", "AAAA", v6, None);
                          (Some "ns2", "AAAA", v6, None) ]
        else records
    | None => records
    end in
  let records :=
    records ++ [ (None, "A", PUBLIC_IP e,
                  Some "Required. Sets the IP address of the box.") ] in
  let records :=
    match PUBLIC_IPV6 e with
    | Some v6 =>
        if truthy (PUBLIC_IPV6 e)
        then records ++ [ (None, "AAAA", v6,
                           Some "Required. Sets the IPv6 address of the box.") ]
        else records
    | None => records
    end in
  tlsa <- build_tlsa_record h ;;
  let records :=
    records ++ [ (Some "_25._tcp", "TLSA", tlsa,
                  Some "Recommended when DNSSEC is enabled. Advertises to mail servers connecting to the box that mandatory encryption should be used.") ] in
  sshfp <- build_sshfp_records h ;;
  Ok (records ++
      map (fun value : string =>
             (None, "SSHFP", value,
              Some "Optional. Provides an out-of-band method for verifying an SSH key before connecting. Use 'VerifyHostKeyDNS yes' (or 'VerifyHostKeyDNS ask') when connecting with ssh."))
          sshfp).

(** The user's records: one is added unless a record of its name and type
    is there already. *)
Definition add_custom_record (records : list record)
  (c : option string * string * string) : list record :=
  let '(qname, rtype, value) := c in
  if has_rec records qname rtype None then records
  else records ++ [(qname, rtype, value, Some "(Set by user.)")].

Definition defaults (domain : string) (e : env)
  : list (option string * string * option string * string) :=
  [ (None, "A", Some (PUBLIC_IP e),
     "Required. May have a different value. Sets the IP address that " +++ domain +++
     " resolves to for web hosting and other services besides mail. The A record must be present but its value does not affect mail delivery.");
    (Some "www", "A", Some (PUBLIC_IP e),
     "Optional. Sets the IP address that www." +++ domain +++
     " resolves to, e.g. for web hosting.");
    (None, "AAAA", PUBLIC_IPV6 e,
     "Optional. Sets the IPv6 address that " +++ domain +++
     " resolves to, e.g. for web hosting. (It is not necessary for receiving mail on this domain.)");
    (Some "www", "AAAA", PUBLIC_IPV6 e,
     "Optional. Sets the IPv6 address that www." +++ domain +++
     " resolves to, e.g. for web hosting.") ].

Definition add_default (is_zone : bool) (records : list record)
  (d : option string * string * option string * string) : list record :=
  let '(qname, rtype, value, explanation) := d in
  match value with
  | None => records
  | Some value =>
      if Py.isblank value then records
      else if negb is_zone && option_eqb qname (Some "www") then records
      else if negb (has_rec records qname rtype None)
           then records ++ [(qname, rtype, value, Some explanation)]
           else records
  end.

(** The DKIM record, read from mail/dkim/mail.txt. *)
Definition dkim_record (h : host) (domain : string) : result record :=
  match dkim_mail_txt h with
  | None => Raise OSError
  | Some text =>
      match match_dkim_record text with
      | None => Raise AttributeError
      | Some (name, val) =>
          Ok (Some name, "TXT", val,
              Some ("Recommended. Provides a way for recipients to verify that this machine sent @"
                    +++ domain +++ " mail."))
      end
  end.

(** The first part of [build_zone]: the name servers, the records of the
    box itself when the zone is PRIMARY_HOSTNAME, the MX record and the SPF
    record. *)
Definition own_records (h : host) (domain : string) (e : env) (is_zone : bool)
  : result (list record) :=
  let records := [] in
  let records :=
    if is_zone
    then records ++ [ (None, "NS", "ns1." +++ PRIMARY_HOSTNAME e +++ ".", None);
                      (None, "NS", "ns2." +++ PRIMARY_HOSTNAME e +++ ".", None) ]
    else records in
  records <- (if String.eqb domain (PRIMARY_HOSTNAME e)
              then more <- primary_hostname_records h e ;; Ok (records ++ more)
              else Ok records) ;;
  Ok (records ++
      [ (None, "MX", "10 " +++ PRIMARY_HOSTNAME e +++ ".",
         Some ("Required. Specifies the hostname (and priority) of the machine that handles @"
               +++ domain +++ " mail."));
        (None, "TXT", "v=spf1 mx -all",
         Some ("Recommended. Specifies that only the box is permitted to send @"
               +++ domain +++ " mail.")) ]).

(** The loop over the subdomains: the records of each subdomain's zone,
    named within this zone.  [build_subzone] stands for the call of
    [build_zone] on a subdomain. *)
Definition subdomain_records (build_subzone : string -> result (list record))
  (domain : string) (all_domains : list string) : result (list record) :=
  let subdomains := filter (fun d => Py.endswith d ("." +++ domain)) all_domains in
  children <- mapM (fun subdomain =>
                      let subdomain_qname :=
                        Py.drop_last (String.length ("." +++ domain)) subdomain in
                      subzone <- build_subzone subdomain ;;
                      Ok (map (requalify subdomain_qname) subzone))
                   subdomains ;;
  Ok (List.concat children).

Definition dmarc_record (domain : string) : record :=
  (Some "_dmarc", "TXT", "v=DMARC1; p=quarantine",
   Some ("Optional. Specifies that mail that does not originate from the box but claims to be from @"
         +++ domain +++
         " is suspect and should be quarantined by the recipient's mail system.")).

(** [build_zone] up to the DMARC record: everything before the strict
    policy records. *)
Definition records_before_backstop
  (build_subzone : string -> result (list record)) (h : host)
  (domain : string) (all_domains : list string)
  (additional_records : custom_dns_config) (e : env) (is_zone : bool)
  : result (list record) :=
  records <- own_records h domain e is_zone ;;
  children <- subdomain_records build_subzone domain all_domains ;;
  let records := records ++ children in
  custom <- get_custom_records domain additional_records e ;;
  let records := fold_left add_custom_record custom records in
  let records := fold_left (add_default is_zone) (defaults domain e) records in
  dkim <- dkim_record h domain ;;
  let records := records ++ [dkim] in
  Ok (records ++ [dmarc_record domain]).

(** The names that have an A or AAAA record, each once. *)
Definition is_resolvable (rec : record) : bool :=
  let '(_, t, _, _) := rec in Py.mem t ["A"; "AAAA"].

Fixpoint distinct (l : list (option string)) : list (option string) :=
  match l with
  | [] => []
  | q :: l' => q :: filter (fun q' => negb (option_eqb q' q)) (distinct l')
  end.

Definition all_resolvable_qnames (records : list record) : list (option string) :=
  distinct (map (fun rec : record => fst (fst (fst rec))) (filter is_resolvable records)).

Definition dmarc_qname_of (qname : option string) : string :=
  "_dmarc" +++ match qname with
               | None => EmptyString
               | Some qname => "." +++ qname
               end.

Definition spf_backstop (qname : option string) : record :=
  (qname, "TXT", "v=spf1 a mx -all",
   Some "Prevents unauthorized use of this domain name for outbound mail by requiring outbound mail to originate from the indicated host(s).").

Definition dmarc_backstop (qname : option string) : record :=
  (Some (dmarc_qname_of qname), "TXT", "v=DMARC1; p=reject",
   Some "Prevents unauthorized use of this domain name for outbound mail by requiring a valid DKIM signature.").

(** The body of the loop over [all_resolvable_qnames]. *)
Definition add_strict_policy (records : list record) (qname : option string)
  : list record :=
  let records :=
    if negb (has_rec records qname "TXT" (Some "v=spf1 "))
    then records ++ [spf_backstop qname] else records in
  if negb (has_rec records (Some (dmarc_qname_of qname)) "TXT" (Some "v=DMARC1; "))
  then records ++ [dmarc_backstop qname] else records.

(** The loop runs over the set of names computed before it; the model takes
    them in the order of their first record. *)
Definition strict_policy_backstop (records : list record) : list record :=
  fold_left add_strict_policy (all_resolvable_qnames records) records.

(** The key of the final sort: the labels of the name from the last to the
    first, nothing for the zone's own name. *)
Definition sort_key (rec : record) : list string :=
  match fst (fst (fst rec)) with
  | None => []
  | Some qname => rev (Py.split "."%char qname)
  end.

Definition sort_records (records : list record) : list record :=
  Py.sort (fun a b => Py.list_le (sort_key a) (sort_key b)) records.

Definition build_zone_body
  (build_subzone : string -> result (list record)) (h : host)
  (domain : string) (all_domains : list string)
  (additional_records : custom_dns_config) (e : env) (is_zone : bool)
  : result (list record) :=
  records <- records_before_backstop build_subzone h domain all_domains
               additional_records e is_zone ;;
  Ok (sort_records (strict_policy_backstop records)).

(** [build_zone] calls itself on each subdomain with no domains, no custom
    records and [is_zone=False]; that call finds no subdomain, so the
    recursion stops there.  [build_zone_subdomain] is that inner call and
    [build_zone] the function; [build_zone_unfold] below is the equation of
    the source. *)
Definition build_zone_subdomain (h : host) (e : env) (subdomain : string)
  : result (list record) :=
  build_zone_body (fun _ => Raise RecursionError) h subdomain [] [] e false.

Definition build_zone (h : host) (domain : string) (all_domains : list string)
  (additional_records : custom_dns_config) (e : env) (is_zone : bool)
  : result (list record) :=
  build_zone_body (build_zone_subdomain h e) h domain all_domains
    additional_records e is_zone.


(** ** The zone publication controller *)

(** A [datetime.datetime] without time zone. *)
Record datetime : Type := {
  year : Z; month : Z; day : Z;
  hour : Z; minute : Z; second : Z; microsecond : Z
}.

Local Open Scope Z_scope.

Definition is_leap (y : Z) : bool :=
  (y mod 4 =? 0) && (negb (y mod 100 =? 0) || (y mod 400 =? 0)).

Definition days_in_month (y m : Z) : Z :=
  match m with
  | 2 => if is_leap y then 29 else 28
  | 4 | 6 | 9 | 11 => 30
  | _ => 31
  end.

(** The days before the first of month [m] in year [y]. *)
Definition days_before_month (y m : Z) : Z :=
  nth (Z.to_nat (m - 1)) [0; 31; 59; 90; 120; 151; 181; 212; 243; 273; 304; 334] 0
  + (if (2 <? m) && is_leap y then 1 else 0).

Definition days_before_year (y : Z) : Z :=
  let y := y - 1 in y * 365 + y / 4 - y / 100 + y / 400.

(** [toordinal]: the first of January of year 1 is day 1. *)
Definition toordinal (d : datetime) : Z :=
  days_before_year (year d) + days_before_month (year d) (month d) + day d.

(** The microseconds from the start of day 0 to [d]: the difference of two
    of them is the [timedelta] between the two instants. *)
Definition microseconds (d : datetime) : Z :=
  (toordinal d * 86400 + hour d * 3600 + minute d * 60 + second d) * 1000000
  + microsecond d.

(** [timedelta(days=3)] in microseconds. *)
Definition three_days : Z := 3 * 86400 * 1000000.

Definition valid_datetime (d : datetime) : bool :=
  (1 <=? year d) && (year d <=? 9999) &&
  (1 <=? month d) && (month d <=? 12) &&
  (1 <=? day d) && (day d <=? days_in_month (year d) (month d)) &&
  (0 <=? hour d) && (hour d <=? 23) &&
  (0 <=? minute d) && (minute d <=? 59) &&
  (0 <=? second d) && (second d <=? 59) &&
  (0 <=? microsecond d) && (microsecond d <=? 999999).

(** The number that [n] digits at the start of [s] spell, and what follows
    them. *)
Fixpoint read_digits (n : nat) (acc : Z) (s : string) : option (Z * string) :=
  match n with
  | O => Some (acc, s)
  | S n' =>
      match s with
      | String c s' =>
          if Py.isdigit c
          then read_digits n' (10 * acc + (Z.of_nat (nat_of_ascii c) - 48)) s'
          else None
      | EmptyString => None
      end
  end.

Local Close Scope Z_scope.

(** [datetime.strptime(s, "%Y%m%d%H%M%S")]; [None] when it raises
    [ValueError].  On a string of fourteen digits the parse succeeds exactly
    when the fields of widths 4, 2, 2, 2, 2, 2 make a date: a narrower field
    leaves text unread, which [strptime] refuses. *)
Definition strptime (s : string) : option datetime :=
  option_bind (read_digits 4 0 s) (fun '(Y, s) =>
  option_bind (read_digits 2 0 s) (fun '(m, s) =>
  option_bind (read_digits 2 0 s) (fun '(d, s) =>
  option_bind (read_digits 2 0 s) (fun '(H, s) =>
  option_bind (read_digits 2 0 s) (fun '(M, s) =>
  option_bind (read_digits 2 0 s) (fun '(sec, s) =>
  let t := {| year := Y; month := m; day := d;
              hour := H; minute := M; second := sec; microsecond := 0 |} in
  if Py.nonempty s then None
  else if valid_datetime t then Some t else None)))))).

(** [n] written with at least [width] digits. *)
Definition zero_padded (width : nat) (n : Z) : string :=
  let digits := Py.str_of_N (Z.to_N n) in
  String.concat EmptyString (repeat "0" (width - String.length digits)) +++ digits.

(** [now.strftime("%Y%m%d00")], for a year of four digits. *)
Definition strftime_serial (now : datetime) : string :=
  zero_padded 4 (year now) +++ zero_padded 2 (month now) +++ zero_padded 2 (day now)
  +++ "00".

(** The zone file before the serial number is set. *)
Definition zone_header (domain primary_domain : string) : string :=
  NL +++
  "$ORIGIN " +++ domain +++ "." +++ NL +++
  "$TTL 1800           ; default time to live" +++ NL +++
  NL +++
  "@ IN SOA ns1." +++ primary_domain +++ ". hostmaster." +++ primary_domain +++ ". (" +++ NL +++
  "           __SERIAL__     ; serial number" +++ NL +++
  "           7200     ; Refresh (secondary nameserver update interval)" +++ NL +++
  "           1800     ; Retry (when refresh fails, how often to try again)" +++ NL +++
  "           1209600  ; Expire (when refresh fails, how long secondary nameserver will keep records around anyway)" +++ NL +++
  "           1800     ; Negative TTL (how long negative responses are cached)" +++ NL +++
  "           )" +++ NL.

Definition zone_line (rec : record) : string :=
  let '(subdomain, querytype, value, _) := rec in
  let name := match subdomain with Some subdomain => subdomain | None => EmptyString end in
  let value :=
    if String.eqb querytype "TXT" then
      let value := Py.replace value BACKSLASH (BACKSLASH +++ BACKSLASH) in
      let value := Py.replace value DQUOTE (BACKSLASH +++ DQUOTE) in
      DQUOTE +++ value +++ DQUOTE
    else value in
  name +++ TAB +++ "IN" +++ TAB +++ querytype +++ TAB +++ value +++ NL.

Definition render_zone (domain : string) (records : list record) (e : env) : string :=
  fold_left (fun zone rec => zone +++ zone_line rec) records
    (zone_header domain (PRIMARY_HOSTNAME e)).

(** [\sRRSIG\s+SOA\s+\d+\s+\d+\s\d+\s+(\d{14})] at the start of the text:
    the fourteen digits and what follows the match. *)
Definition re_digits (text : string) : option string :=
  let (d, rest) := Py.span Py.isdigit text in
  if Py.nonempty d then Some rest else None.

Definition re_space (text : string) : option string :=
  match text with
  | String c rest => if Py.isspace c then Some rest else None
  | EmptyString => None
  end.

Fixpoint re_digits_n (n : nat) (text : string) : option (string * string) :=
  match n with
  | 0 => Some (EmptyString, text)
  | S n' =>
      match text with
      | String c rest =>
          if Py.isdigit c
          then option_map (fun p : string * string => (String c (fst p), snd p))
                          (re_digits_n n' rest)
          else None
      | EmptyString => None
      end
  end.

Definition match_rrsig_soa (text : string) : option (string * string) :=
  option_bind (re_space text) (fun text =>
  option_bind (Py.strip_prefix "RRSIG" text) (fun text =>
  option_bind (re_spaces text) (fun text =>
  option_bind (Py.strip_prefix "SOA" text) (fun text =>
  option_bind (re_spaces text) (fun text =>
  option_bind (re_digits text) (fun text =>
  option_bind (re_spaces text) (fun text =>
  option_bind (re_digits text) (fun text =>
  option_bind (re_space text) (fun text =>
  option_bind (re_digits text) (fun text =>
  option_bind (re_spaces text) (fun text =>
  re_digits_n 14 text))))))))))).

(** [re.findall] of that expression: the matches from the left, each search
    starting where the last match ended.  [skip] counts the characters of a
    match still to be passed over. *)
Fixpoint findall_rrsig_soa (skip : nat) (text : string) : list string :=
  match text with
  | EmptyString => []
  | String _ text' =>
      match skip with
      | S k => findall_rrsig_soa k text'
      | O =>
          match match_rrsig_soa text with
          | Some (expiration, rest) =>
              expiration ::
              findall_rrsig_soa (String.length text - String.length rest - 1) text'
          | None => findall_rrsig_soa 0 text'
          end
      end
  end.

(** [(\d+)\s*;\s*serial number] at the start of the text: group 1 and
    group 0. *)
Definition match_serial (text : string) : option (string * string) :=
  let (serial, rest) := Py.span Py.isdigit text in
  if negb (Py.nonempty serial) then None
  else
    let (_, rest) := Py.span Py.isspace rest in
    option_bind (Py.strip_prefix ";" rest) (fun rest =>
    let (_, rest) := Py.span Py.isspace rest in
    option_bind (Py.strip_prefix "serial number" rest) (fun rest =>
    Some (serial, Py.take (String.length text - String.length rest) text))).

(** [re.search]: the first place where the expression matches. *)
Fixpoint search_serial (text : string) : option (string * string) :=
  match match_serial text with
  | Some m => Some m
  | None =>
      match text with
      | EmptyString => None
      | String _ text' => search_serial text'
      end
  end.

(** The files of /etc/nsd/zones: a path's contents, if it exists. *)
Definition files : Type := string -> option string.

Definition write_file (path content : string) (fs : files) : files :=
  fun p => if String.eqb p path then Some content else fs p.

(** Is a new signature due?  [now] is the clock when the signed zone is
    looked at. *)
Definition force_bump_of (signed_zone : option string) (now : datetime)
  : result bool :=
  match signed_zone with
  | None => Ok true
  | Some signed_zone =>
      match findall_rrsig_soa 0 signed_zone with
      | [] => Ok true
      | t :: ts =>
          let expiration_time := Py.min_str t ts in
          match strptime expiration_time with
          | None => Raise (ValueError "time data does not match format")
          | Some expiration_time =>
              Ok (microseconds expiration_time - microseconds now <? three_days)%Z
          end
      end
  end.

(** [write_nsd_zone].  [fs] holds the zone file and its signed sibling;
    [now_signed] and [now_serial] are the two readings of the clock.  The
    result is the value returned and, when the function writes the zone
    file, the text it writes. *)
Definition write_nsd_zone (domain zonefile : string) (records : list record)
  (e : env) (force : bool) (fs : files) (now_signed now_serial : datetime)
  : result (bool * option string) :=
  let zone := render_zone domain records e in
  force_bump <- force_bump_of (fs (zonefile +++ ".signed")) now_signed ;;
  let serial := strftime_serial now_serial in
  let write (serial : string) : result (bool * option string) :=
    Ok (true, Some (Py.replace zone "__SERIAL__" serial)) in
  match fs zonefile with
  | None => write serial
  | Some existing_zone =>
      match search_serial existing_zone with
      | None => write serial
      | Some (existing_serial, group0) =>
          let existing_zone :=
            Py.replace existing_zone group0 "__SERIAL__     ; serial number" in
          if String.eqb zone existing_zone && negb force_bump && negb force
          then Ok (false, None)
          else if Py.ge existing_serial serial then
            match Py.int_of_digits existing_serial with
            | Some n => write (Py.str_of_N (n + 1))
            | None => Raise (ValueError "invalid literal for int()")
            end
          else write serial
      end
  end.

(** The files after a call. *)
Definition files_after (zonefile : string) (fs : files)
  (r : result (bool * option string)) : files :=
  match r with
  | Ok (_, Some zone) => write_file zonefile zone fs
  | _ => fs
  end.

(** ** The report of the records ([build_recommended_dns]) *)

(** [[r for r in records if r[3] is not False]]: the records with an
    explanation. *)
Definition displayed (records : list record)
  : list (option string * string * string * string) :=
  flat_map (fun r : record =>
              let '(q, t, v, x) := r in
              match x with
              | Some x => [(q, t, v, x)]
              | None => []
              end) records.

(** The key of the sort: Required first, then Recommended, then the rest. *)
Definition display_rank (r : option string * string * string * string) : nat :=
  let '(_, _, _, x) := r in
  if Py.startswith x "Required." then 0
  else if Py.startswith x "Recommended." then 1 else 2.

(** The name in full: the zone's own, or the name, a dot and the zone. *)
Definition expand_qname (domain : string) (q : option string) : string :=
  match q with
  | None => domain
  | Some q => q +++ "." +++ domain
  end.

Definition recommended_record (domain : string)
  (r : option string * string * string * string) : list (string * string) :=
  let '(q, t, v, x) := r in
  [ ("qname", expand_qname domain q); ("rtype", t); ("value", v);
    ("explanation", x) ].

Definition build_recommended_dns (h : host) (stored : option custom_dns_config)
  (e : env) : result (list (string * list (list (string * string)))) :=
  let domains := get_dns_domains e in
  zonefiles <- get_dns_zones e ;;
  let additional_records := get_custom_dns_config stored in
  mapM (fun zone : string * string =>
          let (domain, zonefile) := zone in
          records <- build_zone h domain domains additional_records e true ;;
          let records := displayed records in
          let records :=
            Py.sort (fun a b => display_rank a <=? display_rank b) records in
          Ok (domain, map (recommended_record domain) records))
       zonefiles.

(** ** The configuration of the name server ([write_nsd_conf]) *)

(** [env.get(key, "")] *)
Definition env_get (v : option string) : string :=
  match v with
  | Some s => s
  | None => EmptyString
  end.

(** The text of nsd.conf.  [PRIVATE_IP] and [PRIVATE_IPV6] are two more keys
    of the environment, either of which may be missing. *)
Definition nsd_conf (zonefiles : list (string * string))
  (PRIVATE_IP PRIVATE_IPV6 : option string) : string :=
  let nsdconf :=
    NL +++
    "server:" +++ NL +++
    "  hide-version: yes" +++ NL +++
    NL +++
    "  # identify the server (CH TXT ID.SERVER entry)." +++ NL +++
    "  identity: " +++ DQUOTE +++ DQUOTE +++ NL +++
    NL +++
    "  # The directory for zonefile: files." +++ NL +++
    "  zonesdir: " +++ DQUOTE +++ "/etc/nsd/zones" +++ DQUOTE +++ NL in
  let nsdconf :=
    fold_left
      (fun nsdconf ipaddr =>
         if String.eqb ipaddr EmptyString then nsdconf
         else nsdconf +++ "  ip-address: " +++ ipaddr +++ NL)
      (Py.split " "%char (env_get PRIVATE_IP +++ " " +++ env_get PRIVATE_IPV6))
      nsdconf in
  fold_left
    (fun nsdconf (zone : string * string) =>
       let (domain, zonefile) := zone in
       nsdconf +++ NL +++
       "zone:" +++ NL +++
       TAB +++ "name: " +++ domain +++ NL +++
       TAB +++ "zonefile: " +++ zonefile +++ NL)
    zonefiles nsdconf.

(** [write_nsd_conf].  [conf] is what /etc/nsd/nsd.conf holds, if it is
    there.  The result is the value returned and, when the function writes
    the file, the text it writes. *)
Definition write_nsd_conf (zonefiles : list (string * string))
  (PRIVATE_IP PRIVATE_IPV6 : option string) (conf : option string)
  : result (bool * option string) :=
  let nsdconf := nsd_conf zonefiles PRIVATE_IP PRIVATE_IPV6 in
  match conf with
  | None => Raise OSError
  | Some existing =>
      if String.eqb existing nsdconf then Ok (false, None)
      else Ok (true, Some nsdconf)
  end.

(** ** The tables of OpenDKIM ([write_opendkim_tables]) *)

(** [os.path.join(a, b)] for a relative path [b]. *)
Definition path_join (a b : string) : string :=
  if Py.nonempty a && negb (Py.endswith a "/") then a +++ "/" +++ b
  else a +++ b.

(** The two tables: file name and content. *)
Definition opendkim_config (zonefiles : list (string * string)) (e : env)
  : list (string * string) :=
  let opendkim_key_file := path_join (STORAGE_ROOT e) "mail/dkim/mail.private" in
  [ ("SigningTable",
     String.concat EmptyString
       (map (fun zone : string * string =>
               let (domain, zonefile) := zone in
               "*@" +++ domain +++ " " +++ domain +++ NL) zonefiles));
    ("KeyTable",
     String.concat EmptyString
       (map (fun zone : string * string =>
               let (domain, zonefile) := zone in
               domain +++ " " +++ domain +++ ":mail:" +++ opendkim_key_file +++ NL)
            zonefiles)) ].

(** The body of the loop over the tables: a table is written unless the
    file is there with the same content. *)
Definition update_table (st : bool * files) (table : string * string)
  : bool * files :=
  let (did_update, fs) := st in
  let (filename, content) := table in
  match fs ("/etc/opendkim/" +++ filename) with
  | Some existing =>
      if String.eqb existing content then (did_update, fs)
      else (true, write_file ("/etc/opendkim/" +++ filename) content fs)
  | None => (true, write_file ("/etc/opendkim/" +++ filename) content fs)
  end.

(** [write_opendkim_tables]: the value returned and the files after the
    call. *)
Definition write_opendkim_tables (zonefiles : list (string * string)) (e : env)
  (fs : files) : bool * files :=
  let opendkim_key_file := path_join (STORAGE_ROOT e) "mail/dkim/mail.private" in
  match fs opendkim_key_file with
  | None => (false, fs)
  | Some _ => fold_left update_table (opendkim_config zonefiles e) (false, fs)
  end.

Unset Implicit Arguments.

(** * Notions used to state the properties *)

(** A name is [covered] by an apex when it is the apex or ends with a dot
    and the apex. *)
Definition covered (apex domain : string) : Prop :=
  domain = apex \/ Py.endswith domain ("." +++ apex) = true.

(** What the loop of [get_dns_zones] keeps true of the zones chosen so far,
    [zs], and the domains looked at so far, [seen]. *)
Record resolver_inv (zs seen : list string) : Prop := {
  inv_incl : incl zs seen;
  inv_nodup : NoDup zs;
  inv_apart : forall a b, In a zs -> In b zs ->
                Py.endswith a ("." +++ b) = false;
  inv_cover : forall x, In x seen -> exists a, In a zs /\ covered a x
}.

(** The store holds no record of type [rtype] for [qname]. *)
Definition holds_no_record (config : custom_dns_config) (qname rtype : string)
  : Prop :=
  match Py.dict_get qname config with
  | None => True
  | Some (ShortForm _) => rtype <> "A"
  | Some (MappingForm values) => Py.dict_get rtype values = None
  | Some OtherData => False
  end.

(** ** Inputs of the examples *)

Definition demo_env : env :=
  {| PRIMARY_HOSTNAME := "box.example.com";
     PUBLIC_IP := "203.0.113.1";
     PUBLIC_IPV6 := None;
     STORAGE_ROOT := "/home/user-data" |}.


Definition demo_mail_domains (e : env) : list string :=
  ["example.com"; "mail.example.com"; "example.org"].

Definition demo_sort_domains (names : list string) (e : env) : list string :=
  names.

Definition demo_safe_domain_name (name : string) : string := name.

(** A stand-in for [ipaddress.ip_address], right on the values of the
    examples: digits and dots make an IPv4 address, a colon makes an IPv6
    address. *)
Fixpoint demo_has_char (c : ascii) (s : string) : bool :=
  match s with
  | EmptyString => false
  | String a s' => Ascii.eqb a c || demo_has_char c s'
  end.

Definition demo_ip_address (s : string) : option ip_version :=
  if demo_has_char ":"%char s then Some IPv6Address
  else if demo_has_char "."%char s && negb (demo_has_char "l"%char s)
       then Some IPv4Address
       else None.

Definition demo_sshfp_digest (pubkey : string) : option string :=
  Some ("0F" +++ pubkey).

Definition demo_host : host :=
  {| ssl_certificate_sha256 := Some "5a1b";
     ssh_keyscan := Some ("localhost ssh-rsa QUJD" +++ NL);
     dkim_mail_txt :=
       Some ("mail._domainkey IN TXT ( " +++ DQUOTE +++ "v=DKIM1; k=rsa; "
             +++ DQUOTE +++ " " +++ DQUOTE +++ "p=MIGf" +++ DQUOTE +++ " )") |}.

(** [r] is a strict policy record that the records [pre] call for: the SPF
    record of a name with an A or AAAA record and no SPF record in [pre], or
    the DMARC record of such a name with no DMARC record in [pre]. *)
Definition is_backstop_for (pre : list record) (r : record) : Prop :=
  exists q,
    In q (all_resolvable_qnames pre) /\
    ((r = spf_backstop q /\
      has_rec pre q "TXT" (Some "v=spf1 ") = false) \/
     (r = dmarc_backstop q /\
      has_rec pre (Some (dmarc_qname_of q)) "TXT" (Some "v=DMARC1; ") = false)).

(** [r] is a record of name [q] and type [t]. *)
Definition at_name_type (q : option string) (t : string) (r : record) : bool :=
  let '(q', t', _, _) := r in option_eqb q' q && String.eqb t' t.

(** The same for what [get_custom_records] yields. *)
Definition custom_at (q : option string) (t : string)
  (c : option string * string * string) : bool :=
  let '(q', t', _) := c in option_eqb q' q && String.eqb t' t.

(** [r] is not a record set by the user, and holds the box's address when
    it is an A or AAAA record. *)
Definition builtin_value (e : env) (r : record) : Prop :=
  let '(_, t, v, x) := r in
  x <> Some "(Set by user.)" /\
  (t = "A" -> v = PUBLIC_IP e) /\
  (t = "AAAA" -> PUBLIC_IPV6 e = Some v).

(** The value that a call returned and the text that it wrote. *)
Definition returned {A} (r : result (bool * option A)) : option bool :=
  match r with
  | Ok (b, _) => Some b
  | Raise _ => None
  end.

Definition written {A} (r : result (bool * option A)) : option A :=
  match r with
  | Ok (_, w) => w
  | Raise _ => None
  end.

Definition demo_zonefile : string := "/etc/nsd/zones/example.com.txt".

Definition demo_no_files : files := fun _ => None.

Definition demo_now : datetime :=
  {| year := 2014; month := 6; day := 3;
     hour := 12; minute := 0; second := 0; microsecond := 0 |}.

Definition demo_next_hour : datetime :=
  {| year := 2014; month := 6; day := 3;
     hour := 13; minute := 0; second := 0; microsecond := 0 |}.


(** A signed zone, as ldns-signzone writes the signature over the SOA
    record: it expires on 3 July 2014. *)
Definition demo_signed_zone : string :=
  "example.com." +++ TAB +++ "1800" +++ TAB +++ "IN" +++ TAB +++ "RRSIG" +++ TAB +++
  "SOA 7 2 1800 20140703000000 20140603000000 12345 example.com. c2lnbmF0dXJl"
  +++ NL.

Definition demo_records : list record :=
  [ (None, "NS", "ns1.box.example.com.", None);
    (None, "A", "203.0.113.1", Some "(Set by user.)");
    (Some "www", "TXT", "hello", Some "(Set by user.)") ].

(** The same zone with a TXT record whose value is the text that
    [write_nsd_zone] uses as the place of the serial number. *)
Definition demo_records_placeholder : list record :=
  [ (None, "NS", "ns1.box.example.com.", None);
    (None, "A", "203.0.113.1", Some "(Set by user.)");
    (Some "www", "TXT", "__SERIAL__", Some "(Set by user.)") ].

(** A zone file on disk with the serial number [serial]. *)
Definition demo_zone_with_serial (serial : string) : files :=
  write_file demo_zonefile
    (Py.replace (render_zone "example.com" demo_records demo_env) "__SERIAL__" serial)
    demo_no_files.

(** What a proof does not need of the other modules is put aside before the
    automation runs, so that no lemma depends on more than its statement. *)
Ltac forget_externals :=
  try clear sshfp_digest; try clear ip_address; try clear safe_domain_name;
  try clear sort_domains; try clear get_mail_domains.

(** ** Notions for the further properties *)

(** The value that the store holds for a name and a record type, as
    [set_custom_dns_record] reads the store: a string is the A record. *)
Definition stored_value (config : custom_dns_config) (qname rtype : string)
  : option string :=
  match Py.dict_get qname config with
  | Some (ShortForm v) => if String.eqb rtype "A" then Some v else None
  | Some (MappingForm values) => Py.dict_get rtype values
  | _ => None
  end.

(** An association list that is a dictionary: no key twice. *)
Definition is_dict {V} (d : list (string * V)) : Prop := NoDup (map fst d).

(** The store as YAML loads it: no name twice, and no record type twice
    under a name. *)
Definition store_is_dict (config : custom_dns_config) : Prop :=
  is_dict config /\
  forall qname values, In (qname, MappingForm values) config -> is_dict values.

(** No name of the store maps to an empty mapping. *)
Definition no_empty_mapping (config : custom_dns_config) : Prop :=
  forall qname, ~ In (qname, MappingForm []) config.

(** The entry of the store is for the zone [domain]: its name is the
    domain or ends with a dot and the domain. *)
Definition entry_of_zone (domain : string) (entry : string * custom_value) : bool :=
  String.eqb (fst entry) domain || Py.endswith (fst entry) ("." +++ domain).

(** The part of [set_custom_dns_record] after the checks, on the loaded
    mapping and the record type in upper case ([set_custom_dns_record_eq]
    below says that it is that part). *)
Definition store_update (qname rtype : string) (value : option string)
  (config : custom_dns_config) : result (bool * option custom_dns_config) :=
  match Py.dict_get qname config with
  | None =>
      match value with
      | None => Ok (false, None)
      | Some value =>
          if String.eqb rtype "A"
          then Ok (true, Some (Py.dict_set qname (ShortForm value) config))
          else Ok (true, Some (Py.dict_set qname (MappingForm [(rtype, value)]) config))
      end
  | Some (ShortForm current) =>
      match value with
      | None =>
          if negb (String.eqb rtype "A") then Ok (false, None)
          else Ok (true, Some (Py.dict_del qname config))
      | Some value =>
          if String.eqb rtype "A" then
            if String.eqb current "value" then Ok (false, None)
            else Ok (true, Some (Py.dict_set qname (ShortForm value) config))
          else
            Ok (true, Some (Py.dict_set qname
                              (MappingForm [("A", current); (rtype, value)]) config))
      end
  | Some (MappingForm values) =>
      match value with
      | None =>
          match Py.dict_get rtype values with
          | None => Ok (false, None)
          | Some _ =>
              let values := Py.dict_del rtype values in
              if List.length values =? 0
              then Ok (true, Some (Py.dict_del qname config))
              else Ok (true, Some (Py.dict_set qname (MappingForm values) config))
          end
      | Some value =>
          if option_eqb (Py.dict_get rtype values) (Some "value")
          then Ok (false, None)
          else Ok (true, Some (Py.dict_set qname
                                 (MappingForm (Py.dict_set rtype value values)) config))
      end
  | Some OtherData => Raise TypeError
  end.

(** A store for the examples of the further properties. *)
Definition demo_store : custom_dns_config :=
  [ ("www.example.com", MappingForm [("TXT", "hello")]);
    ("example.org", ShortForm "198.51.100.7") ].

(** A record of the zone's own name. *)
Definition is_apex (r : record) : bool :=
  match fst (fst (fst r)) with
  | None => true
  | Some _ => false
  end.

(** The records of the zone's own name come first. *)
Definition apex_first (records : list record) : Prop :=
  exists apex named,
    records = apex ++ named /\
    Forall (fun r => is_apex r = true) apex /\
    Forall (fun r => is_apex r = false) named.

(** The number that a string of digits spells, read from the left. *)
Fixpoint digits_value (acc : N) (s : string) : N :=
  match s with
  | EmptyString => acc
  | String c s' =>
      digits_value (10 * acc + (N.of_nat (nat_of_ascii c) - 48))%N s'
  end.

(** A string of digits. *)
Definition all_digits (s : string) : Prop :=
  forall c, In c (list_ascii_of_string s) -> Py.isdigit c = true.

(** The widths of the fields of the date, checked number by number. *)
Definition width_ok (width : nat) (k : nat) : bool :=
  String.length (zero_padded width (Z.of_nat k)) =? width.

(** A store that uses the keyword [local]. *)
Definition demo_store_local : custom_dns_config :=
  [ ("example.com", ShortForm "local");
    ("www.example.com", MappingForm [("TXT", "local")]);
    ("example.org", ShortForm "198.51.100.7") ].

(** The character [c] occurs in [s]. *)
Fixpoint has_char (c : ascii) (s : string) : bool :=
  match s with
  | EmptyString => false
  | String a s' => Ascii.eqb a c || has_char c s'
  end.

(** The names of the zones and of their files hold no line break. *)
Definition one_line_names (zonefiles : list (string * string)) : Prop :=
  forall zone, In zone zonefiles ->
    has_char (ascii_of_nat 10) (fst zone) = false /\
    has_char (ascii_of_nat 10) (snd zone) = false.

(** The lines of one zone in nsd.conf. *)
Definition zone_block (zone : string * string) : string :=
  NL +++ "zone:" +++ NL +++ TAB +++ "name: " +++ fst zone +++ NL +++
  TAB +++ "zonefile: " +++ snd zone +++ NL.

(** How a reader of a zone file takes the text between two quotes: a
    backslash gives the character after it, and a quote that no backslash
    precedes would end the text.  [escaped] says that the character before
    was such a backslash.  [unquote] is the text read, and [quoted_text]
    says that the text has no quote of its own and no backslash left
    open. *)
Fixpoint unquote (escaped : bool) (s : string) : string :=
  match s with
  | EmptyString => EmptyString
  | String a s' =>
      if escaped then String a (unquote false s')
      else if Ascii.eqb a (ascii_of_nat 92) then unquote true s'
      else String a (unquote false s')
  end.

Fixpoint quoted_text (escaped : bool) (s : string) : bool :=
  match s with
  | EmptyString => negb escaped
  | String a s' =>
      if escaped then quoted_text false s'
      else if Ascii.eqb a (ascii_of_nat 92) then quoted_text true s'
      else negb (Ascii.eqb a (ascii_of_nat 34)) && quoted_text false s'
  end.

(** * Properties *)

(** ** Strings *)

Lemma append_assoc (a b c : string) : (a +++ b) +++ c = a +++ (b +++ c).
Proof. induction a as [|x a IH]; simpl; [reflexivity | now rewrite IH]. Qed.

Lemma append_nil_r (a : string) : a +++ EmptyString = a.
Proof. induction a as [|x a IH]; simpl; [reflexivity | now rewrite IH]. Qed.

Lemma length_append (a b : string) :
  String.length (a +++ b) = String.length a + String.length b.
Proof. induction a as [|x a IH]; simpl; [reflexivity | now rewrite IH]. Qed.

Lemma endswith_nil (suf : string) :
  Py.endswith EmptyString suf = String.eqb EmptyString suf.
Proof. unfold Py.endswith. apply orb_false_r. Qed.

Lemma endswith_cons (c : ascii) (s suf : string) :
  Py.endswith (String c s) suf
  = String.eqb (String c s) suf || Py.endswith s suf.
Proof. reflexivity. Qed.

Lemma endswith_iff (s suf : string) :
  Py.endswith s suf = true <-> exists p, s = p +++ suf.
Proof.
  induction s as [|c s IH].
  - rewrite endswith_nil, String.eqb_eq. split.
    + intros <-. now exists EmptyString.
    + intros [p Hp]. destruct p; simpl in Hp; [easy | discriminate].
  - rewrite endswith_cons, orb_true_iff, String.eqb_eq, IH. split.
    + intros [<- | [p ->]]; [now exists EmptyString | now exists (String c p)].
    + intros [[|x p] Hp]; simpl in Hp.
      * now left.
      * injection Hp as -> ->. right. now exists p.
Qed.

Lemma endswith_refl (s : string) : Py.endswith s s = true.
Proof. apply endswith_iff. now exists EmptyString. Qed.

Lemma endswith_length (s suf : string) :
  Py.endswith s suf = true -> String.length suf <= String.length s.
Proof.
  intros [p ->]%endswith_iff. rewrite length_append. lia.
Qed.

(** Two ends of one string: the shorter is an end of the longer. *)
Lemma append_eq_suffix (p1 s1 p2 s2 : string) :
  p1 +++ s1 = p2 +++ s2 -> String.length s1 <= String.length s2 ->
  exists r, s2 = r +++ s1.
Proof.
  revert p2. induction p1 as [|c p1 IH]; intros p2 H Hlen; simpl in H.
  - destruct p2 as [|d p2]; simpl in H.
    + exists EmptyString. now subst.
    + subst s1. simpl in Hlen. rewrite length_append in Hlen. lia.
  - destruct p2 as [|d p2]; simpl in H.
    + subst s2. now exists (String c p1).
    + injection H as _ H. now apply (IH p2).
Qed.

(** A name below two apexes: one apex is below the other, or they are the
    same. *)
Lemma two_parents (x a b : string) :
  Py.endswith x ("." +++ a) = true -> Py.endswith x ("." +++ b) = true ->
  String.length a <= String.length b ->
  a = b \/ Py.endswith b ("." +++ a) = true.
Proof.
  intros [p Hp]%endswith_iff [q Hq]%endswith_iff Hlen.
  assert (H : exists r, "." +++ b = r +++ "." +++ a).
  { apply (append_eq_suffix p ("." +++ a) q ("." +++ b));
      [congruence | simpl; lia]. }
  destruct H as [[|c r] Hr]; simpl in Hr.
  - left. now injection Hr.
  - right. injection Hr as _ ->. apply endswith_iff. now exists r.
Qed.

Lemma mem_iff (x : string) (l : list string) : Py.mem x l = true <-> In x l.
Proof.
  unfold Py.mem. rewrite existsb_exists. split.
  - intros [y [Hy ->%String.eqb_eq]]. exact Hy.
  - intros H. exists x. now rewrite String.eqb_refl.
Qed.

Lemma set_add_in (x y : string) (s : list string) :
  In y (Py.set_add x s) <-> y = x \/ In y s.
Proof. forget_externals.
  unfold Py.set_add. destruct (Py.mem x s) eqn:E.
  - apply mem_iff in E. split; [now right | intros [-> |]; assumption].
  - rewrite in_app_iff. simpl. intuition.
Qed.

Lemma set_add_nodup (x : string) (s : list string) :
  NoDup s -> NoDup (Py.set_add x s).
Proof.
  intros H. unfold Py.set_add. destruct (Py.mem x s) eqn:E; [assumption|].
  apply NoDup_app; [assumption | repeat constructor; easy |].
  intros y Hy [<- | []]. apply mem_iff in Hy. congruence.
Qed.

(** ** Sorting *)

Lemma insert_sorted_perm {A} (le : A -> A -> bool) (x : A) (l : list A) :
  Permutation (Py.insert_sorted le x l) (x :: l).
Proof.
  induction l as [|y l IH]; simpl; [reflexivity|].
  destruct (le x y); [reflexivity|].
  rewrite IH. apply perm_swap.
Qed.

Lemma sort_perm {A} (le : A -> A -> bool) (l : list A) :
  Permutation (Py.sort le l) l.
Proof.
  induction l as [|x l IH]; simpl; [reflexivity|].
  rewrite insert_sorted_perm. now constructor.
Qed.

Lemma filter_perm {A} (f : A -> bool) (l l' : list A) :
  Permutation l l' -> Permutation (filter f l) (filter f l').
Proof.
  induction 1 as [| x l l' _ IH | x y l | l l' l'' _ IH1 _ IH2]; simpl.
  - constructor.
  - destruct (f x); [now constructor | assumption].
  - destruct (f x), (f y); try reflexivity. apply perm_swap.
  - now transitivity (filter f l').
Qed.

Lemma sort_in {A} (le : A -> A -> bool) (l : list A) (x : A) :
  In x (Py.sort le l) <-> In x l.
Proof.
  split; apply Permutation_in; [|symmetry]; apply sort_perm.
Qed.

(** ** The domain set resolver *)

Lemma insert_sorted_by_length (x : string) (l : list string) :
  StronglySorted (fun a b => String.length a <= String.length b) l ->
  StronglySorted (fun a b => String.length a <= String.length b)
    (Py.insert_sorted shorter x l).
Proof.
  induction 1 as [|y l Hs IH Hy]; simpl.
  - repeat constructor.
  - unfold shorter at 1. destruct (Nat.leb_spec (String.length x) (String.length y)).
    + constructor; [now constructor|].
      constructor; [assumption|].
      rewrite Forall_forall in *. intros z Hz. specialize (Hy z Hz). lia.
    + constructor; [assumption|].
      rewrite Forall_forall in *. intros z Hz.
      apply (Permutation_in _ (insert_sorted_perm shorter x l)) in Hz.
      destruct Hz as [<- | Hz]; [lia | now apply Hy].
Qed.

Lemma sort_by_length (l : list string) :
  StronglySorted (fun a b => String.length a <= String.length b)
    (Py.sort shorter l).
Proof.
  induction l as [|x l IH]; simpl; [constructor|].
  now apply insert_sorted_by_length.
Qed.

Lemma has_parent_iff (zs : list string) (domain : string) :
  has_parent zs domain = true <->
  exists d, In d zs /\ Py.endswith domain ("." +++ d) = true.
Proof. unfold has_parent. apply existsb_exists. Qed.

Lemma not_below_shorter (a b : string) :
  String.length a <= String.length b -> Py.endswith a ("." +++ b) = false.
Proof.
  intros H. destruct (Py.endswith a ("." +++ b)) eqn:E; [|reflexivity].
  apply endswith_length in E. simpl in E. lia.
Qed.

Lemma resolver_step (zs seen : list string) (domain : string) :
  resolver_inv zs seen ->
  (forall a, In a seen -> String.length a <= String.length domain) ->
  resolver_inv
    (if has_parent zs domain then zs else Py.set_add domain zs)
    (seen ++ [domain]).
Proof.
  intros [Hi Hn Ha Hc] Hlen.
  destruct (has_parent zs domain) eqn:E.
  - apply has_parent_iff in E. destruct E as [d [Hd Hend]].
    split; try assumption.
    + intros a Ha'. apply in_or_app. left. now apply Hi.
    + intros x [Hx | [<- | []]]%in_app_or; [now apply Hc|].
      exists d. split; [assumption | now right].
  - assert (Hnone : forall d, In d zs -> Py.endswith domain ("." +++ d) = false).
    { intros d Hd. destruct (Py.endswith domain ("." +++ d)) eqn:E'; [|reflexivity].
      assert (has_parent zs domain = true) by (apply has_parent_iff; eauto).
      congruence. }
    split.
    + intros a [-> | Ha']%set_add_in; apply in_or_app;
        [right; now left | left; now apply Hi].
    + now apply set_add_nodup.
    + intros a b [-> | Ha']%set_add_in [-> | Hb']%set_add_in.
      * apply not_below_shorter. lia.
      * now apply Hnone.
      * apply not_below_shorter. apply Hlen. now apply Hi.
      * now apply Ha.
    + intros x [Hx | [<- | []]]%in_app_or.
      * destruct (Hc x Hx) as [a [Ha1 Ha2]]. exists a. split; [|assumption].
        apply set_add_in. now right.
      * exists domain. split; [apply set_add_in; now left | now left].
Qed.

Lemma resolver_loop (l zs seen : list string) :
  StronglySorted (fun a b => String.length a <= String.length b) l ->
  (forall a x, In a seen -> In x l -> String.length a <= String.length x) ->
  resolver_inv zs seen ->
  resolver_inv
    (fold_left (fun zone_domains domain =>
                  if has_parent zone_domains domain then zone_domains
                  else Py.set_add domain zone_domains) l zs)
    (seen ++ l).
Proof.
  revert zs seen. induction l as [|d l IH]; intros zs seen Hs Hlen Hinv; simpl.
  - now rewrite app_nil_r.
  - inversion Hs as [|? ? Hs' Hd]; subst.
    replace (seen ++ d :: l) with ((seen ++ [d]) ++ l)
      by (now rewrite <- app_assoc).
    apply IH; [assumption | |].
    + intros a x [Ha | [<- | []]]%in_app_or Hx.
      * apply Hlen; [assumption | now right].
      * rewrite Forall_forall in Hd. now apply Hd.
    + apply resolver_step; [assumption|].
      intros a Ha. apply Hlen; [assumption | now left].
Qed.

Lemma zone_domains_of_inv (domains : list string) :
  resolver_inv (zone_domains_of domains) (Py.sort shorter domains).
Proof.
  unfold zone_domains_of.
  apply (resolver_loop (Py.sort shorter domains) [] []).
  - apply sort_by_length.
  - intros a x [].
  - split; [easy | constructor | easy | easy].
Qed.

(** The apexes are pairwise apart, and every domain has exactly one apex
    that covers it. *)
Lemma zone_domains_of_spec (domains : list string) :
  let zs := zone_domains_of domains in
  NoDup zs /\
  incl zs domains /\
  (forall a b, In a zs -> In b zs -> Py.endswith a ("." +++ b) = false) /\
  (forall x, In x domains ->
     exists a, In a zs /\ covered a x /\
               forall b, In b zs -> covered b x -> b = a).
Proof.
  destruct (zone_domains_of_inv domains) as [Hi Hn Ha Hc]. cbn zeta.
  repeat split; try assumption.
  - intros a Ha'. apply (sort_in shorter). now apply Hi.
  - intros x Hx. apply (sort_in shorter) in Hx.
    destruct (Hc x Hx) as [a [Ha1 Ha2]]. exists a. repeat split; try assumption.
    intros b Hb1 Hb2.
    destruct Ha2 as [-> | Ha2], Hb2 as [Hb2 | Hb2].
    + now symmetry.
    + rewrite (Ha a b) in Hb2 by assumption. discriminate.
    + subst x. rewrite (Ha b a) in Ha2 by assumption. discriminate.
    + destruct (Nat.le_ge_cases (String.length a) (String.length b)) as [Hl | Hl].
      * destruct (two_parents x a b Ha2 Hb2 Hl) as [-> | Hend]; [reflexivity|].
        rewrite (Ha b a) in Hend by assumption. discriminate.
      * destruct (two_parents x b a Hb2 Ha2 Hl) as [-> | Hend]; [reflexivity|].
        rewrite (Ha a b) in Hend by assumption. discriminate.
Qed.

Lemma index_some (x : string) (l : list string) :
  In x l -> exists i, Py.index x l = Some i.
Proof.
  induction l as [|y l IH]; simpl; [easy|].
  intros H. destruct (String.eqb_spec y x) as [_ | Hne]; [now exists 0|].
  destruct H as [H | H]; [contradiction|].
  destruct (IH H) as [i ->]. now exists (S i).
Qed.

(** The decoration of [zonefiles.sort(key=...)]: each zone with its place in
    [zone_order]. *)
Lemma mapM_keyed (zone_order : list string) (zonefiles : list (string * string))
  (keyed : list (nat * (string * string))) :
  mapM (fun zone : string * string =>
          match Py.index (fst zone) zone_order with
          | Some i => Ok (i, zone)
          | None => Raise (ValueError "not in list")
          end) zonefiles = Ok keyed ->
  map snd keyed = zonefiles.
Proof.
  revert keyed. induction zonefiles as [|z l IH]; intros keyed; simpl.
  - now intros [= <-].
  - destruct (Py.index (fst z) zone_order); simpl; [|discriminate].
    destruct (mapM _ l) as [ks|]; simpl; [|discriminate].
    intros [= <-]. simpl. now rewrite (IH ks).
Qed.

Lemma mapM_keyed_ok (zone_order : list string) (zonefiles : list (string * string)) :
  (forall z, In z zonefiles -> In (fst z) zone_order) ->
  exists keyed,
    mapM (fun zone : string * string =>
            match Py.index (fst zone) zone_order with
            | Some i => Ok (i, zone)
            | None => Raise (ValueError "not in list")
            end) zonefiles = Ok keyed.
Proof.
  induction zonefiles as [|z l IH]; intros H; simpl.
  - now exists [].
  - destruct (index_some (fst z) zone_order) as [i ->]; [apply H; now left|].
    destruct IH as [ks ->]; [intros z' Hz'; apply H; now right|].
    simpl. eauto.
Qed.

(** The zones that [get_dns_zones] returns are those of [zone_domains_of],
    in the order that [sort_domains] gives. *)
Lemma get_dns_zones_apexes (e : env) (zones : list (string * string)) :
  get_dns_zones e = Ok zones ->
  Permutation (map fst zones) (zone_domains_of (get_dns_domains e)).
Proof.
  unfold get_dns_zones.
  set (zs := zone_domains_of (get_dns_domains e)).
  set (zonefiles := map (fun domain => (domain, safe_domain_name domain +++ ".txt")) zs).
  destruct (mapM _ zonefiles) as [keyed|] eqn:E; simpl; [|discriminate].
  intros [= <-].
  apply mapM_keyed in E.
  rewrite (Permutation_map fst (Permutation_map snd (sort_perm _ keyed))).
  rewrite E. unfold zonefiles. rewrite map_map. simpl. now rewrite map_id.
Qed.

Lemma get_dns_zones_returns (e : env) :
  (forall l, incl l (sort_domains l e)) ->
  exists zones, get_dns_zones e = Ok zones.
Proof.
  intros Hsort. unfold get_dns_zones.
  set (zs := zone_domains_of (get_dns_domains e)).
  set (zonefiles := map (fun domain => (domain, safe_domain_name domain +++ ".txt")) zs).
  destruct (mapM_keyed_ok (sort_domains (map fst zonefiles) e) zonefiles) as [keyed ->].
  - intros z Hz. apply Hsort. now apply in_map.
  - simpl. eauto.
Qed.

(** Claim C4 (apex minimality and coverage).  When [sort_domains] returns
    every name it is given, [get_dns_zones] returns a list of zones whose
    apexes are distinct, no apex ends with a dot and another apex, and every
    domain of [get_dns_domains] is covered by exactly one apex: the domain
    itself, or the one apex that it ends with after a dot. *)
Theorem get_dns_zones_minimal_cover (e : env) :
  (forall l, incl l (sort_domains l e)) ->
  exists zones,
    get_dns_zones e = Ok zones /\
    NoDup (map fst zones) /\
    (forall a b, In a (map fst zones) -> In b (map fst zones) ->
       Py.endswith a ("." +++ b) = false) /\
    (forall x, In x (get_dns_domains e) ->
       exists a, In a (map fst zones) /\ covered a x /\
                 forall b, In b (map fst zones) -> covered b x -> b = a).
Proof.
  intros Hsort. destruct (get_dns_zones_returns e Hsort) as [zones Hz].
  exists zones. split; [assumption|].
  pose proof (get_dns_zones_apexes e zones Hz) as Hp.
  destruct (zone_domains_of_spec (get_dns_domains e)) as [Hn [_ [Ha Hc]]].
  assert (Hin : forall a, In a (map fst zones) <->
                          In a (zone_domains_of (get_dns_domains e))).
  { intros a. split; apply Permutation_in; [assumption | now symmetry]. }
  repeat split.
  - apply (Permutation_NoDup (l := zone_domains_of (get_dns_domains e)));
      [now symmetry | assumption].
  - intros a b Ha' Hb'. apply Ha; now apply Hin.
  - intros x Hx. destruct (Hc x Hx) as [a [Ha1 [Ha2 Ha3]]].
    exists a. repeat split; [now apply Hin | assumption |].
    intros b Hb1 Hb2. apply Ha3; [now apply Hin | assumption].
Qed.

(** ** The custom override store *)

Lemma validate_rtype_delete (rtype : string) : validate_rtype rtype None = Ok tt.
Proof. reflexivity. Qed.

(** The checks on the type and the value, case by case. *)
Lemma validate_rtype_spec (rtype v : string) :
  validate_rtype rtype (Some v) = Ok tt <->
  (rtype = "A" /\ ip_address v = Some IPv4Address) \/
  (rtype = "AAAA" /\ ip_address v = Some IPv6Address) \/
  rtype = "CNAME" \/ rtype = "TXT".
Proof. forget_externals.
  destruct (string_dec rtype "A") as [-> | HA];
    [|destruct (string_dec rtype "AAAA") as [-> | HAAAA];
      [|destruct (string_dec rtype "CNAME") as [-> | HC];
        [|destruct (string_dec rtype "TXT") as [-> | HT]]]].
  - unfold validate_rtype. cbn.
    destruct (ip_address v) as [[|]|]; intuition (try discriminate; congruence).
  - unfold validate_rtype. cbn.
    destruct (ip_address v) as [[|]|]; intuition (try discriminate; congruence).
  - unfold validate_rtype. cbn. intuition (try discriminate; congruence).
  - unfold validate_rtype. cbn. intuition (try discriminate; congruence).
  - unfold validate_rtype.
    destruct (Py.mem rtype ["A"; "AAAA"]) eqn:E1.
    { apply mem_iff in E1. simpl in E1. intuition congruence. }
    destruct (Py.mem rtype ["CNAME"; "TXT"]) eqn:E2.
    { apply mem_iff in E2. simpl in E2. intuition congruence. }
    intuition (try discriminate; congruence).
Qed.

Lemma validate_rtype_raises (rtype : string) (value : option string) :
  validate_rtype rtype value = Ok tt \/
  exists msg, validate_rtype rtype value = Raise (ValueError msg).
Proof.
  destruct value as [v|]; [|now left].
  unfold validate_rtype.
  destruct (Py.mem rtype ["A"; "AAAA"]).
  - destruct (ip_address v) as [[|]|]; [| |right; eauto].
    + destruct (String.eqb rtype "AAAA"); [right; eauto | now left].
    + destruct (String.eqb rtype "A"); [right; eauto | now left].
  - destruct (Py.mem rtype ["CNAME"; "TXT"]); [now left | right; eauto].
Qed.

(** Deleting a record that the store does not hold, for a name that passes
    the first check: nothing is written and [False] is returned. *)
Lemma delete_missing_record (qname rtype : string) (e : env)
  (stored : option custom_dns_config) (zones : list (string * string)) :
  get_dns_zones e = Ok zones ->
  is_managed zones qname = true ->
  holds_no_record (get_custom_dns_config stored) qname (Py.upper rtype) ->
  set_custom_dns_record qname rtype None e stored = Ok (false, None).
Proof.
  intros Hz Hm Hno. unfold set_custom_dns_record. rewrite Hz. simpl.
  rewrite Hm. simpl. unfold holds_no_record in Hno.
  destruct (Py.dict_get qname (get_custom_dns_config stored)) as [[cur | values |]|];
    try reflexivity.
  - destruct (String.eqb_spec (Py.upper rtype) "A"); [contradiction | reflexivity].
  - now rewrite Hno.
  - contradiction.
Qed.

(** A name outside every zone is refused before anything else is looked
    at. *)
Lemma unmanaged_name_raises (qname rtype : string) (value : option string)
  (e : env) (stored : option custom_dns_config) (zones : list (string * string)) :
  get_dns_zones e = Ok zones ->
  is_managed zones qname = false ->
  set_custom_dns_record qname rtype value e stored
  = Raise (ValueError (qname +++
      " is not a domain name or a subdomain of a domain name managed by this box.")).
Proof.
  intros Hz Hm. unfold set_custom_dns_record. rewrite Hz. simpl.
  now rewrite Hm.
Qed.

Lemma invalid_value_raises (qname rtype : string) (value : option string)
  (e : env) (stored : option custom_dns_config) (zones : list (string * string))
  (msg : string) :
  get_dns_zones e = Ok zones ->
  validate_rtype (Py.upper rtype) value = Raise (ValueError msg) ->
  exists msg',
    set_custom_dns_record qname rtype value e stored = Raise (ValueError msg').
Proof.
  intros Hz Hv. unfold set_custom_dns_record. rewrite Hz. simpl.
  destruct (is_managed zones qname); simpl; [|eauto].
  rewrite Hv. simpl. eauto.
Qed.

Lemma valid_value_no_value_error (qname rtype : string) (value : option string)
  (e : env) (stored : option custom_dns_config) (zones : list (string * string)) :
  get_dns_zones e = Ok zones ->
  is_managed zones qname = true ->
  validate_rtype (Py.upper rtype) value = Ok tt ->
  forall msg,
    set_custom_dns_record qname rtype value e stored <> Raise (ValueError msg).
Proof.
  intros Hz Hm Hv msg. unfold set_custom_dns_record. rewrite Hz. simpl.
  rewrite Hm. simpl. rewrite Hv. simpl.
  destruct (Py.dict_get qname (get_custom_dns_config stored)) as [[cur | values |]|];
    destruct value as [v|];
    repeat match goal with
           | |- context [if ?b then _ else _] => destruct b
           | |- context [match ?o with Some _ => _ | None => _ end] => destruct o
           end; discriminate.
Qed.

(** The tests for "no change" look at the text "value": for a name that is
    a zone or below one, in short form with an A value other than that text,
    setting an IPv4 address, the stored one too, writes the store and
    returns [True]. *)
Lemma short_form_update_writes (qname v current : string) (e : env)
  (config : custom_dns_config) (zones : list (string * string)) :
  get_dns_zones e = Ok zones ->
  is_managed zones qname = true ->
  ip_address v = Some IPv4Address ->
  Py.dict_get qname config = Some (ShortForm current) ->
  current <> "value" ->
  set_custom_dns_record qname "A" (Some v) e (Some config)
  = Ok (true, Some (Py.dict_set qname (ShortForm v) config)).
Proof.
  intros Hz Hm Hv Hget Hne. unfold set_custom_dns_record.
  rewrite Hz. simpl. rewrite Hm. simpl.
  unfold validate_rtype. cbn. rewrite Hv. cbn. rewrite Hget.
  now rewrite (proj2 (String.eqb_neq current "value") Hne).
Qed.

(** Claim C8, as amended (deleting a record that is not there).  Take a
    store that holds no record of the type, read in upper case, for the
    name.  For a name that is a zone or below one, [set_custom_dns_record]
    with no value returns [False]; for any other name it raises
    [ValueError]; either way nothing is written and the store is as it
    was. *)
Theorem delete_nonexistent_is_noop (qname rtype : string) (e : env)
  (stored : option custom_dns_config) (zones : list (string * string)) :
  get_dns_zones e = Ok zones ->
  holds_no_record (get_custom_dns_config stored) qname (Py.upper rtype) ->
  (is_managed zones qname = true ->
   set_custom_dns_record qname rtype None e stored = Ok (false, None)) /\
  (is_managed zones qname = false ->
   exists msg,
     set_custom_dns_record qname rtype None e stored = Raise (ValueError msg)) /\
  written (set_custom_dns_record qname rtype None e stored) = None /\
  store_after stored (set_custom_dns_record qname rtype None e stored) = stored.
Proof.
  intros Hz Hno.
  destruct (is_managed zones qname) eqn:Hm.
  - rewrite (delete_missing_record qname rtype e stored zones Hz Hm Hno).
    repeat split. discriminate.
  - rewrite (unmanaged_name_raises qname rtype None e stored zones Hz Hm).
    repeat split; [discriminate | eauto].
Qed.

(** Claim C9, as amended (validation).  With the record type read in upper
    case: a name that is neither a zone nor below one, a value with a type
    other than A, AAAA, CNAME and TXT, an A value that is not an IPv4
    address and an AAAA value that is not an IPv6 address each make
    [set_custom_dns_record] raise [ValueError] and leave the store as it
    was; and for a name that is a zone or below one, a CNAME or TXT value
    never raises [ValueError]. *)
Theorem validation_raises_and_keeps_store (qname rtype : string)
  (value : option string) (e : env) (stored : option custom_dns_config)
  (zones : list (string * string)) :
  get_dns_zones e = Ok zones ->
  (is_managed zones qname = false \/
   (exists v, value = Some v /\
              ~ In (Py.upper rtype) ["A"; "AAAA"; "CNAME"; "TXT"]) \/
   (exists v, value = Some v /\ Py.upper rtype = "A" /\
              ip_address v <> Some IPv4Address) \/
   (exists v, value = Some v /\ Py.upper rtype = "AAAA" /\
              ip_address v <> Some IPv6Address) ->
   (exists msg,
      set_custom_dns_record qname rtype value e stored = Raise (ValueError msg)) /\
   store_after stored (set_custom_dns_record qname rtype value e stored) = stored)
  /\
  (is_managed zones qname = true ->
   In (Py.upper rtype) ["CNAME"; "TXT"] ->
   forall msg,
     set_custom_dns_record qname rtype value e stored <> Raise (ValueError msg)).
Proof. forget_externals.
  intros Hz. split.
  - intros H.
    assert (Hr : exists msg,
               set_custom_dns_record qname rtype value e stored
               = Raise (ValueError msg)).
    { destruct H as [Hm | H].
      - rewrite (unmanaged_name_raises qname rtype value e stored zones Hz Hm).
        eauto.
      - assert (Hbad : exists v, value = Some v /\
                                 validate_rtype (Py.upper rtype) (Some v) <> Ok tt).
        { destruct H as [[v [-> Hv]] | [[v [-> [Hr Hv]]] | [v [-> [Hr Hv]]]]];
            exists v; (split; [reflexivity|]); rewrite validate_rtype_spec;
            intros [[H1 H2] | [[H1 H2] | [H1 | H1]]];
            try (apply Hv; rewrite H1; simpl; tauto);
            try congruence. }
        destruct Hbad as [v [-> Hv]].
        destruct (validate_rtype_raises (Py.upper rtype) (Some v)) as [H1 | [msg H1]];
          [contradiction|].
        exact (invalid_value_raises qname rtype (Some v) e stored zones msg Hz H1). }
    split; [exact Hr|]. destruct Hr as [msg ->]. reflexivity.
  - intros Hm Hin.
    apply (valid_value_no_value_error qname rtype value e stored zones Hz Hm).
    destruct value as [v|]; [|reflexivity].
    apply validate_rtype_spec.
    destruct Hin as [<- | [<- | []]]; tauto.
Qed.

(** ** The record synthesizer: the strict policy records *)

Lemma option_eqb_eq (a b : option string) : option_eqb a b = true <-> a = b.
Proof.
  destruct a as [x|], b as [y|]; simpl; try (split; congruence).
  rewrite String.eqb_eq. split; congruence.
Qed.

Lemma option_eqb_refl (a : option string) : option_eqb a a = true.
Proof. now apply option_eqb_eq. Qed.

Lemma has_rec_iff (records : list record) (qname : option string)
  (rtype : string) (prefix : option string) :
  has_rec records qname rtype prefix = true <->
  exists v x, In (qname, rtype, v, x) records /\
              match prefix with
              | None => True
              | Some p => Py.startswith v p = true
              end.
Proof.
  unfold has_rec. rewrite existsb_exists. split.
  - intros [[[[q t] v] x] [Hin H]].
    apply andb_true_iff in H. destruct H as [H Hp].
    apply andb_true_iff in H. destruct H as [Hq Ht].
    apply option_eqb_eq in Hq. apply String.eqb_eq in Ht. subst.
    exists v, x. split; [assumption|]. destruct prefix; [assumption | exact I].
  - intros [v [x [Hin Hp]]]. exists (qname, rtype, v, x). split; [assumption|].
    rewrite option_eqb_refl, String.eqb_refl. simpl.
    destruct prefix; [assumption | reflexivity].
Qed.

Lemma has_rec_app (r1 r2 : list record) (qname : option string)
  (rtype : string) (prefix : option string) :
  has_rec (r1 ++ r2) qname rtype prefix
  = has_rec r1 qname rtype prefix || has_rec r2 qname rtype prefix.
Proof. unfold has_rec. apply existsb_app. Qed.

Lemma has_rec_perm (r1 r2 : list record) (qname : option string)
  (rtype : string) (prefix : option string) :
  Permutation r1 r2 ->
  has_rec r1 qname rtype prefix = has_rec r2 qname rtype prefix.
Proof.
  intros Hp. apply eq_true_iff_eq. rewrite !has_rec_iff.
  split; intros [v [x [Hin H]]]; exists v, x; (split; [|assumption]);
    [apply (Permutation_in _ Hp) | apply (Permutation_in _ (Permutation_sym Hp))];
    assumption.
Qed.

Lemma distinct_in (q : option string) (l : list (option string)) :
  In q (distinct l) <-> In q l.
Proof.
  induction l as [|a l IH]; simpl; [tauto|].
  rewrite filter_In, IH. split.
  - intros [H | [H _]]; [now left | now right].
  - intros [H | H]; [now left|].
    destruct (option_eqb q a) eqn:E.
    + apply option_eqb_eq in E. now left.
    + right. split; [assumption | reflexivity].
Qed.

Lemma all_resolvable_qnames_in (records : list record) (q : option string) :
  In q (all_resolvable_qnames records) <->
  exists t v x, In (q, t, v, x) records /\ (t = "A" \/ t = "AAAA").
Proof. forget_externals.
  unfold all_resolvable_qnames. rewrite distinct_in, in_map_iff. split.
  - intros [[[[q' t] v] x] [Hq [Hin Hr]%filter_In]]. simpl in Hq. subst q'.
    exists t, v, x. split; [assumption|].
    unfold is_resolvable in Hr. apply mem_iff in Hr. simpl in Hr. intuition.
  - intros [t [v [x [Hin Ht]]]]. exists (q, t, v, x). split; [reflexivity|].
    apply filter_In. split; [assumption|].
    unfold is_resolvable. apply mem_iff. simpl. intuition.
Qed.

(** The loop only appends. *)
Lemma add_strict_policy_app (records : list record) (q : option string) :
  exists added,
    add_strict_policy records q = records ++ added /\
    forall r, In r added ->
      (r = spf_backstop q /\
       has_rec records q "TXT" (Some "v=spf1 ") = false) \/
      (r = dmarc_backstop q /\
       has_rec records (Some (dmarc_qname_of q)) "TXT" (Some "v=DMARC1; ") = false).
Proof.
  unfold add_strict_policy.
  destruct (has_rec records q "TXT" (Some "v=spf1 ")) eqn:E1; simpl.
  - destruct (has_rec records _ "TXT" (Some "v=DMARC1; ")) eqn:E2; simpl.
    + exists []. rewrite app_nil_r. split; [reflexivity | intros r []].
    + exists [dmarc_backstop q]. split; [reflexivity|].
      intros r [<- | []]. now right.
  - rewrite has_rec_app.
    replace (has_rec [spf_backstop q] (Some (dmarc_qname_of q)) "TXT"
               (Some "v=DMARC1; ")) with false
      by (unfold has_rec; simpl; now rewrite andb_false_r).
    rewrite orb_false_r.
    destruct (has_rec records _ "TXT" (Some "v=DMARC1; ")) eqn:E2; simpl.
    + exists [spf_backstop q]. split; [reflexivity|].
      intros r [<- | []]. now left.
    + exists [spf_backstop q; dmarc_backstop q].
      split; [now rewrite <- app_assoc|].
      intros r [<- | [<- | []]]; [now left | now right].
Qed.

(** After the pass for [q], the name [q] has its SPF and DMARC records. *)
Lemma add_strict_policy_ensures (records : list record) (q : option string) :
  has_rec (add_strict_policy records q) q "TXT" (Some "v=spf1 ") = true /\
  has_rec (add_strict_policy records q) (Some (dmarc_qname_of q)) "TXT"
    (Some "v=DMARC1; ") = true.
Proof.
  unfold add_strict_policy.
  set (r1 := if negb (has_rec records q "TXT" (Some "v=spf1 "))
             then records ++ [spf_backstop q] else records).
  assert (H1 : has_rec r1 q "TXT" (Some "v=spf1 ") = true).
  { unfold r1. destruct (has_rec records q "TXT" (Some "v=spf1 ")) eqn:E; simpl.
    - exact E.
    - rewrite has_rec_app, E. unfold has_rec. simpl.
      now rewrite option_eqb_refl. }
  destruct (has_rec r1 (Some (dmarc_qname_of q)) "TXT" (Some "v=DMARC1; ")) eqn:E2;
    simpl.
  - split; assumption.
  - rewrite !has_rec_app, H1, E2. split; [reflexivity|].
    unfold has_rec. simpl. now rewrite String.eqb_refl.
Qed.

Lemma add_strict_policy_mono (records : list record) (q' : option string)
  (q : option string) (t : string) (p : option string) :
  has_rec records q t p = true ->
  has_rec (add_strict_policy records q') q t p = true.
Proof.
  intros H. destruct (add_strict_policy_app records q') as [added [-> _]].
  now rewrite has_rec_app, H.
Qed.

Lemma backstop_mono (qs : list (option string)) (records : list record)
  (q : option string) (t : string) (p : option string) :
  has_rec records q t p = true ->
  has_rec (fold_left add_strict_policy qs records) q t p = true.
Proof.
  revert records. induction qs as [|q' qs IH]; intros records H; simpl.
  - exact H.
  - apply IH. now apply add_strict_policy_mono.
Qed.

Lemma backstop_ensures (qs : list (option string)) (records : list record)
  (q : option string) :
  In q qs ->
  has_rec (fold_left add_strict_policy qs records) q "TXT" (Some "v=spf1 ") = true /\
  has_rec (fold_left add_strict_policy qs records) (Some (dmarc_qname_of q)) "TXT"
    (Some "v=DMARC1; ") = true.
Proof.
  revert records. induction qs as [|q' qs IH]; intros records; simpl; [easy|].
  intros [-> | H]; [|now apply IH].
  destruct (add_strict_policy_ensures records q) as [H1 H2].
  split; now apply backstop_mono.
Qed.

(** What the loop has appended when it ends: strict policy records of its
    names, each for a name without such a record before the loop. *)
Lemma backstop_loop (pre : list record) (qs : list (option string))
  (added : list record) :
  exists added',
    fold_left add_strict_policy qs (pre ++ added) = pre ++ added ++ added' /\
    forall r, In r added' ->
      exists q, In q qs /\
        ((r = spf_backstop q /\
          has_rec pre q "TXT" (Some "v=spf1 ") = false) \/
         (r = dmarc_backstop q /\
          has_rec pre (Some (dmarc_qname_of q)) "TXT" (Some "v=DMARC1; ") = false)).
Proof.
  revert added. induction qs as [|q qs IH]; intros added; simpl.
  - exists []. rewrite !app_nil_r. split; [reflexivity | intros r []].
  - destruct (add_strict_policy_app (pre ++ added) q) as [new [Hnew Hjust]].
    rewrite Hnew.
    assert (Hjust' : forall r, In r new ->
              (r = spf_backstop q /\ has_rec pre q "TXT" (Some "v=spf1 ") = false) \/
              (r = dmarc_backstop q /\
               has_rec pre (Some (dmarc_qname_of q)) "TXT" (Some "v=DMARC1; ") = false)).
    { intros r Hr. destruct (Hjust r Hr) as [[-> H] | [-> H]];
        rewrite has_rec_app in H; apply orb_false_iff in H; tauto. }
    rewrite <- app_assoc.
    destruct (IH (added ++ new)) as [added' [Heq Hadded']].
    exists (new ++ added'). split.
    + rewrite Heq. now rewrite <- !app_assoc.
    + intros r [Hr | Hr]%in_app_or.
      * exists q. split; [now left | now apply Hjust'].
      * destruct (Hadded' r Hr) as [q' [Hq' Hr']]. exists q'.
        split; [now right | assumption].
Qed.

Lemma strict_policy_backstop_spec (pre : list record) :
  exists added,
    strict_policy_backstop pre = pre ++ added /\
    forall r, In r added -> is_backstop_for pre r.
Proof.
  unfold strict_policy_backstop.
  destruct (backstop_loop pre (all_resolvable_qnames pre) []) as [added [Heq Hadded]].
  rewrite app_nil_r in Heq. exists added. split; [exact Heq|].
  intros r Hr. destruct (Hadded r Hr) as [q [Hq H]]. now exists q.
Qed.

Lemma build_zone_body_inv (build_subzone : string -> result (list record))
  (h : host) (domain : string) (all_domains : list string)
  (additional_records : custom_dns_config) (e : env) (is_zone : bool)
  (recs : list record) :
  build_zone_body build_subzone h domain all_domains additional_records e is_zone
  = Ok recs ->
  exists pre,
    records_before_backstop build_subzone h domain all_domains additional_records
      e is_zone = Ok pre /\
    recs = sort_records (strict_policy_backstop pre).
Proof.
  unfold build_zone_body.
  destruct (records_before_backstop _ _ _ _ _ _ _) as [pre|]; simpl;
    [|discriminate].
  intros [= <-]. now exists pre.
Qed.

Lemma sort_records_perm (records : list record) :
  Permutation (sort_records records) records.
Proof. apply sort_perm. Qed.

(** Claim C5 (SPF and DMARC backstop).  In the records that [build_zone]
    returns, every name with an A or AAAA record has a TXT record whose value
    starts with [v=spf1 ] and, at [_dmarc] for the zone's own name and at
    [_dmarc.] and the name otherwise, a TXT record whose value starts with
    [v=DMARC1; ].  The records returned are those gathered before the strict
    policy step, [pre], and the records [added] by that step; each added
    record is the strict SPF record or the strict DMARC record of a name that
    had an A or AAAA record and no such TXT record in [pre]; so a name with
    an SPF record in [pre] gets no strict SPF record. *)
Theorem spf_dmarc_backstop (h : host) (domain : string) (all_domains : list string)
  (additional_records : custom_dns_config) (e : env) (is_zone : bool)
  (recs : list record) :
  build_zone h domain all_domains additional_records e is_zone = Ok recs ->
  (forall q t v x,
     In (q, t, v, x) recs -> t = "A" \/ t = "AAAA" ->
     (exists v' x', In (q, "TXT", v', x') recs /\
                    Py.startswith v' "v=spf1 " = true) /\
     (exists v' x', In (Some (dmarc_qname_of q), "TXT", v', x') recs /\
                    Py.startswith v' "v=DMARC1; " = true)) /\
  exists pre added,
    records_before_backstop (build_zone_subdomain h e) h domain all_domains
      additional_records e is_zone = Ok pre /\
    Permutation recs (pre ++ added) /\
    (forall r, In r added -> is_backstop_for pre r) /\
    (forall q, has_rec pre q "TXT" (Some "v=spf1 ") = true ->
               ~ In (spf_backstop q) added).
Proof.
  intros Hb. apply build_zone_body_inv in Hb. destruct Hb as [pre [Hpre ->]].
  destruct (strict_policy_backstop_spec pre) as [added [Heq Hadded]].
  assert (Hperm : Permutation (sort_records (strict_policy_backstop pre))
                    (pre ++ added)).
  { rewrite <- Heq. apply sort_records_perm. }
  split.
  - intros q t v x Hin Ht.
    apply (Permutation_in _ Hperm) in Hin.
    assert (Hq : In q (all_resolvable_qnames pre)).
    { apply all_resolvable_qnames_in. exists t, v, x. split; [|assumption].
      apply in_app_or in Hin. destruct Hin as [Hin | Hin]; [assumption|].
      destruct (Hadded _ Hin) as [q' [_ [[Hr _] | [Hr _]]]];
        unfold spf_backstop, dmarc_backstop in Hr;
        injection Hr as _ Ht' _ _; destruct Ht; congruence. }
    destruct (backstop_ensures (all_resolvable_qnames pre) pre q Hq) as [H1 H2].
    fold (strict_policy_backstop pre) in H1, H2.
    rewrite <- (has_rec_perm _ _ _ _ _ (sort_records_perm _)) in H1.
    rewrite <- (has_rec_perm _ _ _ _ _ (sort_records_perm _)) in H2.
    apply has_rec_iff in H1. apply has_rec_iff in H2. split; assumption.
  - exists pre, added. repeat split; try assumption.
    intros q Hspf Hin. destruct (Hadded _ Hin) as [q' [_ [[Hr H] | [Hr _]]]].
    + unfold spf_backstop in Hr. injection Hr as ->. congruence.
    + unfold spf_backstop, dmarc_backstop in Hr. discriminate.
Qed.

(** ** The record synthesizer: names and types *)

Lemma mapM_ext {A B} (f g : A -> result B) (l : list A) :
  (forall x, In x l -> f x = g x) -> mapM f l = mapM g l.
Proof.
  induction l as [|x l IH]; intros H; simpl; [reflexivity|].
  rewrite (H x) by now left. rewrite IH; [reflexivity|].
  intros y Hy. apply H. now right.
Qed.

Lemma mapM_in {A B} (f : A -> result B) (l : list A) (ys : list B) (x : A) :
  mapM f l = Ok ys -> In x l -> exists y, f x = Ok y /\ In y ys.
Proof.
  revert ys. induction l as [|a l IH]; intros ys; simpl; [easy|].
  destruct (f a) as [b|] eqn:Ea; simpl; [|discriminate].
  destruct (mapM f l) as [bs|]; simpl; [|discriminate].
  intros [= <-] [-> | Hx].
  - exists b. split; [assumption | now left].
  - destruct (IH bs eq_refl Hx) as [y [Hy Hin]]. exists y.
    split; [assumption | now right].
Qed.

Lemma mapM_forall {A B} (f : A -> result B) (P : B -> Prop) (l : list A)
  (ys : list B) :
  mapM f l = Ok ys ->
  (forall x y, In x l -> f x = Ok y -> P y) ->
  Forall P ys.
Proof.
  revert ys. induction l as [|a l IH]; intros ys; simpl.
  - intros [= <-] _. constructor.
  - destruct (f a) as [b|] eqn:Ea; simpl; [|discriminate].
    destruct (mapM f l) as [bs|]; simpl; [|discriminate].
    intros [= <-] H. constructor.
    + apply (H a); [now left | assumption].
    + apply IH; [reflexivity|]. intros x y Hx. apply H. now right.
Qed.


Lemma build_zone_unfold (h : host) (domain : string) (all_domains : list string)
  (additional_records : custom_dns_config) (e : env) (is_zone : bool) :
  build_zone h domain all_domains additional_records e is_zone
  = build_zone_body (fun subdomain => build_zone h subdomain [] [] e false)
      h domain all_domains additional_records e is_zone.
Proof. reflexivity. Qed.

Lemma has_rec_existsb (records : list record) (q : option string) (t : string) :
  has_rec records q t None = existsb (at_name_type q t) records.
Proof.
  unfold has_rec. induction records as [|[[[q' t'] v] x] l IH]; simpl;
    [reflexivity|].
  now rewrite IH, andb_true_r.
Qed.

Lemma has_rec_filter (records : list record) (q : option string) (t : string) :
  has_rec records q t None = false -> filter (at_name_type q t) records = [].
Proof.
  rewrite has_rec_existsb. induction records as [|r l IH]; simpl; [reflexivity|].
  intros [-> H]%orb_false_iff. now apply IH.
Qed.

Lemma at_name_type_iff (q : option string) (t : string) (r : record) :
  at_name_type q t r = true <-> exists v x, r = (q, t, v, x).
Proof.
  destruct r as [[[q' t'] v] x]. simpl.
  rewrite andb_true_iff, option_eqb_eq, String.eqb_eq. split.
  - intros [-> ->]. eauto.
  - intros [v' [x' [= -> -> _ _]]]. split; reflexivity.
Qed.

Lemma at_name_type_other (q q' : option string) (t t' v : string)
  (x : option string) :
  t' <> t -> at_name_type q t (q', t', v, x) = false.
Proof.
  intros H. unfold at_name_type.
  rewrite (proj2 (String.eqb_neq t' t) H). apply andb_false_r.
Qed.

(** A step that appends a record only when the zone has none of its name and
    type leaves the records of a name and type that the zone has alone. *)
Lemma append_if_absent_filter (records : list record) (q q' : option string)
  (t t' v : string) (x : option string) :
  has_rec records q t None = true ->
  has_rec records q' t' None = false ->
  filter (at_name_type q t) (records ++ [(q', t', v, x)])
  = filter (at_name_type q t) records.
Proof.
  intros H1 H2. rewrite filter_app. simpl.
  destruct (option_eqb q' q && String.eqb t' t) eqn:E; [|apply app_nil_r].
  apply andb_true_iff in E. destruct E as [->%option_eqb_eq ->%String.eqb_eq].
  congruence.
Qed.

Lemma add_custom_record_keeps (records : list record)
  (c : option string * string * string) (q : option string) (t : string) :
  has_rec records q t None = true ->
  has_rec (add_custom_record records c) q t None = true /\
  filter (at_name_type q t) (add_custom_record records c)
  = filter (at_name_type q t) records.
Proof.
  intros H. destruct c as [[q' t'] v]. unfold add_custom_record.
  destruct (has_rec records q' t' None) eqn:E; [now split|]. split.
  - now rewrite has_rec_app, H.
  - now apply append_if_absent_filter.
Qed.

Lemma custom_fold_keeps (custom : list (option string * string * string))
  (records : list record) (q : option string) (t : string) :
  has_rec records q t None = true ->
  has_rec (fold_left add_custom_record custom records) q t None = true /\
  filter (at_name_type q t) (fold_left add_custom_record custom records)
  = filter (at_name_type q t) records.
Proof.
  revert records. induction custom as [|c l IH]; intros records H; simpl.
  - now split.
  - destruct (add_custom_record_keeps records c q t H) as [H1 H2].
    destruct (IH _ H1) as [H3 H4]. split; [assumption | congruence].
Qed.

(** The first custom record of a name and type that the zone does not have
    yet is the one that gets in. *)
Lemma custom_fold_first (custom : list (option string * string * string))
  (records : list record) (q : option string) (t : string)
  (c : option string * string * string) :
  has_rec records q t None = false ->
  find (custom_at q t) custom = Some c ->
  has_rec (fold_left add_custom_record custom records) q t None = true /\
  filter (at_name_type q t) (fold_left add_custom_record custom records)
  = [(q, t, snd c, Some "(Set by user.)")].
Proof.
  revert records. induction custom as [|[[q' t'] v] l IH]; intros records Hno Hf;
    simpl in *; [discriminate|].
  destruct (option_eqb q' q && String.eqb t' t) eqn:E.
  - injection Hf as <-. apply andb_true_iff in E.
    destruct E as [->%option_eqb_eq ->%String.eqb_eq].
    rewrite Hno.
    assert (H : has_rec (records ++ [(q, t, v, Some "(Set by user.)")]) q t None
                = true).
    { rewrite has_rec_app. apply orb_true_iff. right.
      unfold has_rec. simpl. now rewrite option_eqb_refl, String.eqb_refl. }
    destruct (custom_fold_keeps l _ q t H) as [H1 H2]. split; [assumption|].
    rewrite H2, filter_app, (has_rec_filter _ _ _ Hno). simpl.
    now rewrite option_eqb_refl, String.eqb_refl.
  - apply IH; [|assumption].
    destruct (has_rec records q' t' None); [assumption|].
    rewrite has_rec_app, Hno. unfold has_rec. simpl. now rewrite E.
Qed.

Lemma add_default_keeps (is_zone : bool) (records : list record)
  (d : option string * string * option string * string)
  (q : option string) (t : string) :
  has_rec records q t None = true ->
  has_rec (add_default is_zone records d) q t None = true /\
  filter (at_name_type q t) (add_default is_zone records d)
  = filter (at_name_type q t) records.
Proof.
  intros H. destruct d as [[[q' t'] [v|]] x]; unfold add_default; [|now split].
  destruct (Py.isblank v); [now split|].
  destruct (negb is_zone && option_eqb q' (Some "www")); [now split|].
  destruct (has_rec records q' t' None) eqn:E; simpl; [now split|]. split.
  - now rewrite has_rec_app, H.
  - now apply append_if_absent_filter.
Qed.

Lemma defaults_fold_keeps (is_zone : bool)
  (ds : list (option string * string * option string * string))
  (records : list record) (q : option string) (t : string) :
  has_rec records q t None = true ->
  has_rec (fold_left (add_default is_zone) ds records) q t None = true /\
  filter (at_name_type q t) (fold_left (add_default is_zone) ds records)
  = filter (at_name_type q t) records.
Proof.
  revert records. induction ds as [|d l IH]; intros records H; simpl.
  - now split.
  - destruct (add_default_keeps is_zone records d q t H) as [H1 H2].
    destruct (IH _ H1) as [H3 H4]. split; [assumption | congruence].
Qed.

(** The stages of [records_before_backstop]. *)
Lemma records_before_backstop_inv
  (build_subzone : string -> result (list record)) (h : host)
  (domain : string) (all_domains : list string)
  (additional_records : custom_dns_config) (e : env) (is_zone : bool)
  (pre : list record) :
  records_before_backstop build_subzone h domain all_domains additional_records
    e is_zone = Ok pre ->
  exists own children custom dkim,
    own_records h domain e is_zone = Ok own /\
    subdomain_records build_subzone domain all_domains = Ok children /\
    get_custom_records domain additional_records e = Ok custom /\
    dkim_record h domain = Ok dkim /\
    pre = fold_left (add_default is_zone) (defaults domain e)
            (fold_left add_custom_record custom (own ++ children))
          ++ [dkim] ++ [dmarc_record domain].
Proof.
  unfold records_before_backstop.
  destruct (own_records h domain e is_zone) as [own|]; simpl; [|discriminate].
  destruct (subdomain_records build_subzone domain all_domains) as [children|];
    simpl; [|discriminate].
  destruct (get_custom_records domain additional_records e) as [custom|];
    simpl; [|discriminate].
  destruct (dkim_record h domain) as [dkim|]; simpl; [|discriminate].
  intros [= <-]. exists own, children, custom, dkim.
  repeat split. now rewrite <- app_assoc.
Qed.

Lemma dkim_record_txt (h : host) (domain : string) (dkim : record) :
  dkim_record h domain = Ok dkim ->
  exists name v x, dkim = (Some name, "TXT", v, Some x) /\
                   x <> "(Set by user.)".
Proof.
  unfold dkim_record. destruct (dkim_mail_txt h) as [text|]; [|discriminate].
  destruct (match_dkim_record text) as [[name val]|]; [|discriminate].
  intros [= <-]. eexists _, _, _. split; [reflexivity|]. discriminate.
Qed.

(** From the records after the custom step to the records returned: the
    records of a name and a type other than TXT that the zone has by then
    are the same, up to their order. *)
Lemma later_stages_keep (is_zone : bool) (domain : string) (e : env)
  (records : list record) (dkim : record) (q : option string) (t : string) :
  has_rec records q t None = true ->
  t <> "TXT" ->
  (exists name v x, dkim = (Some name, "TXT", v, x)) ->
  Permutation
    (filter (at_name_type q t)
       (sort_records
          (strict_policy_backstop
             (fold_left (add_default is_zone) (defaults domain e) records
              ++ [dkim] ++ [dmarc_record domain]))))
    (filter (at_name_type q t) records).
Proof.
  intros H Ht [name [v [x ->]]].
  destruct (defaults_fold_keeps is_zone (defaults domain e) records q t H)
    as [_ Hd].
  apply (Permutation_trans (filter_perm _ _ _ (sort_records_perm _))).
  match goal with
  | |- context [strict_policy_backstop ?p] =>
      set (pre := p);
      destruct (strict_policy_backstop_spec pre) as [added [Heq Hadded]]
  end.
  rewrite Heq.
  assert (Hnone : filter (at_name_type q t) added = []).
  { clear Heq. induction added as [|r l IH]; [reflexivity|]. simpl.
    rewrite IH by (intros r' Hr'; apply Hadded; now right).
    destruct (at_name_type q t r) eqn:E; [|reflexivity].
    apply at_name_type_iff in E. destruct E as [v' [x' ->]].
    destruct (Hadded _ (or_introl eq_refl)) as [q' [_ [[Hr _] | [Hr _]]]];
      unfold spf_backstop, dmarc_backstop in Hr; congruence. }
  rewrite filter_app, Hnone, app_nil_r. unfold pre, dmarc_record.
  rewrite !filter_app, Hd. cbn [filter].
  rewrite !at_name_type_other by congruence.
  now rewrite !app_nil_r.
Qed.

(** The records of the subdomains all have a name of their own. *)
Lemma subdomain_records_named (build_subzone : string -> result (list record))
  (domain : string) (all_domains : list string) (children : list record) :
  subdomain_records build_subzone domain all_domains = Ok children ->
  forall r, In r children -> exists q t v x, r = (Some q, t, v, x).
Proof.
  unfold subdomain_records.
  destruct (mapM _ _) as [chunks|] eqn:E; simpl; [|discriminate].
  intros [= <-] r Hr. apply in_concat in Hr. destruct Hr as [chunk [Hc Hr]].
  assert (HF : Forall (fun chunk : list record =>
                         forall r, In r chunk -> exists q t v x, r = (Some q, t, v, x))
                      chunks).
  { apply (mapM_forall _ _ _ _ E). intros sub ys _.
    destruct (build_subzone sub) as [subzone|]; simpl; [|discriminate].
    intros [= <-] r' Hr'. apply in_map_iff in Hr'.
    destruct Hr' as [[[[q t] v] x] [<- _]]. simpl. eauto. }
  rewrite Forall_forall in HF. exact (HF chunk Hc r Hr).
Qed.

Lemma has_rec_none_named (records : list record) (t : string) :
  (forall r, In r records -> exists q t v x, r = (Some q, t, v, x)) ->
  has_rec records None t None = false.
Proof.
  intros H. destruct (has_rec records None t None) eqn:E; [|reflexivity].
  apply has_rec_iff in E. destruct E as [v [x [Hin _]]].
  destruct (H _ Hin) as [q' [t' [v' [x' Hr]]]]. discriminate.
Qed.

(** Outside PRIMARY_HOSTNAME the first part of [build_zone] gives the zone
    no A record of its own. *)
Lemma own_records_no_apex_A (h : host) (domain : string) (e : env)
  (is_zone : bool) (own : list record) :
  domain <> PRIMARY_HOSTNAME e ->
  own_records h domain e is_zone = Ok own ->
  has_rec own None "A" None = false.
Proof.
  intros Hne. unfold own_records.
  rewrite (proj2 (String.eqb_neq _ _) Hne). simpl.
  intros [= <-]. destruct is_zone; reflexivity.
Qed.

Lemma own_records_primary_A (h : host) (e : env) (is_zone : bool)
  (own : list record) :
  own_records h (PRIMARY_HOSTNAME e) e is_zone = Ok own ->
  has_rec own None "A" None = true.
Proof. forget_externals.
  unfold own_records, primary_hostname_records. rewrite String.eqb_refl.
  destruct (build_tlsa_record h) as [tlsa|]; simpl; [|discriminate].
  destruct (build_sshfp_records h) as [sshfp|]; simpl; [|discriminate].
  intros [= <-]. apply has_rec_iff.
  exists (PUBLIC_IP e), (Some "Required. Sets the IP address of the box.").
  split; [|exact I].
  destruct is_zone, (PUBLIC_IPV6 e) as [[|c v6]|];
    rewrite ?in_app_iff; simpl; intuition.
Qed.

(** In the zone of PRIMARY_HOSTNAME the first part of [build_zone] gives
    the zone one A record of its own: the box's. *)
Lemma own_records_primary_filter (h : host) (e : env) (is_zone : bool)
  (own : list record) :
  own_records h (PRIMARY_HOSTNAME e) e is_zone = Ok own ->
  filter (at_name_type None "A") own
  = [(None, "A", PUBLIC_IP e, Some "Required. Sets the IP address of the box.")].
Proof.
  unfold own_records, primary_hostname_records. rewrite String.eqb_refl.
  destruct (build_tlsa_record h) as [tlsa|]; simpl; [|discriminate].
  destruct (build_sshfp_records h) as [sshfp|]; simpl; [|discriminate].
  intros [= <-].
  assert (Hs : forall x : option string,
             filter (at_name_type None "A")
               (map (fun value : string => (None, "SSHFP", value, x)) sshfp) = []).
  { intros x. induction sshfp as [|k l IH]; [reflexivity | exact IH]. }
  destruct is_zone, (PUBLIC_IPV6 e) as [[|c v6]|];
    rewrite ?filter_app, ?Hs; reflexivity.
Qed.

(** Claim C6, as amended (apex override precedence).  Take custom records
    that hold a record for the zone's own name with type A and value [v]
    (the one that [get_custom_records] yields first; a dictionary holds one
    at most).  For a domain other than PRIMARY_HOSTNAME the records that
    [build_zone] returns hold exactly one A record at the zone's own name:
    it has the value [v] and the note "(Set by user.)", so the default A
    record is not among them.  For PRIMARY_HOSTNAME they hold exactly one
    too: the box's record with PUBLIC_IP, and the custom record is passed
    over. *)
Theorem apex_override_precedence (h : host) (domain : string)
  (all_domains : list string) (additional_records : custom_dns_config)
  (e : env) (is_zone : bool)
  (custom : list (option string * string * string)) (v : string)
  (recs : list record) :
  get_custom_records domain additional_records e = Ok custom ->
  find (custom_at None "A") custom = Some (None, "A", v) ->
  build_zone h domain all_domains additional_records e is_zone = Ok recs ->
  (domain <> PRIMARY_HOSTNAME e ->
   filter (at_name_type None "A") recs = [(None, "A", v, Some "(Set by user.)")] /\
   (forall v' x, In (None, "A", v', x) recs ->
                 v' = v /\ x = Some "(Set by user.)")) /\
  (domain = PRIMARY_HOSTNAME e ->
   filter (at_name_type None "A") recs
   = [(None, "A", PUBLIC_IP e, Some "Required. Sets the IP address of the box.")]).
Proof.
  intros Hcustom Hfind Hb.
  apply build_zone_body_inv in Hb. destruct Hb as [pre [Hpre ->]].
  apply records_before_backstop_inv in Hpre.
  destruct Hpre as [own [children [custom' [dkim [Ho [Hc [Hcu [Hd ->]]]]]]]].
  assert (custom' = custom) by congruence. subst custom'.
  destruct (dkim_record_txt h domain dkim Hd) as [name [dv [dx [-> _]]]].
  pose proof (has_rec_none_named children "A"
                (subdomain_records_named _ _ _ _ Hc)) as Hchildren.
  split.
  - intros Hne.
    assert (Hno : has_rec (own ++ children) None "A" None = false).
    { rewrite has_rec_app, (own_records_no_apex_A h domain e is_zone own Hne Ho).
      exact Hchildren. }
    destruct (custom_fold_first custom _ None "A" _ Hno Hfind) as [H1 H2].
    assert (Hperm := later_stages_keep is_zone domain e _
                       (Some name, "TXT", dv, Some dx) None "A" H1
                       ltac:(discriminate) ltac:(eauto)).
    rewrite H2 in Hperm. cbn [snd] in Hperm.
    apply Permutation_sym, Permutation_length_1_inv in Hperm.
    split; [exact Hperm|].
    intros v' x Hin.
    pose proof (proj2 (filter_In (at_name_type None "A") _ _) (conj Hin eq_refl))
      as Hf.
    rewrite Hperm in Hf. destruct Hf as [[= -> ->] | []]. now split.
  - intros ->.
    assert (Hyes : has_rec (own ++ children) None "A" None = true).
    { now rewrite has_rec_app, (own_records_primary_A h e is_zone own Ho). }
    destruct (custom_fold_keeps custom _ None "A" Hyes) as [H1 H2].
    assert (Hperm := later_stages_keep is_zone (PRIMARY_HOSTNAME e) e _
                       (Some name, "TXT", dv, Some dx) None "A" H1
                       ltac:(discriminate) ltac:(eauto)).
    rewrite H2, filter_app, (has_rec_filter _ _ _ Hchildren), app_nil_r,
      (own_records_primary_filter h e is_zone own Ho) in Hperm.
    now apply Permutation_sym, Permutation_length_1_inv in Hperm.
Qed.

(** ** The record synthesizer: subdomains *)

Ltac builtin_record :=
  unfold builtin_value;
  repeat split; intros; try discriminate; try congruence; try reflexivity.

Ltac builtin_list :=
  repeat (first [ apply Forall_nil
                | apply Forall_cons; [builtin_record|]
                | apply Forall_app; split ]).

Lemma primary_hostname_records_builtin (h : host) (e : env) (more : list record) :
  primary_hostname_records h e = Ok more -> Forall (builtin_value e) more.
Proof.
  unfold primary_hostname_records.
  destruct (build_tlsa_record h) as [tlsa|]; simpl; [|discriminate].
  destruct (build_sshfp_records h) as [sshfp|]; simpl; [|discriminate].
  intros [= <-].
  assert (Hs : forall (f : string -> record) (l : list string),
             (forall s, builtin_value e (f s)) -> Forall (builtin_value e) (map f l)).
  { intros f l Hf. apply Forall_forall. intros r [s [<- _]]%in_map_iff. apply Hf. }
  destruct (PUBLIC_IPV6 e) as [v6|] eqn:E6;
    [destruct (truthy (Some v6))|];
    builtin_list; try (apply Hs; intros s; builtin_record).
Qed.

Lemma own_records_builtin (h : host) (domain : string) (e : env)
  (is_zone : bool) (own : list record) :
  own_records h domain e is_zone = Ok own -> Forall (builtin_value e) own.
Proof.
  unfold own_records.
  destruct (String.eqb domain (PRIMARY_HOSTNAME e)).
  - destruct (primary_hostname_records h e) as [more|] eqn:E; simpl;
      [|discriminate].
    apply primary_hostname_records_builtin in E.
    intros [= <-]. destruct is_zone; builtin_list; assumption.
  - simpl. intros [= <-]. destruct is_zone; builtin_list.
Qed.

Lemma requalify_builtin (e : env) (subdomain_qname : string) (r : record) :
  builtin_value e r -> builtin_value e (requalify subdomain_qname r).
Proof. destruct r as [[[q t] v] x]. exact (fun H => H). Qed.

Lemma add_default_builtin (is_zone : bool) (domain : string) (e : env)
  (records : list record) (d : option string * string * option string * string) :
  In d (defaults domain e) ->
  Forall (builtin_value e) records ->
  Forall (builtin_value e) (add_default is_zone records d).
Proof.
  intros Hd H. unfold add_default.
  destruct d as [[[q t] [v|]] x]; [|assumption].
  destruct (Py.isblank v); [assumption|].
  destruct (negb is_zone && option_eqb q (Some "www")); [assumption|].
  destruct (negb (has_rec records q t None)); [|assumption].
  apply Forall_app. split; [assumption|]. constructor; [|constructor].
  unfold defaults in Hd. simpl in Hd.
  destruct Hd as [Hd | [Hd | [Hd | [Hd | []]]]]; injection Hd as <- <- Hv <-;
    builtin_record.
Qed.

Lemma defaults_fold_builtin (is_zone : bool) (domain : string) (e : env)
  (ds : list (option string * string * option string * string))
  (records : list record) :
  incl ds (defaults domain e) ->
  Forall (builtin_value e) records ->
  Forall (builtin_value e) (fold_left (add_default is_zone) ds records).
Proof.
  revert records. induction ds as [|d l IH]; intros records Hi H; simpl.
  - assumption.
  - apply IH; [intros x Hx; apply Hi; now right|].
    apply (add_default_builtin is_zone domain); [apply Hi; now left | assumption].
Qed.

Lemma is_backstop_builtin (e : env) (pre : list record) (r : record) :
  is_backstop_for pre r -> builtin_value e r.
Proof.
  intros [q [_ [[-> _] | [-> _]]]]; unfold spf_backstop, dmarc_backstop;
    builtin_record.
Qed.

(** A zone built without custom records holds built-in records only. *)
Lemma build_zone_subdomain_builtin (h : host) (e : env) (subdomain : string)
  (subzone : list record) :
  build_zone_subdomain h e subdomain = Ok subzone ->
  Forall (builtin_value e) subzone.
Proof.
  intros Hb. apply build_zone_body_inv in Hb. destruct Hb as [pre [Hpre ->]].
  apply records_before_backstop_inv in Hpre.
  destruct Hpre as [own [children [custom [dkim [Ho [Hc [Hcu [Hd ->]]]]]]]].
  injection Hc as <-. injection Hcu as <-. simpl fold_left at 2.
  rewrite app_nil_r.
  apply own_records_builtin in Ho.
  destruct (dkim_record_txt h subdomain dkim Hd) as [name [dv [dx [-> Hdx]]]].
  match goal with
  | |- context [strict_policy_backstop ?p] =>
      destruct (strict_policy_backstop_spec p) as [added [Heq Hadded]];
      assert (Hp : Forall (builtin_value e) p)
  end.
  { apply Forall_app. split.
    - apply (defaults_fold_builtin false subdomain); [apply incl_refl | assumption].
    - unfold dmarc_record. builtin_list. }
  apply Forall_forall. intros r Hr.
  apply (Permutation_in _ (sort_records_perm _)) in Hr.
  rewrite Heq in Hr. apply in_app_or in Hr. destruct Hr as [Hr | Hr].
  - rewrite Forall_forall in Hp. now apply Hp.
  - exact (is_backstop_builtin e _ r (Hadded r Hr)).
Qed.




(** The first default gives the zone an A record of its own, and the third
    an AAAA record, unless the address is blank. *)
Lemma defaults_fold_apex_A (is_zone : bool) (domain : string) (e : env)
  (records : list record) :
  Py.isblank (PUBLIC_IP e) = false ->
  has_rec (fold_left (add_default is_zone) (defaults domain e) records)
    None "A" None = true.
Proof.
  intros Hb. unfold defaults. cbn [fold_left].
  do 3 (apply (fun H => proj1 (add_default_keeps _ _ _ _ _ H))).
  unfold add_default. rewrite Hb. cbn [option_eqb]. rewrite andb_false_r.
  destruct (has_rec records None "A" None) eqn:E; simpl; [assumption|].
  rewrite has_rec_app. apply orb_true_iff. right. reflexivity.
Qed.



Lemma subdomain_records_in (build_subzone : string -> result (list record))
  (domain : string) (all_domains : list string) (children : list record)
  (subdomain : string) :
  subdomain_records build_subzone domain all_domains = Ok children ->
  In subdomain all_domains ->
  Py.endswith subdomain ("." +++ domain) = true ->
  exists subzone,
    build_subzone subdomain = Ok subzone /\
    forall r, In r subzone ->
      In (requalify (Py.drop_last (String.length ("." +++ domain)) subdomain) r)
         children.
Proof.
  unfold subdomain_records. intros H Hin Hend.
  destruct (mapM _ _) as [chunks|] eqn:E; simpl in H; [|discriminate].
  injection H as <-.
  destruct (mapM_in _ _ _ subdomain E) as [chunk [Hchunk Hc]].
  { apply filter_In. now split. }
  destruct (build_subzone subdomain) as [subzone|]; simpl in Hchunk;
    [|discriminate].
  injection Hchunk as <-. exists subzone. split; [reflexivity|].
  intros r Hr. apply in_concat. eexists. split; [exact Hc|]. now apply in_map.
Qed.

Lemma subdomain_records_builtin (h : host) (e : env) (domain : string)
  (all_domains : list string) (children : list record) :
  subdomain_records (build_zone_subdomain h e) domain all_domains = Ok children ->
  Forall (builtin_value e) children.
Proof.
  unfold subdomain_records.
  destruct (mapM _ _) as [chunks|] eqn:E; simpl; [|discriminate].
  intros [= <-].
  assert (HF : Forall (Forall (builtin_value e)) chunks).
  { apply (mapM_forall _ _ _ _ E). intros sub ys _.
    destruct (build_zone_subdomain h e sub) as [subzone|] eqn:Es; simpl;
      [|discriminate].
    intros [= <-]. apply build_zone_subdomain_builtin in Es.
    apply Forall_forall. intros r [r0 [<- Hr0]]%in_map_iff.
    apply requalify_builtin. rewrite Forall_forall in Es. now apply Es. }
  apply Forall_forall. intros r [chunk [Hc Hr]]%in_concat.
  rewrite Forall_forall in HF. specialize (HF chunk Hc).
  rewrite Forall_forall in HF. now apply HF.
Qed.




(** ** The zone publication controller *)

Lemma span_all (p : ascii -> bool) (s a b : string) :
  Py.span p s = (a, b) -> s = a +++ b /\ forall c, In c (list_ascii_of_string a) -> p c = true.
Proof.
  revert a b. induction s as [|c s IH]; intros a b; simpl.
  - intros [= <- <-]. split; [reflexivity | intros c []].
  - destruct (p c) eqn:E.
    + destruct (Py.span p s) as [a' b'] eqn:Es. intros [= <- <-].
      destruct (IH a' b' eq_refl) as [-> H]. split; [reflexivity|].
      simpl. intros c' [<- | Hc]; [assumption | now apply H].
    + intros [= <- <-]. split; [reflexivity | intros c' []].
Qed.

(** A string of digits reads as a number. *)
Lemma digits_read (s : string) :
  (forall c, In c (list_ascii_of_string s) -> Py.isdigit c = true) ->
  exists d, NilEmpty.uint_of_string s = Some d.
Proof.
  induction s as [|c s IH]; intros H; simpl.
  - eauto.
  - destruct IH as [d ->]; [intros c' Hc'; apply H; now right|].
    assert (Hc : Py.isdigit c = true) by (apply H; now left).
    destruct c as [[] [] [] [] [] [] [] []];
      try (vm_compute in Hc; discriminate Hc); simpl; eauto.
Qed.






(** * Further properties *)

(** ** Dictionaries *)

Lemma dict_get_set_same {V} (k : string) (v : V) (d : list (string * V)) :
  Py.dict_get k (Py.dict_set k v d) = Some v.
Proof. forget_externals.
  induction d as [|[k' v'] d IH]; simpl.
  - now rewrite String.eqb_refl.
  - destruct (String.eqb k' k) eqn:E; simpl.
    + now rewrite String.eqb_refl.
    + now rewrite E.
Qed.

Lemma dict_get_set_other {V} (k k' : string) (v : V) (d : list (string * V)) :
  k' <> k -> Py.dict_get k' (Py.dict_set k v d) = Py.dict_get k' d.
Proof. forget_externals.
  intros Hne. induction d as [|[k0 v0] d IH]; simpl.
  - now rewrite (proj2 (String.eqb_neq k k') (fun H => Hne (eq_sym H))).
  - destruct (String.eqb k0 k) eqn:E; simpl.
    + apply String.eqb_eq in E. subst k0.
      now rewrite (proj2 (String.eqb_neq k k') (fun H => Hne (eq_sym H))).
    + now rewrite IH.
Qed.

Lemma dict_get_del_other {V} (k k' : string) (d : list (string * V)) :
  k' <> k -> Py.dict_get k' (Py.dict_del k d) = Py.dict_get k' d.
Proof. forget_externals.
  intros Hne. induction d as [|[k0 v0] d IH]; simpl; [reflexivity|].
  destruct (String.eqb k0 k) eqn:E; simpl.
  - apply String.eqb_eq in E. subst k0.
    now rewrite (proj2 (String.eqb_neq k k') (fun H => Hne (eq_sym H))).
  - now rewrite IH.
Qed.

Lemma dict_get_none {V} (k : string) (d : list (string * V)) :
  Py.dict_get k d = None <-> ~ In k (map fst d).
Proof. forget_externals.
  induction d as [|[k0 v0] d IH]; simpl; [tauto|].
  destruct (String.eqb_spec k0 k) as [-> | Hne].
  - split; [discriminate | intros H; exfalso; apply H; now left].
  - rewrite IH. tauto.
Qed.

Lemma dict_get_in {V} (k : string) (v : V) (d : list (string * V)) :
  Py.dict_get k d = Some v -> In (k, v) d.
Proof. forget_externals.
  induction d as [|[k0 v0] d IH]; simpl; [discriminate|].
  destruct (String.eqb_spec k0 k) as [-> | Hne].
  - intros [= ->]. now left.
  - intros H. right. now apply IH.
Qed.

Lemma dict_get_del_same {V} (k : string) (d : list (string * V)) :
  is_dict d -> Py.dict_get k (Py.dict_del k d) = None.
Proof. forget_externals.
  unfold is_dict. induction d as [|[k0 v0] d IH]; simpl; intros Hnd;
    [reflexivity|].
  inversion Hnd as [|? ? Hk Hnd']; subst.
  destruct (String.eqb_spec k0 k) as [-> | Hne]; simpl.
  - now apply dict_get_none.
  - rewrite (proj2 (String.eqb_neq k0 k) Hne). now apply IH.
Qed.

Lemma dict_del_set_absent {V} (k : string) (v : V) (d : list (string * V)) :
  Py.dict_get k d = None -> Py.dict_del k (Py.dict_set k v d) = d.
Proof. forget_externals.
  induction d as [|[k0 v0] d IH]; simpl.
  - now rewrite String.eqb_refl.
  - destruct (String.eqb k0 k) eqn:E; [discriminate|].
    intros H. simpl. rewrite E. now rewrite IH.
Qed.

Lemma dict_set_in {V} (k : string) (v : V) (d : list (string * V))
  (x : string * V) :
  In x (Py.dict_set k v d) -> x = (k, v) \/ In x d.
Proof. forget_externals.
  induction d as [|[k0 v0] d IH]; simpl.
  - intros [<- | []]. now left.
  - destruct (String.eqb k0 k); simpl.
    + intros [<- | H]; [now left | right; now right].
    + intros [<- | H]; [right; now left|].
      destruct (IH H) as [-> | H']; [now left | right; now right].
Qed.

Lemma dict_del_in {V} (k : string) (d : list (string * V)) (x : string * V) :
  In x (Py.dict_del k d) -> In x d.
Proof. forget_externals.
  induction d as [|[k0 v0] d IH]; simpl; [easy|].
  destruct (String.eqb k0 k); simpl.
  - intros H. now right.
  - intros [<- | H]; [now left | right; now apply IH].
Qed.

(** ** The custom override store: what a call leaves in the store *)

Lemma set_custom_dns_record_eq (qname rtype : string) (value : option string)
  (e : env) (stored : option custom_dns_config) :
  set_custom_dns_record qname rtype value e stored
  = (zones <- get_dns_zones e ;;
     if negb (is_managed zones qname)
     then Raise (ValueError (qname +++
            " is not a domain name or a subdomain of a domain name managed by this box."))
     else
       _ <- validate_rtype (Py.upper rtype) value ;;
       store_update qname (Py.upper rtype) value (get_custom_dns_config stored)).
Proof. reflexivity. Qed.

Lemma set_custom_dns_record_ok (qname rtype : string) (value : option string)
  (e : env) (stored : option custom_dns_config)
  (r : bool * option custom_dns_config) :
  set_custom_dns_record qname rtype value e stored = Ok r ->
  exists zones,
    get_dns_zones e = Ok zones /\
    is_managed zones qname = true /\
    validate_rtype (Py.upper rtype) value = Ok tt /\
    store_update qname (Py.upper rtype) value (get_custom_dns_config stored) = Ok r.
Proof.
  rewrite set_custom_dns_record_eq.
  destruct (get_dns_zones e) as [zones|]; simpl; [|discriminate].
  destruct (is_managed zones qname) eqn:Hm; simpl; [|discriminate].
  destruct (validate_rtype (Py.upper rtype) value) as [[]|] eqn:Hv; simpl;
    [|discriminate].
  intros H. exists zones.
  split; [reflexivity|]. split; [exact Hm|]. split; [reflexivity | exact H].
Qed.

Lemma set_custom_dns_record_run (qname rtype : string) (value : option string)
  (e : env) (stored : option custom_dns_config) (zones : list (string * string)) :
  get_dns_zones e = Ok zones ->
  is_managed zones qname = true ->
  validate_rtype (Py.upper rtype) value = Ok tt ->
  set_custom_dns_record qname rtype value e stored
  = store_update qname (Py.upper rtype) value (get_custom_dns_config stored).
Proof.
  intros Hz Hm Hv. rewrite set_custom_dns_record_eq, Hz. simpl.
  rewrite Hm. simpl. now rewrite Hv.
Qed.

Lemma stored_value_other_name (config config' : custom_dns_config)
  (qname q' t : string) :
  Py.dict_get q' config' = Py.dict_get q' config ->
  stored_value config' q' t = stored_value config q' t.
Proof. forget_externals. unfold stored_value. now intros ->. Qed.

Lemma dict_get_cons {V} (k k' : string) (v' : V) (d : list (string * V)) :
  Py.dict_get k ((k', v') :: d)
  = if String.eqb k' k then Some v' else Py.dict_get k d.
Proof. reflexivity. Qed.

Lemma eqb_neq_sym (a b : string) : a <> b -> String.eqb b a = false.
Proof. forget_externals. intros H. apply String.eqb_neq. congruence. Qed.

(** Setting a value: when the step writes, the store written holds the
    value for the name and the type, and everything else as before. *)
Lemma store_update_set (qname rtype v : string) (config c : custom_dns_config)
  (b : bool) :
  store_update qname rtype (Some v) config = Ok (b, Some c) ->
  b = true /\
  stored_value c qname rtype = Some v /\
  (forall t, t <> rtype -> stored_value c qname t = stored_value config qname t) /\
  (forall q', q' <> qname -> Py.dict_get q' c = Py.dict_get q' config).
Proof. forget_externals.
  unfold store_update, stored_value.
  destruct (Py.dict_get qname config) as [[current | values |]|] eqn:Hget.
  - destruct (String.eqb_spec rtype "A") as [-> | HA].
    + destruct (String.eqb current "value"); intros [= <- <-].
      rewrite dict_get_set_same. repeat split.
      * intros t Ht. now rewrite (proj2 (String.eqb_neq t "A") Ht).
      * intros q' Hq. now apply dict_get_set_other.
    + intros [= <- <-]. rewrite dict_get_set_same. repeat split.
      * rewrite !dict_get_cons, (eqb_neq_sym _ _ HA).
        now rewrite String.eqb_refl.
      * intros t Ht. rewrite !dict_get_cons, (eqb_neq_sym _ _ Ht).
        destruct (String.eqb_spec "A" t) as [<- | Hne]; [reflexivity|].
        now rewrite (eqb_neq_sym _ _ Hne).
      * intros q' Hq. now apply dict_get_set_other.
  - destruct (option_eqb (Py.dict_get rtype values) (Some "value"));
      intros [= <- <-].
    rewrite dict_get_set_same. repeat split.
    + apply dict_get_set_same.
    + intros t Ht. now apply dict_get_set_other.
    + intros q' Hq. now apply dict_get_set_other.
  - discriminate.
  - destruct (String.eqb_spec rtype "A") as [-> | HA]; intros [= <- <-];
      rewrite dict_get_set_same; repeat split.
    + intros t Ht. now rewrite (proj2 (String.eqb_neq t "A") Ht).
    + intros q' Hq. now apply dict_get_set_other.
    + rewrite dict_get_cons. now rewrite String.eqb_refl.
    + intros t Ht. rewrite dict_get_cons. now rewrite (eqb_neq_sym _ _ Ht).
    + intros q' Hq. now apply dict_get_set_other.
Qed.

(** Setting a value through [set_custom_dns_record]: a call that writes the
    store returns [True]; the store written holds the value for the name and
    the type in upper case, the other types of the name as before, and the
    other names as before. *)
Theorem set_record_then_stored (qname rtype v : string) (e : env)
  (stored : option custom_dns_config) (b : bool) (c : custom_dns_config) :
  set_custom_dns_record qname rtype (Some v) e stored = Ok (b, Some c) ->
  b = true /\
  stored_value c qname (Py.upper rtype) = Some v /\
  (forall t, t <> Py.upper rtype ->
     stored_value c qname t
     = stored_value (get_custom_dns_config stored) qname t) /\
  (forall q', q' <> qname ->
     Py.dict_get q' c = Py.dict_get q' (get_custom_dns_config stored)).
Proof.
  intros H. apply set_custom_dns_record_ok in H.
  destruct H as [zones [_ [_ [_ H]]]]. now apply store_update_set in H.
Qed.

Lemma dict_del_nil_only {V} (k t : string) (d : list (string * V)) :
  Py.dict_get k d <> None -> Py.dict_del k d = [] -> t <> k ->
  Py.dict_get t d = None.
Proof. forget_externals.
  destruct d as [|[k0 v0] d]; simpl; [easy|].
  destruct (String.eqb_spec k0 k) as [-> | Hne].
  - intros _ -> Ht. now rewrite (eqb_neq_sym _ _ Ht).
  - discriminate.
Qed.

Lemma length_zero_nil {A} (l : list A) : (List.length l =? 0) = true -> l = [].
Proof. forget_externals. destruct l; [reflexivity | discriminate]. Qed.

(** Deleting a record: when the step writes, the store written holds no
    value for the name and the type, and everything else as before. *)
Lemma store_update_delete (qname rtype : string) (config c : custom_dns_config)
  (b : bool) :
  store_is_dict config ->
  store_update qname rtype None config = Ok (b, Some c) ->
  b = true /\
  stored_value c qname rtype = None /\
  (forall t, t <> rtype -> stored_value c qname t = stored_value config qname t) /\
  (forall q', q' <> qname -> Py.dict_get q' c = Py.dict_get q' config).
Proof. forget_externals.
  intros [Hd Hvalues]. unfold store_update, stored_value.
  destruct (Py.dict_get qname config) as [[current | values |]|] eqn:Hget;
    try discriminate.
  - destruct (String.eqb_spec rtype "A") as [-> | HA]; simpl; [|discriminate].
    intros [= <- <-]. rewrite (dict_get_del_same qname config Hd). repeat split.
    + intros t Ht. now rewrite (proj2 (String.eqb_neq t "A") Ht).
    + intros q' Hq. now apply dict_get_del_other.
  - destruct (Py.dict_get rtype values) as [old|] eqn:Hold; [|discriminate].
    pose proof (Hvalues qname values (dict_get_in _ _ _ Hget)) as Hdv.
    cbn zeta.
    destruct (List.length (Py.dict_del rtype values) =? 0) eqn:Hlen;
      intros [= <- <-].
    + rewrite (dict_get_del_same qname config Hd). repeat split.
      * intros t Ht. symmetry.
        apply (dict_del_nil_only rtype t values); [congruence | | assumption].
        now apply length_zero_nil.
      * intros q' Hq. now apply dict_get_del_other.
    + rewrite dict_get_set_same. repeat split.
      * now apply dict_get_del_same.
      * intros t Ht. now apply dict_get_del_other.
      * intros q' Hq. now apply dict_get_set_other.
Qed.

(** Deleting a record through [set_custom_dns_record], on a store that is a
    dictionary: a call that writes the store returns [True]; the store
    written holds no value for the name and the type in upper case, the
    other types of the name as before, and the other names as before. *)
Theorem delete_record_then_absent (qname rtype : string) (e : env)
  (stored : option custom_dns_config) (b : bool) (c : custom_dns_config) :
  store_is_dict (get_custom_dns_config stored) ->
  set_custom_dns_record qname rtype None e stored = Ok (b, Some c) ->
  b = true /\
  stored_value c qname (Py.upper rtype) = None /\
  (forall t, t <> Py.upper rtype ->
     stored_value c qname t
     = stored_value (get_custom_dns_config stored) qname t) /\
  (forall q', q' <> qname ->
     Py.dict_get q' c = Py.dict_get q' (get_custom_dns_config stored)).
Proof.
  intros Hd H. apply set_custom_dns_record_ok in H.
  destruct H as [zones [_ [_ [_ H]]]]. now apply store_update_delete in H.
Qed.

Lemma dict_set_not_nil {V} (k : string) (v : V) (d : list (string * V)) :
  Py.dict_set k v d <> [].
Proof. forget_externals.
  destruct d as [|[k0 v0] d]; simpl; [discriminate|].
  destruct (String.eqb k0 k); discriminate.
Qed.

(** A name is taken out of the store when its last record goes: no call
    leaves a name with an empty mapping in the store. *)
Theorem no_empty_mapping_kept (qname rtype : string) (value : option string)
  (e : env) (stored : option custom_dns_config) (b : bool)
  (c : custom_dns_config) :
  no_empty_mapping (get_custom_dns_config stored) ->
  set_custom_dns_record qname rtype value e stored = Ok (b, Some c) ->
  no_empty_mapping c.
Proof.
  intros Hno H. apply set_custom_dns_record_ok in H.
  destruct H as [zones [_ [_ [_ H]]]]. clear zones.
  generalize dependent (get_custom_dns_config stored).
  generalize (Py.upper rtype). clear. intros rt config Hno H q Hin.
  assert (Hset : forall x, x <> MappingForm [] ->
                   In (q, MappingForm []) (Py.dict_set qname x config) -> False).
  { intros x Hx Hi. apply dict_set_in in Hi. destruct Hi as [Hi | Hi].
    - injection Hi as _ Hi. congruence.
    - exact (Hno q Hi). }
  assert (Hdel : In (q, MappingForm []) (Py.dict_del qname config) -> False).
  { intros Hi. apply dict_del_in in Hi. exact (Hno q Hi). }
  unfold store_update in H.
  destruct (Py.dict_get qname config) as [[current | values |]|];
    destruct value as [v|]; try discriminate H;
    repeat match type of H with
           | (if ?x then _ else _) = _ => destruct x eqn:?
           | match ?x with Some _ => _ | None => _ end = _ => destruct x eqn:?
           | (let _ := _ in _) = _ => cbn zeta in H
           end;
    try discriminate H; injection H as <- <-;
    try (now apply Hdel in Hin);
    try (apply Hset in Hin; [exact Hin | discriminate]).
  - apply Hset in Hin; [exact Hin|]. intros [= Hnil].
    exact (dict_set_not_nil _ _ _ Hnil).
  - apply Hset in Hin; [exact Hin|]. intros [= Hnil].
    rewrite Hnil in *. discriminate.
Qed.

(** Setting a record for a name that the store does not hold and deleting
    it again: both calls return [True], and the second writes the store as it
    was before the first. *)
Theorem set_then_delete_restores (qname rtype v : string) (e : env)
  (config : custom_dns_config) (zones : list (string * string)) :
  get_dns_zones e = Ok zones ->
  is_managed zones qname = true ->
  validate_rtype (Py.upper rtype) (Some v) = Ok tt ->
  Py.dict_get qname config = None ->
  exists c,
    set_custom_dns_record qname rtype (Some v) e (Some config) = Ok (true, Some c) /\
    stored_value c qname (Py.upper rtype) = Some v /\
    set_custom_dns_record qname rtype None e (Some c) = Ok (true, Some config).
Proof.
  intros Hz Hm Hv Hget.
  rewrite (set_custom_dns_record_run qname rtype (Some v) e (Some config) zones
             Hz Hm Hv).
  assert (Hrun : forall c, set_custom_dns_record qname rtype None e (Some c)
                           = store_update qname (Py.upper rtype) None c).
  { intros c. now apply (set_custom_dns_record_run qname rtype None e (Some c) zones). }
  unfold store_update at 1. simpl get_custom_dns_config. rewrite Hget.
  destruct (String.eqb_spec (Py.upper rtype) "A") as [HA | HA].
  - eexists. split; [reflexivity|]. split.
    + unfold stored_value. rewrite dict_get_set_same, HA. reflexivity.
    + rewrite Hrun. unfold store_update. rewrite dict_get_set_same, HA. simpl.
      now rewrite dict_del_set_absent.
  - eexists. split; [reflexivity|]. split.
    + unfold stored_value. rewrite dict_get_set_same, dict_get_cons.
      now rewrite String.eqb_refl.
    + rewrite Hrun. unfold store_update.
      rewrite dict_get_set_same, dict_get_cons, String.eqb_refl.
      cbn zeta. unfold Py.dict_del at 1. rewrite String.eqb_refl. simpl.
      now rewrite dict_del_set_absent.
Qed.

(** ** The records of the store, as [get_custom_records] yields them *)

Lemma mapM_raises_iff {A B} (f : A -> result B) (l : list A) :
  (exists x, mapM f l = Raise x) <-> exists a, In a l /\ exists x, f a = Raise x.
Proof. forget_externals.
  induction l as [|a l IH]; simpl.
  - split; [intros [x H]; discriminate | intros [a [[] _]]].
  - destruct (f a) as [b|x0] eqn:Ea; simpl.
    + destruct (mapM f l) as [bs|x1]; simpl.
      * split; [intros [x H]; discriminate|].
        intros [a' [[<- | Hin] [x Hx]]]; [congruence|].
        destruct (proj2 IH) as [x' Hx']; [eauto | discriminate].
      * split; [|eauto]. intros _.
        destruct (proj1 IH) as [a' [Hin Hx]]; [eauto|]. exists a'. split; [now right | assumption].
    + split; [|eauto]. intros _. exists a. split; [now left | eauto].
Qed.

Lemma mapM_raises_what {A B} (f : A -> result B) (l : list A) (x : exn) :
  mapM f l = Raise x -> exists a, In a l /\ f a = Raise x.
Proof. forget_externals.
  induction l as [|a l IH]; simpl; [discriminate|].
  destruct (f a) as [b|x0] eqn:Ea; simpl.
  - destruct (mapM f l) as [bs|x1]; simpl; [discriminate|].
    intros [= <-]. destruct (IH eq_refl) as [a' [Hin Hx]]. exists a'.
    split; [now right | assumption].
  - intros [= <-]. exists a. split; [now left | assumption].
Qed.

Lemma custom_records_of_entry_raises (domain : string) (e : env)
  (qname : string) (value : custom_value) (x : exn) :
  custom_records_of_entry domain e (qname, value) = Raise x <->
  entry_of_zone domain (qname, value) = true /\ value = OtherData /\
  x = ValueError "".
Proof. forget_externals.
  unfold custom_records_of_entry, entry_of_zone. cbn [fst].
  rewrite <- negb_orb.
  destruct (String.eqb qname domain || Py.endswith qname ("." +++ domain)) eqn:E;
    cbn [negb].
  - destruct value as [v | values |]; simpl.
    + split; [discriminate | intros [_ [H _]]; discriminate].
    + split; [discriminate | intros [_ [H _]]; discriminate].
    + split; [intros [= <-]; auto | intros [_ [_ ->]]; reflexivity].
  - split; [discriminate | intros [H _]; discriminate].
Qed.

(** The generator fails exactly on an entry of the zone that is neither a
    string nor a mapping, and then with a [ValueError] without a message;
    what the store holds for names outside the zone is never looked at. *)
Theorem get_custom_records_raises_iff (domain : string)
  (additional_records : custom_dns_config) (e : env) :
  ((exists x, get_custom_records domain additional_records e = Raise x) <->
   (exists qname, In (qname, OtherData) additional_records /\
                  entry_of_zone domain (qname, OtherData) = true)) /\
  (forall x, get_custom_records domain additional_records e = Raise x ->
             x = ValueError "").
Proof.
  unfold get_custom_records. split; [split|].
  - intros [x H].
    destruct (mapM _ additional_records) as [chunks|x'] eqn:E; simpl in H;
      [discriminate|].
    apply mapM_raises_what in E. destruct E as [[qname value] [Hin Hx]].
    apply custom_records_of_entry_raises in Hx. destruct Hx as [Hz [-> _]].
    now exists qname.
  - intros [qname [Hin Hz]].
    destruct (proj2 (mapM_raises_iff (custom_records_of_entry domain e)
                       additional_records)) as [x Hx].
    + exists (qname, OtherData). split; [assumption|]. exists (ValueError "").
      now apply custom_records_of_entry_raises.
    + exists x. now rewrite Hx.
  - intros x H.
    destruct (mapM _ additional_records) as [chunks|x'] eqn:E; simpl in H;
      [discriminate|].
    injection H as <-.
    apply mapM_raises_what in E. destruct E as [[qname value] [Hin Hx]].
    now apply custom_records_of_entry_raises in Hx.
Qed.

Lemma take_append (p s : string) :
  Py.take (String.length (p +++ s) - String.length s) (p +++ s) = p.
Proof. forget_externals.
  rewrite length_append, Nat.add_sub. unfold Py.take.
  induction p as [|c p IH]; simpl.
  - destruct s; reflexivity.
  - now rewrite IH.
Qed.

Lemma append_neq_suffix (p s : string) (c : ascii) : p +++ String c s <> s.
Proof. forget_externals.
  intros H. apply (f_equal String.length) in H.
  rewrite length_append in H. simpl in H. lia.
Qed.

(** The name under which an entry of the zone is yielded: completed by the
    zone's name it is the name in the store. *)
Lemma entry_name_expand (domain qname : string) :
  entry_of_zone domain (qname, OtherData) = true ->
  expand_qname domain
    (if String.eqb qname domain then None
     else Some (Py.take (String.length qname - String.length ("." +++ domain)) qname))
  = qname.
Proof. forget_externals.
  unfold entry_of_zone. cbn [fst].
  destruct (String.eqb_spec qname domain) as [-> | Hne]; [reflexivity|].
  simpl orb. intros [p ->]%endswith_iff. rewrite take_append.
  unfold expand_qname. reflexivity.
Qed.

Lemma expand_qname_entry (domain : string) (q : option string) :
  entry_of_zone domain (expand_qname domain q, OtherData) = true /\
  (if String.eqb (expand_qname domain q) domain then None
   else Some (Py.take (String.length (expand_qname domain q)
                       - String.length ("." +++ domain)) (expand_qname domain q)))
  = q.
Proof. forget_externals.
  unfold entry_of_zone. cbn [fst]. destruct q as [s|]; unfold expand_qname.
  - assert (Hne : s +++ "." +++ domain <> domain) by apply append_neq_suffix.
    rewrite (proj2 (String.eqb_neq _ _) Hne). split.
    + apply endswith_iff. now exists s.
    + now rewrite (take_append s ("." +++ domain)).
  - now rewrite String.eqb_refl.
Qed.

Lemma resolve_local_in (e : env) (t v0 t' v : string) :
  In (t', v) (resolve_local e (t, v0)) <->
  t' = t /\
  (if String.eqb v0 "local"
   then if String.eqb t "A" then v = PUBLIC_IP e
        else if String.eqb t "AAAA" then PUBLIC_IPV6 e = Some v
        else v = v0
   else v = v0).
Proof. forget_externals.
  unfold resolve_local.
  destruct (String.eqb_spec t "A") as [-> | HA];
    destruct (String.eqb v0 "local"); cbn [andb].
  - simpl. split; [intros [[= <- <-] | []]; auto | intros [-> ->]; auto].
  - replace ("A" =? "AAAA")%string with false by reflexivity. cbn [andb]. simpl.
    split; [intros [[= <- <-] | []]; auto | intros [-> ->]; auto].
  - destruct (String.eqb t "AAAA"); cbn [andb].
    + destruct (PUBLIC_IPV6 e) as [v6|]; simpl.
      * split; [intros [[= <- <-] | []]; auto | intros [-> [= ->]]; auto].
      * split; [intros [] | intros [_ H]; discriminate].
    + simpl. split; [intros [[= <- <-] | []]; auto | intros [-> ->]; auto].
  - rewrite andb_false_r. simpl.
    split; [intros [[= <- <-] | []]; auto | intros [-> ->]; auto].
Qed.

(** What one entry yields. *)
Lemma custom_records_of_entry_in (domain : string) (e : env)
  (qname : string) (value : custom_value)
  (chunk : list (option string * string * string))
  (q : option string) (t v : string) :
  custom_records_of_entry domain e (qname, value) = Ok chunk ->
  (In (q, t, v) chunk <->
   entry_of_zone domain (qname, value) = true /\
   expand_qname domain q = qname /\
   exists values v0,
     custom_values e value = Ok values /\ In (t, v0) values /\
     In (t, v) (resolve_local e (t, v0))).
Proof. forget_externals.
  unfold custom_records_of_entry.
  pose proof (entry_name_expand domain qname) as Hname.
  pose proof (expand_qname_entry domain q) as Hq.
  unfold entry_of_zone in *. cbn [fst] in *.
  rewrite <- negb_orb.
  destruct (String.eqb qname domain || Py.endswith qname ("." +++ domain)) eqn:E;
    cbn [negb].
  - specialize (Hname eq_refl).
    destruct (custom_values e value) as [values|] eqn:Hv; simpl; [|discriminate].
    intros [= <-]. rewrite in_map_iff. split.
    + intros [[t' v'] [[= <- <- <-] Hin]]. apply in_flat_map in Hin.
      destruct Hin as [[t0 v0] [Hin0 Hr]].
      assert (t' = t0) by (apply resolve_local_in in Hr; tauto). subst t0.
      split; [reflexivity|]. split; [exact Hname|].
      exists values, v0. auto.
    + intros [_ [Hexp [values' [v0 [[= <-] [Hin0 Hr]]]]]].
      exists (t, v). split.
      * cbn [fst snd]. f_equal. f_equal. subst qname. exact (proj2 Hq).
      * apply in_flat_map. exists (t, v0). auto.
  - intros [= <-]. split; [intros [] | intros [H _]; discriminate].
Qed.

Lemma mapM_concat_in {A B} (f : A -> result (list B)) (l : list A)
  (chunks : list (list B)) (y : B) :
  mapM f l = Ok chunks ->
  (In y (List.concat chunks) <-> exists a chunk, In a l /\ f a = Ok chunk /\ In y chunk).
Proof. forget_externals.
  revert chunks. induction l as [|a l IH]; intros chunks; simpl.
  - intros [= <-]. simpl. split; [intros [] | intros [a [chunk [[] _]]]].
  - destruct (f a) as [b|] eqn:Ea; simpl; [|discriminate].
    destruct (mapM f l) as [bs|]; simpl; [|discriminate].
    intros [= <-]. simpl. rewrite in_app_iff, (IH bs eq_refl). split.
    + intros [H | [a' [chunk [Hin [Hf Hy]]]]].
      * exists a, b. auto.
      * exists a', chunk. auto.
    + intros [a' [chunk [[<- | Hin] [Hf Hy]]]].
      * left. congruence.
      * right. exists a', chunk. auto.
Qed.

(** The records that the generator yields are those of the store for the
    zone, no more and no less: a record is yielded exactly when the store
    holds, under its name in full, a string or a mapping that gives its type
    a value, and the value yielded is that value, or the box's address when
    that value is the keyword [local] on an A or an AAAA record. *)
Theorem get_custom_records_exact (domain : string)
  (additional_records : custom_dns_config) (e : env)
  (recs : list (option string * string * string))
  (q : option string) (t v : string) :
  get_custom_records domain additional_records e = Ok recs ->
  (In (q, t, v) recs <->
   exists value values v0,
     In (expand_qname domain q, value) additional_records /\
     custom_values e value = Ok values /\
     In (t, v0) values /\
     (if String.eqb v0 "local"
      then if String.eqb t "A" then v = PUBLIC_IP e
           else if String.eqb t "AAAA" then PUBLIC_IPV6 e = Some v
           else v = v0
      else v = v0)).
Proof. forget_externals.
  unfold get_custom_records.
  destruct (mapM _ additional_records) as [chunks|] eqn:E; simpl; [|discriminate].
  intros [= <-]. rewrite (mapM_concat_in _ _ _ (q, t, v) E). split.
  - intros [[qname value] [chunk [Hin [Hf Hy]]]].
    apply (custom_records_of_entry_in domain e qname value chunk q t v Hf) in Hy.
    destruct Hy as [_ [Hexp [values [v0 [Hv [Hin0 Hr]]]]]].
    exists value, values, v0. subst qname. repeat split; try assumption.
    apply resolve_local_in in Hr. tauto.
  - intros [value [values [v0 [Hin [Hv [Hin0 Hr]]]]]].
    destruct (custom_records_of_entry domain e (expand_qname domain q, value))
      as [chunk|x] eqn:Hf.
    + exists (expand_qname domain q, value), chunk.
      split; [assumption|]. split; [assumption|].
      apply (custom_records_of_entry_in domain e _ value chunk q t v Hf).
      split; [|split; [reflexivity|]].
      * pose proof (proj1 (expand_qname_entry domain q)) as H.
        unfold entry_of_zone in *. exact H.
      * exists values, v0. repeat split; try assumption.
        apply resolve_local_in. tauto.
    + apply custom_records_of_entry_raises in Hf.
      destruct Hf as [_ [-> _]]. discriminate.
Qed.

(** The keyword [local] never gets into a zone as the value of an A or AAAA
    record, unless the box's own address is the text "local". *)
Theorem local_keyword_resolved (domain : string)
  (additional_records : custom_dns_config) (e : env)
  (recs : list (option string * string * string)) (q : option string) (t : string) :
  get_custom_records domain additional_records e = Ok recs ->
  In (q, t, "local") recs ->
  (t = "A" -> PUBLIC_IP e = "local") /\
  (t = "AAAA" -> PUBLIC_IPV6 e = Some "local").
Proof.
  intros Hrecs Hin.
  unfold get_custom_records in Hrecs.
  destruct (mapM _ additional_records) as [chunks|] eqn:E; simpl in Hrecs;
    [|discriminate].
  injection Hrecs as <-.
  apply (mapM_concat_in _ _ _ (q, t, "local") E) in Hin.
  destruct Hin as [[qname value] [chunk [_ [Hf Hy]]]].
  apply (custom_records_of_entry_in domain e qname value chunk q t "local" Hf) in Hy.
  destruct Hy as [_ [_ [values [v0 [_ [_ Hr]]]]]].
  apply resolve_local_in in Hr. destruct Hr as [_ Hr].
  destruct (String.eqb v0 "local") eqn:E0.
  - split; intros ->; simpl in Hr; congruence.
  - apply String.eqb_neq in E0. congruence.
Qed.

(** ** The names that take custom records *)

Lemma set_union_in (y : string) (l s : list string) :
  In y (Py.set_union s l) <-> In y s \/ In y l.
Proof. forget_externals.
  unfold Py.set_union. revert s. induction l as [|x l IH]; intros s; simpl.
  - tauto.
  - rewrite IH, set_add_in. intuition.
Qed.

Lemma get_dns_domains_in (e : env) (d : string) :
  In d (get_dns_domains e) <->
  d = PRIMARY_HOSTNAME e \/ In d (get_mail_domains e).
Proof. forget_externals.
  unfold get_dns_domains. rewrite set_add_in, set_union_in. simpl. tauto.
Qed.

Lemma covered_trans (a b c : string) : covered a b -> covered b c -> covered a c.
Proof. forget_externals.
  intros [-> | Hab] [-> | Hbc]; [now left | now right | now right |].
  right. apply endswith_iff in Hab, Hbc. destruct Hab as [p ->], Hbc as [p' ->].
  apply endswith_iff. exists (p' +++ "." +++ p).
  now rewrite !append_assoc.
Qed.

Lemma is_managed_iff (zones : list (string * string)) (qname : string) :
  is_managed zones qname = true <->
  exists a, In a (map fst zones) /\ covered a qname.
Proof. forget_externals.
  unfold is_managed, covered. rewrite existsb_exists. split.
  - intros [z [Hz H]]. exists (fst z). split; [now apply in_map|].
    apply orb_true_iff in H. destruct H as [H%String.eqb_eq | H]; auto.
  - intros [a [Ha H]]. apply in_map_iff in Ha. destruct Ha as [z [<- Hz]].
    exists z. split; [assumption|]. apply orb_true_iff.
    destruct H as [-> | H]; [left; apply String.eqb_refl | now right].
Qed.

(** The names that [set_custom_dns_record] takes are PRIMARY_HOSTNAME, the
    domains of the mail users and aliases, and the names below them: a name
    passes the first check exactly when it is one of these domains or ends
    with a dot and one of them, although only the domains that are not below
    another one are zones; for any other name the call raises
    [ValueError]. *)
Theorem managed_names_are_domains (qname : string) (e : env)
  (zones : list (string * string)) :
  get_dns_zones e = Ok zones ->
  (is_managed zones qname = true <->
   exists d, (d = PRIMARY_HOSTNAME e \/ In d (get_mail_domains e)) /\
             covered d qname) /\
  ((forall d, d = PRIMARY_HOSTNAME e \/ In d (get_mail_domains e) ->
              ~ covered d qname) ->
   forall rtype value stored,
     set_custom_dns_record qname rtype value e stored
     = Raise (ValueError (qname +++
         " is not a domain name or a subdomain of a domain name managed by this box."))).
Proof.
  intros Hz.
  pose proof (get_dns_zones_apexes e zones Hz) as Hp.
  destruct (zone_domains_of_spec (get_dns_domains e)) as [_ [Hincl [_ Hc]]].
  assert (Hiff : is_managed zones qname = true <->
                 exists d, (d = PRIMARY_HOSTNAME e \/ In d (get_mail_domains e)) /\
                           covered d qname).
  { rewrite is_managed_iff. split.
    - intros [a [Ha Hcov]]. exists a. split; [|assumption].
      apply get_dns_domains_in. apply Hincl.
      now apply (Permutation_in _ Hp).
    - intros [d [Hd Hcov]]. apply get_dns_domains_in in Hd.
      destruct (Hc d Hd) as [a [Ha [Hcov' _]]]. exists a. split.
      + now apply (Permutation_in _ (Permutation_sym Hp)).
      + now apply (covered_trans a d qname). }
  split; [exact Hiff|].
  intros Hnone rtype value stored.
  apply (unmanaged_name_raises qname rtype value e stored zones Hz).
  destruct (is_managed zones qname) eqn:E; [|reflexivity].
  destruct (proj1 Hiff eq_refl) as [d [Hd Hcov]]. now destruct (Hnone d Hd).
Qed.

(** ** The order of the zones *)

Lemma insert_sorted_by_key {A} (key : A -> nat) (x : A) (l : list A) :
  StronglySorted (fun a b => key a <= key b) l ->
  StronglySorted (fun a b => key a <= key b)
    (Py.insert_sorted (fun a b => key a <=? key b) x l).
Proof. forget_externals.
  induction 1 as [|y l Hs IH Hy]; simpl.
  - repeat constructor.
  - destruct (Nat.leb_spec (key x) (key y)).
    + constructor; [now constructor|].
      constructor; [assumption|].
      rewrite Forall_forall in *. intros z Hz. specialize (Hy z Hz). lia.
    + constructor; [assumption|].
      rewrite Forall_forall in *. intros z Hz.
      apply (Permutation_in _ (insert_sorted_perm _ x l)) in Hz.
      destruct Hz as [<- | Hz]; [lia | now apply Hy].
Qed.

Lemma sort_by_key {A} (key : A -> nat) (l : list A) :
  StronglySorted (fun a b => key a <= key b)
    (Py.sort (fun a b => key a <=? key b) l).
Proof. forget_externals.
  induction l as [|x l IH]; simpl; [constructor|].
  now apply insert_sorted_by_key.
Qed.

Lemma StronglySorted_weaken {A} (R R' : A -> A -> Prop) (l : list A) :
  (forall a b, In a l -> In b l -> R a b -> R' a b) ->
  StronglySorted R l -> StronglySorted R' l.
Proof. forget_externals.
  intros H Hs. induction Hs as [|x l Hs IH Hx]; constructor.
  - apply IH. intros a b Ha Hb. apply H; now right.
  - rewrite Forall_forall in *. intros b Hb. apply H; [now left | now right |].
    now apply Hx.
Qed.

Lemma StronglySorted_map {A B} (f : A -> B) (R : B -> B -> Prop) (l : list A) :
  StronglySorted (fun a b => R (f a) (f b)) l -> StronglySorted R (map f l).
Proof. forget_externals.
  induction 1 as [|x l Hs IH Hx]; simpl; constructor; [assumption|].
  rewrite Forall_forall in *. intros b [a [<- Ha]]%in_map_iff. now apply Hx.
Qed.

(** The place of a name in a list, as [index] gives it. *)
Lemma index_in (x : string) (l : list string) (i : nat) :
  Py.index x l = Some i -> In x l.
Proof. forget_externals.
  revert i. induction l as [|y l IH]; intros i; simpl; [discriminate|].
  destruct (String.eqb_spec y x) as [-> | Hne]; [now left|].
  destruct (Py.index x l) as [j|]; [|discriminate]. intros _. right. now apply (IH j).
Qed.


Lemma index_increases (l : list string) :
  NoDup l ->
  StronglySorted
    (fun a b => exists i j, Py.index a l = Some i /\ Py.index b l = Some j /\ i < j) l.
Proof. forget_externals.
  induction 1 as [|y l Hy Hn IH]; [constructor|]. constructor.
  - refine (StronglySorted_weaken _ _ l _ IH).
    intros a b Ha Hb [i [j [Hi [Hj Hij]]]]. exists (S i), (S j). simpl.
    destruct (String.eqb_spec y a) as [-> | _]; [contradiction|].
    destruct (String.eqb_spec y b) as [-> | _]; [contradiction|].
    rewrite Hi, Hj. simpl. repeat split. lia.
  - rewrite Forall_forall. intros b Hb.
    destruct (index_some b l Hb) as [j Hj]. exists 0, (S j). simpl.
    rewrite String.eqb_refl.
    destruct (String.eqb_spec y b) as [-> | _]; [contradiction|].
    rewrite Hj. simpl. repeat split. lia.
Qed.

(** Two lists with the same elements, one in an order and the other in a
    strict order that agrees with it, are the same list. *)
Lemma sorted_perm_eq {A} (R1 R2 : A -> A -> Prop) (l1 l2 : list A) :
  (forall a b, R1 a b -> R2 b a -> False) ->
  StronglySorted R1 l1 -> StronglySorted R2 l2 -> Permutation l1 l2 -> l1 = l2.
Proof. forget_externals.
  intros Hanti H1. revert l2. induction H1 as [|x l1 Hs1 IH Hx]; intros l2 H2 Hp.
  - now apply Permutation_nil in Hp.
  - destruct l2 as [|y l2]; [now apply Permutation_sym, Permutation_nil in Hp|].
    inversion H2 as [|? ? Hs2 Hy]; subst.
    rewrite Forall_forall in Hx, Hy.
    assert (Hxy : x = y).
    { pose proof (Permutation_in x Hp (or_introl eq_refl)) as [Hx' | Hx'];
        [now symmetry|].
      pose proof (Permutation_in y (Permutation_sym Hp) (or_introl eq_refl))
        as [Hy' | Hy']; [assumption|].
      destruct (Hanti x y (Hx y Hy') (Hy x Hx')). }
    subst y. f_equal. apply IH; [assumption|].
    now apply Permutation_cons_inv in Hp.
Qed.

Lemma mapM_keyed_index (zone_order : list string) (zonefiles : list (string * string))
  (keyed : list (nat * (string * string))) :
  mapM (fun zone : string * string =>
          match Py.index (fst zone) zone_order with
          | Some i => Ok (i, zone)
          | None => Raise (ValueError "not in list")
          end) zonefiles = Ok keyed ->
  forall k, In k keyed -> Py.index (fst (snd k)) zone_order = Some (fst k).
Proof. forget_externals.
  revert keyed. induction zonefiles as [|z l IH]; intros keyed; simpl.
  - intros [= <-] k [].
  - destruct (Py.index (fst z) zone_order) as [i|] eqn:Ei; simpl; [|discriminate].
    destruct (mapM _ l) as [ks|]; simpl; [|discriminate].
    intros [= <-] k [<- | Hk]; [exact Ei | now apply (IH ks)].
Qed.

Lemma map_fst_rebuild {A B} (g : A -> A * B) (l : list (A * B)) :
  (forall z, In z l -> z = g (fst z)) -> l = map g (map fst l).
Proof. forget_externals.
  induction l as [|z l IH]; intros H; simpl; [reflexivity|].
  rewrite <- (H z) by now left. f_equal. apply IH. intros z' Hz'. apply H. now right.
Qed.

(** The zones come in the order that [sort_domains] gives to their names:
    when [sort_domains] returns the names it is given, in some order,
    [get_dns_zones] returns one zone for each name of that list, in that
    order, with the file name that [safe_domain_name] makes of the name. *)
Theorem get_dns_zones_in_order (e : env) :
  Permutation (sort_domains (zone_domains_of (get_dns_domains e)) e)
              (zone_domains_of (get_dns_domains e)) ->
  get_dns_zones e
  = Ok (map (fun domain => (domain, safe_domain_name domain +++ ".txt"))
            (sort_domains (zone_domains_of (get_dns_domains e)) e)).
Proof.
  intros Hperm.
  destruct (get_dns_zones e) as [zones|x] eqn:Hz.
  - f_equal.
    pose proof (get_dns_zones_apexes e zones Hz) as Hp.
    destruct (zone_domains_of_spec (get_dns_domains e)) as [Hn _].
    cbn zeta in Hn.
    unfold get_dns_zones in Hz.
    set (names := zone_domains_of (get_dns_domains e)) in *.
    set (g := fun domain : string => (domain, safe_domain_name domain +++ ".txt")) in *.
    assert (Hnames : map fst (map g names) = names).
    { rewrite map_map. simpl. apply map_id. }
    rewrite Hnames in Hz.
    set (order := sort_domains names e) in *.
    destruct (mapM _ (map g names)) as [keyed|] eqn:E; simpl in Hz; [|discriminate].
    injection Hz as <-.
    pose proof (mapM_keyed_index _ _ _ E) as Hidx.
    pose proof (mapM_keyed _ _ _ E) as Hsnd.
    set (le := fun a b : nat * (string * string) => fst a <=? fst b) in *.
    assert (Horder : map fst (map snd (Py.sort le keyed)) = order).
    { set (pos := fun x => match Py.index x order with Some i => i | None => 0 end).
      apply (sorted_perm_eq
               (fun a b => pos a <= pos b)
               (fun a b => exists i j, Py.index a order = Some i /\
                                       Py.index b order = Some j /\ i < j)).
      - intros a b Hab [i [j [Hi [Hj Hij]]]]. unfold pos in Hab.
        rewrite Hi, Hj in Hab. lia.
      - rewrite map_map. apply StronglySorted_map.
        refine (StronglySorted_weaken _ _ _ _ (sort_by_key fst keyed)).
        intros a b Ha Hb Hab. apply sort_in in Ha, Hb. unfold pos.
        now rewrite (Hidx a Ha), (Hidx b Hb).
      - apply index_increases.
        apply (Permutation_NoDup (Permutation_sym Hperm) Hn).
      - now rewrite Hp. }
    rewrite <- Horder. apply map_fst_rebuild.
    intros z Hin. apply in_map_iff in Hin. destruct Hin as [k [<- Hk]].
    apply sort_in in Hk. apply (in_map snd) in Hk. rewrite Hsnd in Hk.
    apply in_map_iff in Hk. destruct Hk as [d [<- _]]. reflexivity.
  - exfalso.
    unfold get_dns_zones in Hz.
    set (names := zone_domains_of (get_dns_domains e)) in *.
    set (g := fun domain : string => (domain, safe_domain_name domain +++ ".txt")) in *.
    assert (Hnames : map fst (map g names) = names).
    { rewrite map_map. simpl. apply map_id. }
    rewrite Hnames in Hz.
    destruct (mapM_keyed_ok (sort_domains names e) (map g names)) as [keyed Hk].
    + intros z Hin. apply in_map_iff in Hin. destruct Hin as [d [<- Hd]]. simpl.
      now apply (Permutation_in _ (Permutation_sym Hperm)).
    + rewrite Hk in Hz. discriminate.
Qed.

(** ** The order of the records in a zone *)

Lemma split_not_nil (c : ascii) (s : string) : Py.split c s <> [].
Proof. forget_externals.
  induction s as [|a s IH]; simpl; [discriminate|].
  destruct (Ascii.eqb a c); [discriminate|].
  destruct (Py.split c s); discriminate.
Qed.

Lemma sort_key_nil (r : record) : sort_key r = [] <-> is_apex r = true.
Proof. forget_externals.
  unfold sort_key, is_apex. destruct (fst (fst (fst r))) as [qname|].
  - split; [|discriminate]. intros H. apply (f_equal (@rev string)) in H.
    rewrite rev_involutive in H. now apply split_not_nil in H.
  - now split.
Qed.

Lemma list_le_nil_r (k : list string) : Py.list_le k [] = true -> k = [].
Proof. forget_externals. destruct k; [reflexivity | discriminate]. Qed.

Lemma insert_apex_first (x : record) (l : list record) :
  apex_first l ->
  apex_first
    (Py.insert_sorted (fun a b => Py.list_le (sort_key a) (sort_key b)) x l).
Proof. forget_externals.
  intros [apex [named [-> [Ha Hn]]]].
  induction apex as [|y apex IH]; simpl.
  - destruct (is_apex x) eqn:Ex.
    + exists [x], named. repeat split; [|now repeat constructor | assumption].
      apply sort_key_nil in Ex. destruct named as [|y named]; simpl;
        [reflexivity | now rewrite Ex].
    + exists [], (Py.insert_sorted
                    (fun a b => Py.list_le (sort_key a) (sort_key b)) x named).
      repeat split; [constructor|].
      rewrite Forall_forall in *. intros r Hr.
      apply (Permutation_in _ (insert_sorted_perm _ x named)) in Hr.
      destruct Hr as [<- | Hr]; [assumption | now apply Hn].
  - inversion Ha as [|? ? Hy Ha']; subst.
    destruct (Py.list_le (sort_key x) (sort_key y)) eqn:E.
    + rewrite (proj2 (sort_key_nil y) Hy) in E. apply list_le_nil_r in E.
      apply sort_key_nil in E.
      exists (x :: y :: apex), named. repeat split;
        [now repeat constructor | assumption].
    + destruct (IH Ha') as [apex' [named' [-> [Ha'' Hn'']]]].
      exists (y :: apex'), named'. repeat split;
        [now constructor | assumption].
Qed.

Lemma sort_records_apex_first (records : list record) :
  apex_first (sort_records records).
Proof. forget_externals.
  unfold sort_records. induction records as [|x l IH]; simpl.
  - exists [], []. repeat split; constructor.
  - now apply insert_apex_first.
Qed.

(** In the records that [build_zone] returns, those of the zone's own name
    come before all the others, which the zone file needs: a record written
    without a name belongs to the name of the line before it. *)
Theorem apex_records_first (h : host) (domain : string) (all_domains : list string)
  (additional_records : custom_dns_config) (e : env) (is_zone : bool)
  (recs : list record) :
  build_zone h domain all_domains additional_records e is_zone = Ok recs ->
  exists apex named,
    recs = apex ++ named /\
    (forall t v x, In (None, t, v, x) recs -> In (None, t, v, x) apex) /\
    (forall r, In r apex -> fst (fst (fst r)) = None) /\
    (forall r, In r named -> exists q, fst (fst (fst r)) = Some q).
Proof.
  intros Hb. apply build_zone_body_inv in Hb. destruct Hb as [pre [_ ->]].
  destruct (sort_records_apex_first (strict_policy_backstop pre))
    as [apex [named [Heq [Ha Hn]]]].
  rewrite Forall_forall in Ha, Hn.
  exists apex, named. split; [exact Heq|]. repeat split.
  - intros t v x Hin. rewrite Heq in Hin. apply in_app_or in Hin.
    destruct Hin as [Hin | Hin]; [assumption|].
    specialize (Hn _ Hin). discriminate.
  - intros r Hr. specialize (Ha r Hr). unfold is_apex in Ha.
    destruct (fst (fst (fst r))); [discriminate | reflexivity].
  - intros r Hr. specialize (Hn r Hr). unfold is_apex in Hn.
    destruct (fst (fst (fst r))) as [q|]; [now exists q | discriminate].
Qed.

(** ** The records that custom records cannot displace *)

Lemma own_records_mx (h : host) (domain : string) (e : env) (is_zone : bool)
  (own : list record) :
  own_records h domain e is_zone = Ok own ->
  filter (at_name_type None "MX") own
  = [ (None, "MX", "10 " +++ PRIMARY_HOSTNAME e +++ ".",
       Some ("Required. Specifies the hostname (and priority) of the machine that handles @"
             +++ domain +++ " mail.")) ].
Proof.
  unfold own_records, primary_hostname_records.
  destruct (String.eqb domain (PRIMARY_HOSTNAME e)).
  - destruct (build_tlsa_record h) as [tlsa|]; simpl; [|discriminate].
    destruct (build_sshfp_records h) as [sshfp|]; simpl; [|discriminate].
    intros [= <-].
    assert (Hs : forall x : option string,
               filter (at_name_type None "MX")
                 (map (fun value : string => (None, "SSHFP", value, x)) sshfp) = []).
    { intros x. induction sshfp as [|k l IH]; [reflexivity | exact IH]. }
    destruct is_zone, (PUBLIC_IPV6 e) as [[|c v6]|];
      rewrite ?filter_app, ?Hs; reflexivity.
  - simpl. intros [= <-]. destruct is_zone; reflexivity.
Qed.

(** Whatever the store of custom records holds, the zone has one MX record
    at its own name: the box, with priority 10. *)
Theorem mx_record_unique (h : host) (domain : string) (all_domains : list string)
  (additional_records : custom_dns_config) (e : env) (is_zone : bool)
  (recs : list record) :
  build_zone h domain all_domains additional_records e is_zone = Ok recs ->
  filter (at_name_type None "MX") recs
  = [ (None, "MX", "10 " +++ PRIMARY_HOSTNAME e +++ ".",
       Some ("Required. Specifies the hostname (and priority) of the machine that handles @"
             +++ domain +++ " mail.")) ].
Proof.
  intros Hb.
  apply build_zone_body_inv in Hb. destruct Hb as [pre [Hpre ->]].
  apply records_before_backstop_inv in Hpre.
  destruct Hpre as [own [children [custom [dkim [Ho [Hc [Hcu [Hd ->]]]]]]]].
  destruct (dkim_record_txt h domain dkim Hd) as [name [dv [dx [-> _]]]].
  pose proof (has_rec_none_named children "MX"
                (subdomain_records_named _ _ _ _ Hc)) as Hchildren.
  pose proof (own_records_mx h domain e is_zone own Ho) as Hmx.
  assert (Hyes : has_rec (own ++ children) None "MX" None = true).
  { rewrite has_rec_app, has_rec_existsb.
    destruct (existsb (at_name_type None "MX") own) eqn:E; [reflexivity|].
    exfalso. assert (Hf : filter (at_name_type None "MX") own = []).
    { apply has_rec_filter. now rewrite has_rec_existsb. }
    rewrite Hf in Hmx. discriminate. }
  destruct (custom_fold_keeps custom _ None "MX" Hyes) as [H1 H2].
  assert (Hperm := later_stages_keep is_zone domain e _
                     (Some name, "TXT", dv, Some dx) None "MX" H1
                     ltac:(discriminate) ltac:(eauto)).
  rewrite H2, filter_app, (has_rec_filter _ _ _ Hchildren), app_nil_r, Hmx in Hperm.
  now apply Permutation_sym, Permutation_length_1_inv in Hperm.
Qed.

(** ** When [build_zone] returns *)

Lemma mapM_ok {A B} (f : A -> result B) (l : list A) :
  (forall x, In x l -> exists y, f x = Ok y) -> exists ys, mapM f l = Ok ys.
Proof. forget_externals.
  induction l as [|a l IH]; intros H; simpl; [now exists []|].
  destruct (H a (or_introl eq_refl)) as [y ->].
  destruct IH as [ys ->]; [intros x Hx; apply H; now right|].
  simpl. eauto.
Qed.

Lemma own_records_returns (h : host) (domain : string) (e : env) (is_zone : bool) :
  (exists own, own_records h domain e is_zone = Ok own) <->
  (domain = PRIMARY_HOSTNAME e ->
   ssl_certificate_sha256 h <> None /\ ssh_keyscan h <> None).
Proof.
  unfold own_records. split.
  - intros [own H] ->. rewrite String.eqb_refl in H.
    unfold primary_hostname_records, build_tlsa_record, build_sshfp_records in H.
    destruct (ssl_certificate_sha256 h); [|simpl in H; discriminate].
    destruct (ssh_keyscan h); [|simpl in H; discriminate].
    split; discriminate.
  - intros Hc. destruct (String.eqb_spec domain (PRIMARY_HOSTNAME e)) as [Heq | Hne].
    + destruct (Hc Heq) as [H1 H2].
      unfold primary_hostname_records, build_tlsa_record, build_sshfp_records.
      destruct (ssl_certificate_sha256 h); [|contradiction].
      destruct (ssh_keyscan h); [|contradiction].
      cbn [bind]. eauto.
    + cbn [bind]. eauto.
Qed.

Lemma dkim_record_returns (h : host) (domain : string) :
  (exists dkim, dkim_record h domain = Ok dkim) <->
  (exists text name_value,
     dkim_mail_txt h = Some text /\ match_dkim_record text = Some name_value).
Proof. forget_externals.
  unfold dkim_record. destruct (dkim_mail_txt h) as [text|].
  - destruct (match_dkim_record text) as [[name val]|] eqn:E.
    + split; [intros _; exists text, (name, val); now split | eauto].
    + split; [intros [d H]; discriminate|].
      intros [t [nv [[= <-] H]]]. congruence.
  - split; [intros [d H]; discriminate | intros [t [nv [H _]]]; discriminate].
Qed.

Lemma get_custom_records_returns (domain : string)
  (additional_records : custom_dns_config) (e : env) :
  (exists custom, get_custom_records domain additional_records e = Ok custom) <->
  (forall qname, In (qname, OtherData) additional_records ->
                 entry_of_zone domain (qname, OtherData) = false).
Proof. forget_externals.
  unfold get_custom_records.
  destruct (mapM (custom_records_of_entry domain e) additional_records)
    as [chunks|x] eqn:E; cbn [bind].
  - split; [|eauto]. intros _ qname Hin.
    destruct (entry_of_zone domain (qname, OtherData)) eqn:Hz; [|reflexivity].
    destruct (proj2 (mapM_raises_iff (custom_records_of_entry domain e)
                       additional_records)) as [x Hx]; [|congruence].
    exists (qname, OtherData). split; [assumption|]. exists (ValueError "").
    now apply custom_records_of_entry_raises.
  - split; [intros [c H]; discriminate|]. intros Hnone.
    apply mapM_raises_what in E. destruct E as [[qname value] [Hin Hx]].
    apply custom_records_of_entry_raises in Hx. destruct Hx as [Hz [-> _]].
    rewrite (Hnone qname Hin) in Hz. discriminate.
Qed.

Lemma records_before_backstop_ok
  (build_subzone : string -> result (list record)) (h : host)
  (domain : string) (all_domains : list string)
  (additional_records : custom_dns_config) (e : env) (is_zone : bool) :
  (exists own, own_records h domain e is_zone = Ok own) ->
  (exists children, subdomain_records build_subzone domain all_domains = Ok children) ->
  (exists custom, get_custom_records domain additional_records e = Ok custom) ->
  (exists dkim, dkim_record h domain = Ok dkim) ->
  exists recs,
    build_zone_body build_subzone h domain all_domains additional_records e is_zone
    = Ok recs.
Proof.
  intros [own Ho] [children Hc] [custom Hcu] [dkim Hd].
  unfold build_zone_body, records_before_backstop.
  rewrite Ho. cbn [bind]. rewrite Hc. cbn [bind]. rewrite Hcu. cbn [bind].
  rewrite Hd. cbn [bind]. eauto.
Qed.

Lemma subdomain_records_ok (build_subzone : string -> result (list record))
  (domain : string) (all_domains : list string) :
  (forall subdomain, In subdomain all_domains ->
     Py.endswith subdomain ("." +++ domain) = true ->
     exists subzone, build_subzone subdomain = Ok subzone) ->
  exists children, subdomain_records build_subzone domain all_domains = Ok children.
Proof. forget_externals.
  intros H. unfold subdomain_records.
  match goal with
  | |- context [mapM ?f ?l] => destruct (mapM_ok f l) as [chunks ->]
  end.
  - intros sub [Hin Hend]%filter_In. destruct (H sub Hin Hend) as [subzone ->].
    cbn [bind]. eauto.
  - cbn [bind]. eauto.
Qed.

(** [build_zone] returns exactly when it can read what it needs: the
    record of OpenDKIM is there and has the expected form; no entry of the
    store for the zone is something other than a string or a mapping; and,
    when the zone is PRIMARY_HOSTNAME or PRIMARY_HOSTNAME is one of the
    domains below it, the certificate and the key scan can be had.  Nothing
    else makes it fail: not the addresses, and not the entries of the store
    for other zones. *)
Theorem build_zone_returns_iff (h : host) (domain : string)
  (all_domains : list string) (additional_records : custom_dns_config)
  (e : env) (is_zone : bool) :
  (exists recs,
     build_zone h domain all_domains additional_records e is_zone = Ok recs) <->
  (exists text name_value,
     dkim_mail_txt h = Some text /\ match_dkim_record text = Some name_value) /\
  (forall qname, In (qname, OtherData) additional_records ->
                 entry_of_zone domain (qname, OtherData) = false) /\
  (domain = PRIMARY_HOSTNAME e \/
   (In (PRIMARY_HOSTNAME e) all_domains /\
    Py.endswith (PRIMARY_HOSTNAME e) ("." +++ domain) = true) ->
   ssl_certificate_sha256 h <> None /\ ssh_keyscan h <> None).
Proof.
  split.
  - intros [recs Hb].
    apply build_zone_body_inv in Hb. destruct Hb as [pre [Hpre _]].
    apply records_before_backstop_inv in Hpre.
    destruct Hpre as [own [children [custom [dkim [Ho [Hc [Hcu [Hd _]]]]]]]].
    split; [|split].
    + apply (dkim_record_returns h domain). eauto.
    + apply (get_custom_records_returns domain additional_records e). eauto.
    + intros [Heq | [Hin Hend]].
      * apply (own_records_returns h domain e is_zone); eauto.
      * destruct (subdomain_records_in _ _ _ _ _ Hc Hin Hend) as [subzone [Hs _]].
        apply build_zone_body_inv in Hs. destruct Hs as [pre' [Hpre' _]].
        apply records_before_backstop_inv in Hpre'.
        destruct Hpre' as [own' [_ [_ [_ [Ho' _]]]]].
        apply (own_records_returns h (PRIMARY_HOSTNAME e) e false); eauto.
  - intros [Hdkim [Hcustom Hbox]].
    apply records_before_backstop_ok.
    + apply own_records_returns. intros Heq. apply Hbox. now left.
    + apply subdomain_records_ok. intros sub Hin Hend.
      apply records_before_backstop_ok.
      * apply own_records_returns. intros ->. apply Hbox. now right.
      * exists []. reflexivity.
      * exists []. reflexivity.
      * now apply dkim_record_returns.
    + now apply get_custom_records_returns.
    + now apply dkim_record_returns.
Qed.

(** ** The records set by the user *)

Lemma custom_fold_none (custom : list (option string * string * string))
  (records : list record) (q : option string) (t : string) :
  has_rec records q t None = false ->
  find (custom_at q t) custom = None ->
  has_rec (fold_left add_custom_record custom records) q t None = false.
Proof. forget_externals.
  revert records. induction custom as [|[[q' t'] v] l IH]; intros records Hno Hf;
    simpl in *; [assumption|].
  destruct (option_eqb q' q && String.eqb t' t) eqn:E; [discriminate|].
  apply IH; [|assumption].
  destruct (has_rec records q' t' None); [assumption|].
  rewrite has_rec_app, Hno. unfold has_rec. simpl. now rewrite E.
Qed.

(** A record that the step of the defaults adds is not one set by the
    user. *)
Lemma defaults_fold_origin (is_zone : bool) (domain : string) (e : env)
  (ds : list (option string * string * option string * string))
  (records : list record) (r : record) :
  incl ds (defaults domain e) ->
  In r (fold_left (add_default is_zone) ds records) ->
  In r records \/ snd r <> Some "(Set by user.)".
Proof. forget_externals.
  revert records. induction ds as [|d l IH]; intros records Hi H; simpl in H.
  - now left.
  - destruct (IH _ (fun x Hx => Hi x (or_intror Hx)) H) as [H' | H'];
      [|now right].
    unfold add_default in H'. destruct d as [[[q t] [v|]] x]; [|now left].
    destruct (Py.isblank v); [now left|].
    destruct (negb is_zone && option_eqb q (Some "www")); [now left|].
    destruct (negb (has_rec records q t None)); [|now left].
    apply in_app_or in H'. destruct H' as [H' | [<- | []]]; [now left|].
    right. specialize (Hi _ (or_introl eq_refl)).
    unfold defaults in Hi. simpl in Hi.
    destruct Hi as [Hd | [Hd | [Hd | [Hd | []]]]]; injection Hd as _ _ _ <-;
      simpl; discriminate.
Qed.

(** A record set by the user, of a type other than TXT, is the only record
    of its name and type in the zone: no record of the box, of a subdomain
    or of the defaults, and no second custom record, shares its name and
    type. *)
Theorem user_record_unique (h : host) (domain : string) (all_domains : list string)
  (additional_records : custom_dns_config) (e : env) (is_zone : bool)
  (recs : list record) (q : option string) (t v : string) :
  build_zone h domain all_domains additional_records e is_zone = Ok recs ->
  In (q, t, v, Some "(Set by user.)") recs ->
  t <> "TXT" ->
  filter (at_name_type q t) recs = [(q, t, v, Some "(Set by user.)")].
Proof.
  intros Hb Hin Ht.
  apply build_zone_body_inv in Hb. destruct Hb as [pre [Hpre ->]].
  apply records_before_backstop_inv in Hpre.
  destruct Hpre as [own [children [custom [dkim [Ho [Hc [Hcu [Hd ->]]]]]]]].
  destruct (dkim_record_txt h domain dkim Hd) as [name [dv [dx [-> _]]]].
  set (r := (q, t, v, Some "(Set by user.)") : record) in *.
  set (R1 := fold_left add_custom_record custom (own ++ children)) in *.
  assert (HB : Forall (builtin_value e) (own ++ children)).
  { apply Forall_app. split.
    - exact (own_records_builtin h domain e is_zone own Ho).
    - exact (subdomain_records_builtin h e domain all_domains children Hc). }
  rewrite Forall_forall in HB.
  assert (Hr1 : In r R1).
  { apply (Permutation_in _ (sort_records_perm _)) in Hin.
    match type of Hin with
    | context [strict_policy_backstop ?p] =>
        destruct (strict_policy_backstop_spec p) as [added [Heq Hadded]]
    end.
    rewrite Heq in Hin. apply in_app_or in Hin. destruct Hin as [Hin | Hin].
    - apply in_app_or in Hin. destruct Hin as [Hin | Hin].
      + destruct (defaults_fold_origin is_zone domain e _ _ r (incl_refl _) Hin)
          as [H | H]; [assumption | now destruct H].
      + unfold dmarc_record in Hin. simpl in Hin.
        destruct Hin as [Hin | [Hin | []]]; unfold r in Hin; congruence.
    - destruct (Hadded _ Hin) as [q' [_ [[Hr _] | [Hr _]]]];
        unfold spf_backstop, dmarc_backstop, r in Hr; congruence. }
  assert (Hhas : has_rec R1 q t None = true).
  { apply has_rec_iff. exists v, (Some "(Set by user.)"). now split. }
  assert (Hperm := later_stages_keep is_zone domain e R1
                     (Some name, "TXT", dv, Some dx) q t Hhas Ht ltac:(eauto)).
  assert (Hat : at_name_type q t r = true).
  { apply at_name_type_iff. unfold r. eauto. }
  assert (Hf : In r (filter (at_name_type q t) R1)).
  { apply filter_In. now split. }
  assert (Hone : filter (at_name_type q t) R1 = [r]).
  { destruct (has_rec (own ++ children) q t None) eqn:Hbase.
    - exfalso. destruct (custom_fold_keeps custom _ q t Hbase) as [_ H2].
      fold R1 in H2. rewrite H2 in Hf. apply filter_In in Hf.
      destruct (HB r (proj1 Hf)) as [Hx _]. now apply Hx.
    - destruct (find (custom_at q t) custom) as [c|] eqn:Hfind.
      + destruct (custom_fold_first custom _ q t c Hbase Hfind) as [_ H2].
        fold R1 in H2. rewrite H2 in Hf |- *.
        destruct Hf as [Hf | []]. now rewrite Hf.
      + pose proof (custom_fold_none custom _ q t Hbase Hfind) as Hnone.
        fold R1 in Hnone. congruence. }
  rewrite Hone in Hperm.
  now apply Permutation_sym, Permutation_length_1_inv in Hperm.
Qed.

(** ** The addresses of a zone *)

Lemma defaults_fold_www_A (domain : string) (e : env) (records : list record) :
  Py.isblank (PUBLIC_IP e) = false ->
  has_rec (fold_left (add_default true) (defaults domain e) records)
    (Some "www") "A" None = true.
Proof. forget_externals.
  intros Hb. unfold defaults. cbn [fold_left].
  do 2 (apply (fun H => proj1 (add_default_keeps _ _ _ _ _ H))).
  match goal with
  | |- has_rec (add_default _ ?rs _) _ _ _ = true => generalize rs; intros rs'
  end.
  unfold add_default. rewrite Hb. cbn [negb andb].
  destruct (has_rec rs' (Some "www") "A" None) eqn:E; simpl; [assumption|].
  rewrite has_rec_app. apply orb_true_iff. right. reflexivity.
Qed.

Lemma has_rec_returned (pre_tail records : list record) (q : option string)
  (t : string) :
  has_rec records q t None = true ->
  has_rec (sort_records (strict_policy_backstop (records ++ pre_tail))) q t None
  = true.
Proof. forget_externals.
  intros H. rewrite (has_rec_perm _ _ _ _ _ (sort_records_perm _)).
  destruct (strict_policy_backstop_spec (records ++ pre_tail)) as [added [-> _]].
  now rewrite !has_rec_app, H.
Qed.

(** Every zone resolves: when the box's address is not blank, the records
    returned hold an A record at the zone's own name and, for a zone, one at
    [www], be it the user's or the default with the box's address. *)
Theorem zone_has_address_records (h : host) (domain : string)
  (all_domains : list string) (additional_records : custom_dns_config)
  (e : env) (is_zone : bool) (recs : list record) :
  build_zone h domain all_domains additional_records e is_zone = Ok recs ->
  Py.isblank (PUBLIC_IP e) = false ->
  (exists v x, In (None, "A", v, x) recs) /\
  (is_zone = true -> exists v x, In (Some "www", "A", v, x) recs).
Proof.
  intros Hb Hip.
  apply build_zone_body_inv in Hb. destruct Hb as [pre [Hpre ->]].
  apply records_before_backstop_inv in Hpre.
  destruct Hpre as [own [children [custom [dkim [_ [_ [_ [_ ->]]]]]]]].
  split.
  - pose proof (has_rec_returned ([dkim] ++ [dmarc_record domain]) _ None "A"
                  (defaults_fold_apex_A is_zone domain e
                     (fold_left add_custom_record custom (own ++ children)) Hip))
      as H.
    apply has_rec_iff in H. destruct H as [v [x [H _]]]. eauto.
  - intros ->.
    pose proof (has_rec_returned ([dkim] ++ [dmarc_record domain]) _ (Some "www") "A"
                  (defaults_fold_www_A domain e
                     (fold_left add_custom_record custom (own ++ children)) Hip))
      as H.
    apply has_rec_iff in H. destruct H as [v [x [H _]]]. eauto.
Qed.

(** ** The report of the records *)

Lemma mapM_map {A B C} (f : A -> result B) (g : B -> C) (k : A -> C)
  (l : list A) (ys : list B) :
  (forall x y, In x l -> f x = Ok y -> g y = k x) ->
  mapM f l = Ok ys -> map g ys = map k l.
Proof. forget_externals.
  revert ys. induction l as [|a l IH]; intros ys H; simpl.
  - now intros [= <-].
  - destruct (f a) as [b|] eqn:Ea; simpl; [|discriminate].
    destruct (mapM f l) as [bs|]; simpl; [|discriminate].
    intros [= <-]. simpl. f_equal.
    + apply H; [now left | assumption].
    + apply IH; [|reflexivity]. intros x y Hx. apply H. now right.
Qed.

Lemma mapM_in_inv {A B} (f : A -> result B) (l : list A) (ys : list B) (y : B) :
  mapM f l = Ok ys -> In y ys -> exists x, In x l /\ f x = Ok y.
Proof. forget_externals.
  revert ys. induction l as [|a l IH]; intros ys; simpl.
  - now intros [= <-].
  - destruct (f a) as [b|] eqn:Ea; simpl; [|discriminate].
    destruct (mapM f l) as [bs|]; simpl; [|discriminate].
    intros [= <-] [<- | Hy].
    + exists a. split; [now left | assumption].
    + destruct (IH bs eq_refl Hy) as [x [Hx Hf]]. exists x.
      split; [now right | assumption].
Qed.

Lemma expand_qname_covered (domain : string) (q : option string) :
  covered domain (expand_qname domain q).
Proof. forget_externals.
  destruct q as [s|]; [right | now left].
  apply endswith_iff. now exists s.
Qed.

(** What the report holds for one zone. *)
Lemma recommended_zone (h : host) (additional_records : custom_dns_config)
  (e : env) (domains : list string) (zone : string * string)
  (domain : string) (shown : list (list (string * string))) :
  (let (domain, zonefile) := zone in
   records <- build_zone h domain domains additional_records e true ;;
   let records := displayed records in
   let records := Py.sort (fun a b => display_rank a <=? display_rank b) records in
   Ok (domain, map (recommended_record domain) records)) = Ok (domain, shown) ->
  domain = fst zone /\
  exists recs,
    build_zone h domain domains additional_records e true = Ok recs /\
    shown = map (recommended_record domain)
              (Py.sort (fun a b => display_rank a <=? display_rank b)
                       (displayed recs)).
Proof.
  destruct zone as [d zonefile].
  destruct (build_zone h d domains additional_records e true) as [recs|] eqn:E;
    cbn [bind]; [|discriminate].
  intros [= <- <-]. split; [reflexivity|]. now exists recs.
Qed.

(** The report has one entry for each zone, in the order of the zones.  The
    entry of a zone holds the records that [build_zone] returns for it with
    an explanation, and none of those without one (the name servers); each
    record is shown once, under its name in full, which is the zone's name
    or ends with a dot and the zone's name. *)
Theorem recommended_dns_shows_explained (h : host)
  (stored : option custom_dns_config) (e : env)
  (ret : list (string * list (list (string * string)))) :
  build_recommended_dns h stored e = Ok ret ->
  exists zones,
    get_dns_zones e = Ok zones /\
    map fst ret = map fst zones /\
    forall domain shown, In (domain, shown) ret ->
      exists recs,
        build_zone h domain (get_dns_domains e) (get_custom_dns_config stored) e true
        = Ok recs /\
        Permutation shown (map (recommended_record domain) (displayed recs)) /\
        (forall q t v x,
           In (q, t, v, x) (displayed recs) <-> In (q, t, v, Some x) recs) /\
        (forall r, In r shown ->
           exists qname, Py.dict_get "qname" r = Some qname /\
                         covered domain qname).
Proof.
  unfold build_recommended_dns.
  destruct (get_dns_zones e) as [zones|] eqn:Hz; cbn [bind]; [|discriminate].
  intros Hm. exists zones. split; [reflexivity|]. split.
  - apply (mapM_map _ fst fst zones ret) in Hm; [assumption|].
    intros zone [d' shown] _ Hf.
    now destruct (recommended_zone _ _ _ _ zone _ _ Hf) as [-> _].
  - intros domain shown Hin.
    destruct (mapM_in_inv _ _ _ _ Hm Hin) as [zone [_ Hf]].
    destruct (recommended_zone _ _ _ _ _ _ _ Hf) as [_ [recs [Hb ->]]].
    exists recs. split; [assumption|]. split; [|split].
    + apply Permutation_map, sort_perm.
    + intros q t v x. unfold displayed. rewrite in_flat_map. split.
      * intros [[[[q' t'] v'] [x'|]] [Hr Hd]]; [|destruct Hd].
        destruct Hd as [[= <- <- <- <-] | []]. assumption.
      * intros Hr. exists (q, t, v, Some x). split; [assumption | now left].
    + intros r [[[[q t] v] x] [<- _]]%in_map_iff.
      exists (expand_qname domain q). split; [reflexivity|].
      apply expand_qname_covered.
Qed.

Lemma sorted_in_three {A} (rank : A -> nat) (l : list A) :
  (forall a, In a l -> rank a <= 2) ->
  StronglySorted (fun a b => rank a <= rank b) l ->
  exists l0 l1 l2,
    l = l0 ++ l1 ++ l2 /\
    Forall (fun a => rank a = 0) l0 /\
    Forall (fun a => rank a = 1) l1 /\
    Forall (fun a => rank a = 2) l2.
Proof. forget_externals.
  intros Hle Hs. induction Hs as [|x l Hs IH Hx].
  - exists [], [], []. repeat split; constructor.
  - destruct IH as [l0 [l1 [l2 [-> [H0 [H1 H2]]]]]];
      [intros a Ha; apply Hle; now right|].
    rewrite Forall_forall in Hx.
    assert (Hrx : rank x <= 2) by (apply Hle; now left).
    destruct (rank x) as [|[|[|n]]] eqn:Er; [| | |lia].
    + exists (x :: l0), l1, l2. repeat split; try assumption.
      now constructor.
    + assert (l0 = []).
      { destruct l0 as [|a l0]; [reflexivity|]. exfalso.
        inversion H0 as [|? ? Ha _]; subst.
        specialize (Hx a (or_introl eq_refl)). lia. }
      subst l0. exists [], (x :: l1), l2. repeat split; try assumption.
      now constructor.
    + assert (l0 = []).
      { destruct l0 as [|a l0]; [reflexivity|]. exfalso.
        inversion H0 as [|? ? Ha _]; subst.
        specialize (Hx a (or_introl eq_refl)). lia. }
      subst l0.
      assert (l1 = []).
      { destruct l1 as [|a l1]; [reflexivity|]. exfalso.
        inversion H1 as [|? ? Ha _]; subst.
        specialize (Hx a (or_introl eq_refl)). lia. }
      subst l1. exists [], [], (x :: l2). repeat split; try assumption.
      now constructor.
Qed.

Lemma display_rank_cases (r : option string * string * string * string) :
  let x := snd r in
  (display_rank r = 0 /\ Py.startswith x "Required." = true) \/
  (display_rank r = 1 /\ Py.startswith x "Required." = false /\
   Py.startswith x "Recommended." = true) \/
  (display_rank r = 2 /\ Py.startswith x "Required." = false /\
   Py.startswith x "Recommended." = false).
Proof. forget_externals.
  destruct r as [[[q t] v] x]. cbn [snd]. unfold display_rank.
  destruct (Py.startswith x "Required."); [now left|].
  destruct (Py.startswith x "Recommended."); right; [left | right]; auto.
Qed.

(** In each entry of the report the required records come first, then the
    recommended ones, then the others. *)
Theorem recommended_dns_required_first (h : host)
  (stored : option custom_dns_config) (e : env)
  (ret : list (string * list (list (string * string))))
  (domain : string) (shown : list (list (string * string))) :
  build_recommended_dns h stored e = Ok ret ->
  In (domain, shown) ret ->
  exists required recommended others,
    shown = required ++ recommended ++ others /\
    (forall r, In r required ->
       exists x, Py.dict_get "explanation" r = Some x /\
                 Py.startswith x "Required." = true) /\
    (forall r, In r recommended ->
       exists x, Py.dict_get "explanation" r = Some x /\
                 Py.startswith x "Required." = false /\
                 Py.startswith x "Recommended." = true) /\
    (forall r, In r others ->
       exists x, Py.dict_get "explanation" r = Some x /\
                 Py.startswith x "Required." = false /\
                 Py.startswith x "Recommended." = false).
Proof.
  unfold build_recommended_dns.
  destruct (get_dns_zones e) as [zones|] eqn:Hz; cbn [bind]; [|discriminate].
  intros Hm Hin.
  destruct (mapM_in_inv _ _ _ _ Hm Hin) as [zone [_ Hf]].
  destruct (recommended_zone _ _ _ _ _ _ _ Hf) as [_ [recs [_ ->]]].
  destruct (sorted_in_three display_rank
              (Py.sort (fun a b => display_rank a <=? display_rank b)
                       (displayed recs)))
    as [l0 [l1 [l2 [-> [H0 [H1 H2]]]]]].
  - intros a _. destruct (display_rank_cases a) as [[-> _] | [[-> _] | [-> _]]]; lia.
  - apply sort_by_key.
  - rewrite Forall_forall in H0, H1, H2.
    exists (map (recommended_record domain) l0),
      (map (recommended_record domain) l1),
      (map (recommended_record domain) l2).
    split; [now rewrite !map_app|].
    repeat split; intros r [a [<- Ha]]%in_map_iff;
      exists (snd a);
      (split; [destruct a as [[[q t] v] x]; reflexivity|]);
      destruct (display_rank_cases a) as [[Hr Hs] | [[Hr Hs] | [Hr Hs]]];
      first [ specialize (H0 a Ha) | specialize (H1 a Ha) | specialize (H2 a Ha) ];
      first [ exact Hs | congruence ].
Qed.

End Engine.

(** * Further properties: the zone file, the key scan, the configuration *)

(** ** The serial number *)

Lemma all_digits_cons (c : ascii) (s : string) :
  all_digits (String c s) <-> Py.isdigit c = true /\ all_digits s.
Proof.
  unfold all_digits. simpl. split.
  - intros H. split; [apply H; now left | intros c' Hc'; apply H; now right].
  - intros [H1 H2] c' [<- | Hc']; [assumption | now apply H2].
Qed.

Lemma all_digits_app (a b : string) :
  all_digits a -> all_digits b -> all_digits (a +++ b).
Proof.
  induction a as [|c a IH]; simpl; [auto|].
  intros [H1 H2]%all_digits_cons Hb. apply all_digits_cons. auto.
Qed.

Ltac digit_literal :=
  match goal with
  | |- context [(N.of_nat (nat_of_ascii ?c) - 48)%N] =>
      let k := eval vm_compute in (N.of_nat (nat_of_ascii c) - 48)%N in
      change (N.of_nat (nat_of_ascii c) - 48)%N with k
  end.

Lemma of_uint_acc_value (s : string) :
  all_digits s ->
  forall d acc,
    NilEmpty.uint_of_string s = Some d ->
    N.pos (Pos.of_uint_acc d acc) = digits_value (N.pos acc) s.
Proof.
  induction s as [|c s IH]; intros Hs d acc;
    cbn [NilEmpty.uint_of_string digits_value].
  - now intros [= <-].
  - apply all_digits_cons in Hs. destruct Hs as [Hc Hs].
    destruct (NilEmpty.uint_of_string s) as [d'|] eqn:Ed;
      [|destruct c as [[] [] [] [] [] [] [] []]; discriminate].
    destruct c as [[] [] [] [] [] [] [] []];
      try (vm_compute in Hc; discriminate Hc);
      cbn [uint_of_char];
      intros [= <-]; cbn [Pos.of_uint_acc]; rewrite (IH Hs d' _ eq_refl);
      digit_literal; f_equal; lia.
Qed.

Lemma of_uint_value (s : string) (d : Decimal.uint) :
  all_digits s ->
  NilEmpty.uint_of_string s = Some d ->
  N.of_uint d = digits_value 0 s.
Proof.
  revert d. induction s as [|c s IH]; intros d Hs;
    cbn [NilEmpty.uint_of_string digits_value].
  - now intros [= <-].
  - apply all_digits_cons in Hs. destruct Hs as [Hc Hs].
    destruct (NilEmpty.uint_of_string s) as [d'|] eqn:Ed;
      [|destruct c as [[] [] [] [] [] [] [] []]; discriminate].
    destruct c as [[] [] [] [] [] [] [] []];
      try (vm_compute in Hc; discriminate Hc);
      cbn [uint_of_char];
      intros [= <-]; unfold N.of_uint; cbn [Pos.of_uint];
      digit_literal; cbn [N.mul N.add];
      first [ exact (IH d' Hs eq_refl)
            | exact (of_uint_acc_value s Hs d' _ Ed) ].
Qed.

Lemma int_of_digits_value (s : string) :
  Py.nonempty s = true -> all_digits s ->
  Py.int_of_digits s = Some (digits_value 0 s).
Proof.
  intros Hn Hs. destruct (digits_read s Hs) as [d Hd].
  unfold Py.int_of_digits, NilZero.uint_of_string.
  destruct s; [discriminate|]. rewrite Hd. simpl option_map.
  f_equal. now apply of_uint_value.
Qed.

Lemma digit_bound (c : ascii) :
  Py.isdigit c = true -> (N.of_nat (nat_of_ascii c) - 48 <= 9)%N.
Proof.
  intros H. unfold Py.isdigit in H. apply andb_true_iff in H.
  destruct H as [H1 H2]. apply Nat.leb_le in H1, H2. lia.
Qed.

Lemma digits_value_bounds (s : string) (acc : N) :
  all_digits s ->
  (acc * 10 ^ N.of_nat (String.length s) <= digits_value acc s
   /\ digits_value acc s < (acc + 1) * 10 ^ N.of_nat (String.length s))%N.
Proof.
  revert acc. induction s as [|c s IH]; intros acc Hs.
  - simpl. lia.
  - apply all_digits_cons in Hs. destruct Hs as [Hc Hs].
    pose proof (digit_bound c Hc) as Hb.
    cbn [digits_value String.length].
    destruct (IH (10 * acc + (N.of_nat (nat_of_ascii c) - 48))%N Hs) as [H1 H2].
    rewrite Nat2N.inj_succ, N.pow_succ_r'.
    set (P := (10 ^ N.of_nat (String.length s))%N) in *.
    set (k := (N.of_nat (nat_of_ascii c) - 48)%N) in *.
    split; nia.
Qed.

Lemma ascii_compare_digits (c1 c2 : ascii) :
  Py.isdigit c1 = true -> Py.isdigit c2 = true ->
  Ascii.compare c1 c2 = Gt ->
  (N.of_nat (nat_of_ascii c2) - 48 < N.of_nat (nat_of_ascii c1) - 48)%N.
Proof.
  intros H1 H2 Hc. unfold Ascii.compare in Hc. apply N.compare_gt_iff in Hc.
  unfold Py.isdigit in *. apply andb_true_iff in H1, H2.
  destruct H1 as [H1 _], H2 as [H2 _]. apply Nat.leb_le in H1, H2.
  unfold nat_of_ascii in *. rewrite !N2Nat.id. lia.
Qed.

(** On strings of digits of one length, the order of the text is the order
    of the numbers. *)
Lemma digits_order (b a : string) (acc : N) :
  all_digits a -> all_digits b -> String.length a = String.length b ->
  String.compare b a = Gt ->
  (digits_value acc a < digits_value acc b)%N.
Proof.
  revert a acc. induction b as [|c2 b IH]; intros [|c1 a] acc Ha Hb Hlen;
    simpl in Hlen; try discriminate.
  apply all_digits_cons in Ha, Hb. destruct Ha as [Hc1 Ha], Hb as [Hc2 Hb].
  cbn [String.compare digits_value].
  destruct (Ascii.compare c2 c1) eqn:Ec; try discriminate.
  - apply Ascii.compare_eq_iff in Ec. subst c2. intros Hgt.
    apply IH; auto.
  - intros _. pose proof (ascii_compare_digits c2 c1 Hc2 Hc1 Ec) as Hlt.
    destruct (digits_value_bounds a (10 * acc + (N.of_nat (nat_of_ascii c1) - 48))%N Ha)
      as [_ H1].
    destruct (digits_value_bounds b (10 * acc + (N.of_nat (nat_of_ascii c2) - 48))%N Hb)
      as [H2 _].
    injection Hlen as Hlen. rewrite Hlen in H1.
    set (P := (10 ^ N.of_nat (String.length b))%N) in *.
    set (k1 := (N.of_nat (nat_of_ascii c1) - 48)%N) in *.
    set (k2 := (N.of_nat (nat_of_ascii c2) - 48)%N) in *.
    nia.
Qed.

Lemma int_of_str (n : N) : Py.int_of_digits (Py.str_of_N n) = Some n.
Proof.
  unfold Py.int_of_digits, Py.str_of_N. rewrite NilZero.usu.
  - simpl. now rewrite DecimalN.Unsigned.of_to.
  - destruct n as [|p]; [discriminate|]. apply DecimalPos.Unsigned.to_uint_nonnil.
Qed.

Lemma string_of_uint_digits (d : Decimal.uint) :
  all_digits (NilEmpty.string_of_uint d).
Proof.
  induction d; simpl; [unfold all_digits; simpl; intros c [] | ..];
    apply all_digits_cons; (split; [reflexivity | assumption]).
Qed.

Lemma str_of_N_digits (n : N) : all_digits (Py.str_of_N n).
Proof.
  unfold Py.str_of_N, NilZero.string_of_uint.
  destruct (N.to_uint n) eqn:E; try (rewrite <- E; apply string_of_uint_digits).
  unfold all_digits. simpl. intros c [<- | []]. reflexivity.
Qed.

Lemma zeros_digits (k : nat) :
  all_digits (String.concat EmptyString (repeat "0" k)).
Proof.
  induction k as [|k IH]; simpl; [unfold all_digits; simpl; intros c []|].
  destruct (repeat "0" k) eqn:E.
  - unfold all_digits. simpl. intros c [<- | []]. reflexivity.
  - apply all_digits_cons. split; [reflexivity | exact IH].
Qed.

Lemma zero_padded_digits (width : nat) (n : Z) : all_digits (zero_padded width n).
Proof.
  unfold zero_padded. apply all_digits_app; [apply zeros_digits | apply str_of_N_digits].
Qed.


Lemma widths_checked :
  forallb (width_ok 4) (seq 1000 (9 * 1000)) = true /\
  forallb (width_ok 2) (seq 0 100) = true.
Proof. split; vm_compute; reflexivity. Qed.

Lemma zero_padded_length_4 (y : Z) :
  (1000 <= y <= 9999)%Z -> String.length (zero_padded 4 y) = 4.
Proof.
  intros H. destruct widths_checked as [H4 _].
  rewrite forallb_forall in H4.
  specialize (H4 (Z.to_nat y)). unfold width_ok in H4.
  rewrite Z2Nat.id in H4 by lia. apply Nat.eqb_eq, H4.
  apply in_seq. lia.
Qed.

Lemma zero_padded_length_2 (m : Z) :
  (0 <= m <= 99)%Z -> String.length (zero_padded 2 m) = 2.
Proof.
  intros H. destruct widths_checked as [_ H2].
  rewrite forallb_forall in H2.
  specialize (H2 (Z.to_nat m)). unfold width_ok in H2.
  rewrite Z2Nat.id in H2 by lia. apply Nat.eqb_eq, H2.
  apply in_seq. lia.
Qed.

Lemma days_in_month_le (y m : Z) : (days_in_month y m <= 31)%Z.
Proof.
  unfold days_in_month.
  destruct m as [|p|p]; try lia.
  do 4 (try (destruct p as [p|p|]; try lia)).
  destruct (is_leap y); lia.
Qed.

(** The serial number of the day: ten digits. *)
Lemma strftime_serial_digits (now : datetime) :
  valid_datetime now = true -> (1000 <= year now)%Z ->
  all_digits (strftime_serial now) /\ String.length (strftime_serial now) = 10.
Proof.
  intros Hv Hy. unfold valid_datetime in Hv.
  repeat (apply andb_true_iff in Hv; destruct Hv as [Hv ?]).
  repeat match goal with
         | H : (_ <=? _)%Z = true |- _ => apply Z.leb_le in H
         end.
  pose proof (days_in_month_le (year now) (month now)).
  unfold strftime_serial. split.
  - do 3 (apply all_digits_app; [apply zero_padded_digits|]).
    unfold all_digits. simpl. intros c [<- | [<- | []]]; reflexivity.
  - rewrite !length_append, zero_padded_length_4, !zero_padded_length_2 by lia.
    reflexivity.
Qed.

Lemma match_serial_all_digits (text serial group0 : string) :
  match_serial text = Some (serial, group0) ->
  Py.nonempty serial = true /\ all_digits serial.
Proof.
  unfold match_serial.
  destruct (Py.span Py.isdigit text) as [ds rest] eqn:E.
  destruct (Py.nonempty ds) eqn:En; cbn [negb]; [|discriminate].
  destruct (Py.span Py.isspace rest) as [w1 rest1].
  destruct (Py.strip_prefix ";" rest1) as [rest2|]; cbn [option_bind];
    [|discriminate].
  destruct (Py.span Py.isspace rest2) as [w2 rest3].
  destruct (Py.strip_prefix "serial number" rest3) as [rest4|];
    cbn [option_bind]; [|discriminate].
  intros [= <- _]. split; [assumption|].
  now destruct (span_all _ _ _ _ E).
Qed.

Lemma search_serial_all_digits (text serial group0 : string) :
  search_serial text = Some (serial, group0) ->
  Py.nonempty serial = true /\ all_digits serial.
Proof.
  induction text as [|c text IH]; simpl.
  - discriminate.
  - destruct (match_serial (String c text)) as [[s g]|] eqn:E.
    + intros [= <- <-]. exact (match_serial_all_digits _ _ _ E).
    + exact IH.
Qed.

(** The serial number grows.  When the zone file holds a serial number of
    ten digits, as the code writes them, and the year has four digits, a
    call that writes the zone file gives it a serial number above the one
    it had: the number of the day when that is greater, and the old number
    plus one otherwise. *)
Theorem serial_number_increases (domain zonefile : string) (records : list record)
  (e : env) (force : bool) (fs : files) (now_signed now_serial : datetime)
  (existing_zone existing_serial group0 : string) (b : bool) (zone : string) :
  fs zonefile = Some existing_zone ->
  search_serial existing_zone = Some (existing_serial, group0) ->
  String.length existing_serial = 10 ->
  valid_datetime now_serial = true ->
  (1000 <= year now_serial)%Z ->
  write_nsd_zone domain zonefile records e force fs now_signed now_serial
  = Ok (b, Some zone) ->
  exists serial n m,
    zone = Py.replace (render_zone domain records e) "__SERIAL__" serial /\
    Py.int_of_digits existing_serial = Some m /\
    Py.int_of_digits serial = Some n /\
    (m < n)%N /\
    (serial = strftime_serial now_serial \/ n = (m + 1)%N).
Proof.
  intros Hfs Hsearch Hlen Hvalid Hyear.
  destruct (search_serial_all_digits _ _ _ Hsearch) as [Hne Hdigits].
  destruct (strftime_serial_digits now_serial Hvalid Hyear) as [Hsd Hsl].
  unfold write_nsd_zone.
  destruct (force_bump_of (fs (zonefile +++ ".signed")) now_signed) as [fb|];
    cbn [bind]; [|discriminate].
  rewrite Hfs, Hsearch.
  destruct (_ && negb fb && negb force); [discriminate|].
  rewrite (int_of_digits_value existing_serial Hne Hdigits).
  destruct (Py.ge existing_serial (strftime_serial now_serial)) eqn:Hge.
  - intros [= <- <-].
    exists (Py.str_of_N (digits_value 0 existing_serial + 1)),
      (digits_value 0 existing_serial + 1)%N, (digits_value 0 existing_serial).
    split; [reflexivity|]. split; [reflexivity|].
    split; [apply int_of_str|]. split; [lia | now right].
  - intros [= <- <-].
    exists (strftime_serial now_serial), (digits_value 0 (strftime_serial now_serial)),
      (digits_value 0 existing_serial).
    split; [reflexivity|]. split; [reflexivity|]. split.
    + apply int_of_digits_value; [|assumption].
      destruct (strftime_serial now_serial); [discriminate | reflexivity].
    + split; [|now left].
      apply digits_order; try assumption; [congruence|].
      unfold Py.ge, String.leb in Hge.
      destruct (String.compare (strftime_serial now_serial) existing_serial);
        [discriminate | discriminate | reflexivity].
Qed.

(** ** The SSHFP records *)











(** ** The configuration of the name server *)

Lemma append_inj_l (p a b : string) : p +++ a = p +++ b -> a = b.
Proof.
  induction p as [|c p IH]; simpl; [auto|]. intros [= H]. auto.
Qed.

(** Two texts that agree up to a line break in each, after lines without
    one, agree line by line. *)
Lemma first_line_inj (a a' r r' : string) :
  has_char (ascii_of_nat 10) a = false ->
  has_char (ascii_of_nat 10) a' = false ->
  a +++ NL +++ r = a' +++ NL +++ r' -> a = a' /\ r = r'.
Proof.
  revert a'. induction a as [|c a IH]; intros [|c' a'] Ha Ha'; simpl in *.
  - intros [= ->]. auto.
  - intros [= <- _]. apply orb_false_iff in Ha'. destruct Ha' as [H _].
    vm_compute in H. discriminate.
  - intros [= -> _]. apply orb_false_iff in Ha. destruct Ha as [H _].
    vm_compute in H. discriminate.
  - intros [= -> H]. apply orb_false_iff in Ha, Ha'.
    destruct (IH a' (proj2 Ha) (proj2 Ha') H) as [-> ->]. auto.
Qed.

Lemma zone_blocks_fold (zonefiles : list (string * string)) (conf : string) :
  fold_left
    (fun nsdconf (zone : string * string) =>
       let (domain, zonefile) := zone in
       nsdconf +++ NL +++ "zone:" +++ NL +++ TAB +++ "name: " +++ domain +++ NL +++
       TAB +++ "zonefile: " +++ zonefile +++ NL)
    zonefiles conf
  = conf +++ String.concat EmptyString (map zone_block zonefiles).
Proof.
  revert conf. induction zonefiles as [|[d f] l IH]; intros conf.
  - simpl. now rewrite append_nil_r.
  - cbn [fold_left map]. rewrite IH.
    assert (Hc : String.concat EmptyString (zone_block (d, f) :: map zone_block l)
                 = zone_block (d, f) +++ String.concat EmptyString (map zone_block l)).
    { destruct (map zone_block l); [now rewrite append_nil_r | reflexivity]. }
    rewrite Hc. unfold zone_block. cbn [fst snd].
    now rewrite !append_assoc.
Qed.

Lemma zone_blocks_inj (z1 z2 : list (string * string)) :
  one_line_names z1 -> one_line_names z2 ->
  String.concat EmptyString (map zone_block z1)
  = String.concat EmptyString (map zone_block z2) ->
  z1 = z2.
Proof.
  assert (Hc : forall z l,
             String.concat EmptyString (zone_block z :: map zone_block l)
             = zone_block z +++ String.concat EmptyString (map zone_block l)).
  { intros z l. destruct (map zone_block l); [now rewrite append_nil_r | reflexivity]. }
  revert z2. induction z1 as [|[d1 f1] z1 IH]; intros [|[d2 f2] z2] H1 H2;
    cbn [map]; rewrite ?Hc.
  - reflexivity.
  - unfold zone_block. simpl. discriminate.
  - unfold zone_block. simpl. discriminate.
  - destruct (H1 (d1, f1) (or_introl eq_refl)) as [Hd1 Hf1].
    destruct (H2 (d2, f2) (or_introl eq_refl)) as [Hd2 Hf2].
    cbn [fst snd] in *.
    unfold zone_block. cbn [fst snd]. rewrite !append_assoc. intros H.
    apply (append_inj_l NL) in H.
    apply (append_inj_l "zone:") in H.
    apply (append_inj_l NL) in H.
    apply (append_inj_l TAB) in H.
    apply (append_inj_l "name: ") in H.
    apply first_line_inj in H; [|assumption|assumption].
    destruct H as [-> H].
    apply (append_inj_l TAB) in H.
    apply (append_inj_l "zonefile: ") in H.
    apply first_line_inj in H; [|assumption|assumption].
    destruct H as [-> H].
    f_equal. apply IH; [| |assumption].
    + intros z Hz. apply H1. now right.
    + intros z Hz. apply H2. now right.
Qed.

(** The text of nsd.conf tells the zones: two lists of zones, with names
    and file names of one line, give the same text only when they are the
    same list. *)
Lemma nsd_conf_inj (z1 z2 : list (string * string))
  (PRIVATE_IP PRIVATE_IPV6 : option string) :
  one_line_names z1 -> one_line_names z2 ->
  nsd_conf z1 PRIVATE_IP PRIVATE_IPV6 = nsd_conf z2 PRIVATE_IP PRIVATE_IPV6 ->
  z1 = z2.
Proof.
  intros H1 H2. unfold nsd_conf. cbn zeta. rewrite !zone_blocks_fold.
  intros H. apply append_inj_l in H. now apply zone_blocks_inj.
Qed.

(** [write_nsd_conf] notices every change of the zones, and nothing else.
    Called on the file it wrote for the zones [z1], with the zones [z2] (all
    names of one line) and the same addresses, it returns [False] and writes
    nothing exactly when [z2] is [z1], and returns [True] and writes the new
    text otherwise.  When nsd.conf is not there the function raises. *)
Theorem write_nsd_conf_detects_changes (z1 z2 : list (string * string))
  (PRIVATE_IP PRIVATE_IPV6 : option string) :
  one_line_names z1 -> one_line_names z2 ->
  (write_nsd_conf z2 PRIVATE_IP PRIVATE_IPV6
     (Some (nsd_conf z1 PRIVATE_IP PRIVATE_IPV6)) = Ok (false, None) <-> z1 = z2) /\
  (z1 <> z2 ->
   write_nsd_conf z2 PRIVATE_IP PRIVATE_IPV6
     (Some (nsd_conf z1 PRIVATE_IP PRIVATE_IPV6))
   = Ok (true, Some (nsd_conf z2 PRIVATE_IP PRIVATE_IPV6))) /\
  write_nsd_conf z2 PRIVATE_IP PRIVATE_IPV6 None = Raise OSError.
Proof.
  intros H1 H2. unfold write_nsd_conf.
  destruct (String.eqb_spec (nsd_conf z1 PRIVATE_IP PRIVATE_IPV6)
              (nsd_conf z2 PRIVATE_IP PRIVATE_IPV6)) as [Heq | Hne].
  - pose proof (nsd_conf_inj z1 z2 _ _ H1 H2 Heq) as Hz.
    repeat split; auto. intros Hn. contradiction.
  - repeat split; auto.
    + discriminate.
    + intros ->. contradiction.
Qed.

(** ** The tables of OpenDKIM *)

Lemma key_file_is_no_table (root filename : string) :
  filename = "SigningTable" \/ filename = "KeyTable" ->
  String.eqb (path_join root "mail/dkim/mail.private") ("/etc/opendkim/" +++ filename)
  = false.
Proof.
  intros Hf. apply String.eqb_neq. intros Heq.
  assert (He : Py.endswith ("/etc/opendkim/" +++ filename) "mail/dkim/mail.private"
               = true).
  { rewrite <- Heq. apply endswith_iff. unfold path_join.
    destruct (Py.nonempty root && negb (Py.endswith root "/")).
    - exists (root +++ "/"). now rewrite append_assoc.
    - now exists root. }
  destruct Hf as [-> | ->]; vm_compute in He; discriminate.
Qed.

Lemma update_table_same (did_update : bool) (fs : files)
  (filename content : string) :
  fs ("/etc/opendkim/" +++ filename) = Some content ->
  update_table (did_update, fs) (filename, content) = (did_update, fs).
Proof.
  intros H. unfold update_table. rewrite H. now rewrite String.eqb_refl.
Qed.

Lemma update_table_spec (did_update : bool) (fs : files)
  (filename content : string) (did_update' : bool) (fs' : files) :
  update_table (did_update, fs) (filename, content) = (did_update', fs') ->
  fs' ("/etc/opendkim/" +++ filename) = Some content /\
  (forall p, p <> "/etc/opendkim/" +++ filename -> fs' p = fs p) /\
  ((did_update' = did_update /\ fs' = fs) \/
   (did_update' = true /\ fs ("/etc/opendkim/" +++ filename) <> Some content)).
Proof.
  unfold update_table.
  destruct (fs ("/etc/opendkim/" +++ filename)) as [existing|] eqn:E.
  - destruct (String.eqb_spec existing content) as [-> | Hne].
    + intros [= <- <-]. repeat split; auto.
    + intros [= <- <-]. unfold write_file. rewrite String.eqb_refl.
      split; [reflexivity|]. split.
      * intros p Hp.
        match goal with
        | |- (if String.eqb p ?x then _ else _) = _ =>
            destruct (String.eqb_spec p x) as [Heq | _]
        end; [exfalso; apply Hp; exact Heq | reflexivity].
      * right. split; [reflexivity | congruence].
  - intros [= <- <-]. unfold write_file. rewrite String.eqb_refl.
    split; [reflexivity|]. split.
    + intros p Hp.
        match goal with
        | |- (if String.eqb p ?x then _ else _) = _ =>
            destruct (String.eqb_spec p x) as [Heq | _]
        end; [exfalso; apply Hp; exact Heq | reflexivity].
    + right. split; [reflexivity | discriminate].
Qed.

(** [write_opendkim_tables] reports exactly whether it changed a file, and
    a second call changes nothing.  It returns [False] exactly when every
    file is as before the call; it leaves all files but the two tables
    alone, and none at all when the key file is missing; and a call on the
    files it leaves returns [False] and leaves them as they are. *)
Theorem write_opendkim_tables_reports_changes (zonefiles : list (string * string))
  (e : env) (fs : files) :
  (fst (write_opendkim_tables zonefiles e fs) = false <->
   forall p, snd (write_opendkim_tables zonefiles e fs) p = fs p) /\
  (forall p, p <> "/etc/opendkim/SigningTable" -> p <> "/etc/opendkim/KeyTable" ->
             snd (write_opendkim_tables zonefiles e fs) p = fs p) /\
  (fs (path_join (STORAGE_ROOT e) "mail/dkim/mail.private") = None ->
   write_opendkim_tables zonefiles e fs = (false, fs)) /\
  write_opendkim_tables zonefiles e (snd (write_opendkim_tables zonefiles e fs))
  = (false, snd (write_opendkim_tables zonefiles e fs)).
Proof.
  unfold write_opendkim_tables.
  set (key := path_join (STORAGE_ROOT e) "mail/dkim/mail.private").
  destruct (fs key) as [k|] eqn:Ek.
  - unfold opendkim_config. fold key. cbn [fold_left].
    match goal with
    | |- context [update_table (false, fs) (_, ?c)] => set (c1 := c)
    end.
    destruct (update_table (false, fs) ("SigningTable", c1)) as [b1 fs1] eqn:E1.
    match goal with
    | |- context [update_table (b1, fs1) (_, ?c)] => set (c2 := c)
    end.
    destruct (update_table (b1, fs1) ("KeyTable", c2)) as [b2 fs2] eqn:E2.
    cbn [fst snd].
    destruct (update_table_spec _ _ _ _ _ _ E1) as [H1a [H1b H1c]].
    destruct (update_table_spec _ _ _ _ _ _ E2) as [H2a [H2b H2c]].
    change ("/etc/opendkim/" +++ "SigningTable")
      with "/etc/opendkim/SigningTable" in *.
    change ("/etc/opendkim/" +++ "KeyTable") with "/etc/opendkim/KeyTable" in *.
    assert (Hne : "/etc/opendkim/SigningTable" <> "/etc/opendkim/KeyTable")
      by discriminate.
    assert (Hframe : forall p, p <> "/etc/opendkim/SigningTable" ->
                               p <> "/etc/opendkim/KeyTable" -> fs2 p = fs p).
    { intros p Hp1 Hp2. rewrite (H2b p Hp2). now apply H1b. }
    split; [|split; [|split]].
    + split.
      * intros ->.
        destruct H2c as [[<- ->] | [H _]]; [|discriminate].
        destruct H1c as [[_ ->] | [H _]]; [|discriminate].
        reflexivity.
      * intros Hsame. destruct b2; [exfalso | reflexivity].
        destruct H2c as [[<- ->] | [_ H2]].
        -- destruct H1c as [[H _] | [_ H1]]; [discriminate|].
           apply H1. rewrite <- Hsame. exact H1a.
        -- apply H2. rewrite (H1b _ (fun H => Hne (eq_sym H))).
           rewrite <- Hsame. exact H2a.
    + exact Hframe.
    + discriminate.
    + assert (Hk : fs2 key = Some k).
      { rewrite Hframe; [assumption | |]; apply String.eqb_neq.
        - apply (key_file_is_no_table (STORAGE_ROOT e) "SigningTable"). now left.
        - apply (key_file_is_no_table (STORAGE_ROOT e) "KeyTable"). now right. }
      rewrite Hk. cbn [fold_left]. fold c1 c2.
      rewrite (update_table_same false fs2 "SigningTable" c1).
      * now rewrite (update_table_same false fs2 "KeyTable" c2).
      * change ("/etc/opendkim/" +++ "SigningTable")
          with "/etc/opendkim/SigningTable".
        rewrite (H2b _ Hne). exact H1a.
  - cbn [fst snd]. rewrite Ek. repeat split; auto.
Qed.

(** ** The text of a TXT record in the zone file *)

Lemma replace_char_cons (a c : ascii) (new s : string) :
  Py.replace (String a s) (String c EmptyString) new
  = (if Ascii.eqb a c then new else String a EmptyString)
    +++ Py.replace s (String c EmptyString) new.
Proof.
  unfold Py.replace. cbn [Py.replace_from String.prefix String.length Nat.sub].
  destruct (ascii_dec c a) as [<- | Hne].
  - rewrite Ascii.eqb_refl. destruct s; reflexivity.
  - destruct (Ascii.eqb_spec a c) as [-> | _]; [contradiction | reflexivity].
Qed.

Lemma replace_char_app (c : ascii) (new s1 s2 : string) :
  Py.replace (s1 +++ s2) (String c EmptyString) new
  = Py.replace s1 (String c EmptyString) new
    +++ Py.replace s2 (String c EmptyString) new.
Proof.
  induction s1 as [|a s1 IH]; [reflexivity|].
  cbn [String.append]. rewrite !replace_char_cons, IH.
  now rewrite append_assoc.
Qed.

(** The two replacements, character by character. *)
Lemma escape_cons (a : ascii) (v : string) :
  Py.replace (Py.replace (String a v) BACKSLASH (BACKSLASH +++ BACKSLASH))
    DQUOTE (BACKSLASH +++ DQUOTE)
  = (if Ascii.eqb a (ascii_of_nat 92) then BACKSLASH +++ BACKSLASH
     else if Ascii.eqb a (ascii_of_nat 34) then BACKSLASH +++ DQUOTE
     else String a EmptyString)
    +++ Py.replace (Py.replace v BACKSLASH (BACKSLASH +++ BACKSLASH))
          DQUOTE (BACKSLASH +++ DQUOTE).
Proof.
  unfold BACKSLASH at 1 4, DQUOTE at 1 3.
  rewrite replace_char_cons, replace_char_app. f_equal.
  destruct (Ascii.eqb_spec a (ascii_of_nat 92)) as [-> | Hb]; [reflexivity|].
  rewrite replace_char_cons.
  destruct (Ascii.eqb a (ascii_of_nat 34)); reflexivity.
Qed.

Lemma escape_reads_back (v : string) :
  let w := Py.replace (Py.replace v BACKSLASH (BACKSLASH +++ BACKSLASH))
             DQUOTE (BACKSLASH +++ DQUOTE) in
  unquote false w = v /\ quoted_text false w = true.
Proof.
  cbn zeta. induction v as [|a v [IH1 IH2]]; [split; reflexivity|].
  rewrite escape_cons.
  set (w := Py.replace (Py.replace v BACKSLASH (BACKSLASH +++ BACKSLASH))
              DQUOTE (BACKSLASH +++ DQUOTE)) in *.
  destruct (Ascii.eqb_spec a (ascii_of_nat 92)) as [-> | Hb].
  - change (unquote false ((BACKSLASH +++ BACKSLASH) +++ w))
      with (String (ascii_of_nat 92) (unquote false w)).
    change (quoted_text false ((BACKSLASH +++ BACKSLASH) +++ w))
      with (quoted_text false w).
    rewrite IH1, IH2. split; reflexivity.
  - destruct (Ascii.eqb_spec a (ascii_of_nat 34)) as [-> | Hq].
    + change (unquote false ((BACKSLASH +++ DQUOTE) +++ w))
        with (String (ascii_of_nat 34) (unquote false w)).
      change (quoted_text false ((BACKSLASH +++ DQUOTE) +++ w))
        with (quoted_text false w).
      rewrite IH1, IH2. split; reflexivity.
    + cbn [String.append unquote quoted_text].
      rewrite (proj2 (Ascii.eqb_neq _ _) Hb), (proj2 (Ascii.eqb_neq _ _) Hq).
      rewrite IH1, IH2. split; reflexivity.
Qed.

(** A TXT value survives the zone file.  The line that [write_nsd_zone]
    writes for a TXT record holds the value between two quotes, with
    backslashes where needed: the text between the quotes has no quote that
    would end it early, and a reader that takes a backslash as giving the
    next character reads the value that was given, whatever quotes and
    backslashes it holds. *)
Theorem txt_value_survives_quoting (subdomain : option string) (value : string)
  (explanation : option string) :
  exists quoted,
    zone_line (subdomain, "TXT", value, explanation)
    = match subdomain with Some name => name | None => EmptyString end
      +++ TAB +++ "IN" +++ TAB +++ "TXT" +++ TAB
      +++ DQUOTE +++ quoted +++ DQUOTE +++ NL /\
    quoted_text false quoted = true /\
    unquote false quoted = value.
Proof.
  exists (Py.replace (Py.replace value BACKSLASH (BACKSLASH +++ BACKSLASH))
            DQUOTE (BACKSLASH +++ DQUOTE)).
  split.
  - unfold zone_line. rewrite String.eqb_refl. cbn zeta.
    now rewrite !append_assoc.
  - destruct (escape_reads_back value) as [H1 H2]. split; assumption.
Qed.

(** * The properties on concrete inputs *)

(** ** The domain set resolver *)

Example get_dns_zones_demo :
  get_dns_zones demo_mail_domains demo_sort_domains demo_safe_domain_name demo_env
  = Ok [("example.com", "example.com.txt"); ("example.org", "example.org.txt")].
Proof. vm_compute. reflexivity. Qed.

Lemma get_dns_zones_minimal_cover_witness :
  (forall l, incl l (demo_sort_domains l demo_env)) /\
  exists zones,
    get_dns_zones demo_mail_domains demo_sort_domains demo_safe_domain_name demo_env
    = Ok zones /\
    NoDup (map fst zones) /\
    (forall a b, In a (map fst zones) -> In b (map fst zones) ->
       Py.endswith a ("." +++ b) = false) /\
    (forall x, In x (get_dns_domains demo_mail_domains demo_env) ->
       exists a, In a (map fst zones) /\ covered a x /\
                 forall b, In b (map fst zones) -> covered b x -> b = a).
Proof.
  split.
  - intros l. apply incl_refl.
  - apply (get_dns_zones_minimal_cover demo_mail_domains demo_sort_domains
             demo_safe_domain_name demo_env).
    intros l. apply incl_refl.
Defined.

(** ** The custom override store *)

(** Claim C7 (setting a record to the value it has): the code compares the
    stored value with the text "value", not with the new value.  A name in
    short form with the A value 203.0.113.5 is set to 203.0.113.5: the call
    returns [True] and writes the store.  The same for a TXT record in
    mapping form.  And a name whose stored A value is the text "value" keeps
    it when it is set to 203.0.113.5: the call returns [False]. *)
Lemma same_value_update_rewrites :
  set_custom_dns_record demo_mail_domains demo_sort_domains demo_safe_domain_name
    demo_ip_address "www.example.com" "A" (Some "203.0.113.5") demo_env
    (Some [("www.example.com", ShortForm "203.0.113.5")])
  = Ok (true, Some [("www.example.com", ShortForm "203.0.113.5")]) /\
  set_custom_dns_record demo_mail_domains demo_sort_domains demo_safe_domain_name
    demo_ip_address "www.example.com" "TXT" (Some "hello") demo_env
    (Some [("www.example.com", MappingForm [("TXT", "hello")])])
  = Ok (true, Some [("www.example.com", MappingForm [("TXT", "hello")])]) /\
  set_custom_dns_record demo_mail_domains demo_sort_domains demo_safe_domain_name
    demo_ip_address "www.example.com" "A" (Some "203.0.113.5") demo_env
    (Some [("www.example.com", ShortForm "value")])
  = Ok (false, None).
Proof. repeat split; vm_compute; reflexivity. Qed.

(** Claim C8, as stated, fails in two ways.  A name outside every zone has
    no record in the empty store, and deleting its A record raises
    [ValueError]; a name in short form has no record of type "a", and
    deleting "a" removes its A record and returns [True]. *)
Lemma delete_nonexistent_counterexample :
  (holds_no_record [] "www.elsewhere.net" "A" /\
   set_custom_dns_record demo_mail_domains demo_sort_domains demo_safe_domain_name
     demo_ip_address "www.elsewhere.net" "A" None demo_env (Some [])
   = Raise (ValueError
       "www.elsewhere.net is not a domain name or a subdomain of a domain name managed by this box."))
  /\
  (holds_no_record [("www.example.com", ShortForm "203.0.113.5")]
     "www.example.com" "a" /\
   set_custom_dns_record demo_mail_domains demo_sort_domains demo_safe_domain_name
     demo_ip_address "www.example.com" "a" None demo_env
     (Some [("www.example.com", ShortForm "203.0.113.5")])
   = Ok (true, Some [])).
Proof.
  split; split.
  - exact I.
  - vm_compute. reflexivity.
  - unfold holds_no_record. simpl. discriminate.
  - vm_compute. reflexivity.
Qed.

Lemma delete_nonexistent_is_noop_witness :
  get_dns_zones demo_mail_domains demo_sort_domains demo_safe_domain_name demo_env
  = Ok [("example.com", "example.com.txt"); ("example.org", "example.org.txt")] /\
  set_custom_dns_record demo_mail_domains demo_sort_domains demo_safe_domain_name
    demo_ip_address "www.example.com" "mx" None demo_env
    (Some [("www.example.com", ShortForm "203.0.113.5")])
  = Ok (false, None).
Proof.
  split; [vm_compute; reflexivity|].
  apply (delete_nonexistent_is_noop demo_mail_domains demo_sort_domains
           demo_safe_domain_name demo_ip_address "www.example.com" "mx"
           demo_env (Some [("www.example.com", ShortForm "203.0.113.5")])
           [("example.com", "example.com.txt"); ("example.org", "example.org.txt")]).
  - vm_compute. reflexivity.
  - unfold holds_no_record. simpl. discriminate.
  - vm_compute. reflexivity.
Defined.

(** Claim C9, as stated, fails on the case of the letters: "txt" is not one
    of A, AAAA, CNAME and TXT, and a value of type "txt" is stored as a TXT
    record. *)
Lemma validation_counterexample :
  ~ In "txt" ["A"; "AAAA"; "CNAME"; "TXT"] /\
  set_custom_dns_record demo_mail_domains demo_sort_domains demo_safe_domain_name
    demo_ip_address "example.com" "txt" (Some "hello") demo_env None
  = Ok (true, Some [("example.com", MappingForm [("TXT", "hello")])]).
Proof.
  split; [|vm_compute; reflexivity].
  simpl. intros [H | [H | [H | [H | []]]]]; discriminate.
Qed.

Lemma validation_raises_and_keeps_store_witness :
  (exists msg,
     set_custom_dns_record demo_mail_domains demo_sort_domains
       demo_safe_domain_name demo_ip_address "www.example.com" "a"
       (Some "2001:db8::5") demo_env None
     = Raise (ValueError msg)) /\
  store_after None
    (set_custom_dns_record demo_mail_domains demo_sort_domains
       demo_safe_domain_name demo_ip_address "www.example.com" "a"
       (Some "2001:db8::5") demo_env None)
  = None.
Proof.
  apply (validation_raises_and_keeps_store demo_mail_domains demo_sort_domains
           demo_safe_domain_name demo_ip_address "www.example.com" "a"
           (Some "2001:db8::5") demo_env None
           [("example.com", "example.com.txt"); ("example.org", "example.org.txt")]).
  - vm_compute. reflexivity.
  - right. right. left. exists "2001:db8::5". repeat split.
    vm_compute. discriminate.
Defined.

(** ** The record synthesizer *)

Lemma spf_dmarc_backstop_witness :
  exists recs,
    build_zone demo_sshfp_digest demo_host "example.com"
      (get_dns_domains demo_mail_domains demo_env)
      [("www.example.com", ShortForm "198.51.100.7")] demo_env true = Ok recs /\
    In (Some "www", "A", "198.51.100.7", Some "(Set by user.)") recs /\
    forall q t v x,
      In (q, t, v, x) recs -> t = "A" \/ t = "AAAA" ->
      (exists v' x', In (q, "TXT", v', x') recs /\
                     Py.startswith v' "v=spf1 " = true) /\
      (exists v' x', In (Some (dmarc_qname_of q), "TXT", v', x') recs /\
                     Py.startswith v' "v=DMARC1; " = true).
Proof.
  destruct (build_zone demo_sshfp_digest demo_host "example.com"
              (get_dns_domains demo_mail_domains demo_env)
              [("www.example.com", ShortForm "198.51.100.7")] demo_env true)
    as [recs|] eqn:E; [|vm_compute in E; discriminate E].
  exists recs. split; [reflexivity|]. split.
  - vm_compute in E. injection E as <-. simpl. tauto.
  - exact (proj1 (spf_dmarc_backstop demo_sshfp_digest demo_host "example.com"
                    (get_dns_domains demo_mail_domains demo_env)
                    [("www.example.com", ShortForm "198.51.100.7")] demo_env true
                    recs E)).
Defined.

(** Claim C6, as stated, fails for PRIMARY_HOSTNAME: with a custom A record
    for the box's own name, the zone of that name holds one A record of its
    own, and it is the box's record with PUBLIC_IP. *)
Lemma apex_override_counterexample :
  get_custom_records "box.example.com"
    [("box.example.com", ShortForm "198.51.100.7")] demo_env
  = Ok [(None, "A", "198.51.100.7")] /\
  exists recs,
    build_zone demo_sshfp_digest demo_host "box.example.com" ["box.example.com"]
      [("box.example.com", ShortForm "198.51.100.7")] demo_env true = Ok recs /\
    filter (at_name_type None "A") recs
    = [(None, "A", "203.0.113.1", Some "Required. Sets the IP address of the box.")].
Proof.
  split; [vm_compute; reflexivity|].
  eexists. split; vm_compute; reflexivity.
Qed.

Lemma apex_override_precedence_witness :
  exists recs,
    build_zone demo_sshfp_digest demo_host "example.com"
      (get_dns_domains demo_mail_domains demo_env)
      [("example.com", ShortForm "198.51.100.7")] demo_env true = Ok recs /\
    filter (at_name_type None "A") recs
    = [(None, "A", "198.51.100.7", Some "(Set by user.)")] /\
    (forall v' x, In (None, "A", v', x) recs ->
                  v' = "198.51.100.7" /\ x = Some "(Set by user.)").
Proof.
  destruct (build_zone demo_sshfp_digest demo_host "example.com"
              (get_dns_domains demo_mail_domains demo_env)
              [("example.com", ShortForm "198.51.100.7")] demo_env true)
    as [recs|] eqn:E; [|vm_compute in E; discriminate E].
  exists recs. split; [reflexivity|].
  apply (apex_override_precedence demo_sshfp_digest demo_host "example.com"
           (get_dns_domains demo_mail_domains demo_env)
           [("example.com", ShortForm "198.51.100.7")] demo_env true
           [(None, "A", "198.51.100.7")] "198.51.100.7" recs).
  - vm_compute. reflexivity.
  - vm_compute. reflexivity.
  - exact E.
  - discriminate.
Defined.



(** ** The zone publication controller *)

(** A second run with nothing changed and a signature that lasts writes
    nothing, and the zone file keeps its serial number. *)
Example write_nsd_zone_second_run_demo :
  let first :=
    write_nsd_zone "example.com" demo_zonefile demo_records demo_env false
      demo_no_files demo_now demo_now in
  let fs :=
    write_file (demo_zonefile +++ ".signed") demo_signed_zone
      (files_after demo_zonefile demo_no_files first) in
  let second :=
    write_nsd_zone "example.com" demo_zonefile demo_records demo_env false
      fs demo_next_hour demo_next_hour in
  returned first = Some true /\
  second = Ok (false, None) /\
  files_after demo_zonefile fs second demo_zonefile = written first.
Proof. vm_compute. repeat split. Qed.

(** Claim C1 (idempotence of publication): the place of the serial number
    is marked by the text __SERIAL__, and every occurrence of that text is
    replaced.  With a TXT record whose value is __SERIAL__, the file written
    holds the serial number in the record too, so the next run, with the same
    records and a signature that lasts, finds the zone changed: it returns
    [True] and writes the file with another serial number. *)
Lemma write_nsd_zone_placeholder_rewrites :
  let first :=
    write_nsd_zone "example.com" demo_zonefile demo_records_placeholder demo_env
      false demo_no_files demo_now demo_now in
  let fs :=
    write_file (demo_zonefile +++ ".signed") demo_signed_zone
      (files_after demo_zonefile demo_no_files first) in
  let second :=
    write_nsd_zone "example.com" demo_zonefile demo_records_placeholder demo_env
      false fs demo_next_hour demo_next_hour in
  returned first = Some true /\
  force_bump_of (fs (demo_zonefile +++ ".signed")) demo_next_hour = Ok false /\
  returned second = Some true /\
  written first
  = Some (Py.replace (render_zone "example.com" demo_records_placeholder demo_env)
            "__SERIAL__" "2014060300") /\
  written second
  = Some (Py.replace (render_zone "example.com" demo_records_placeholder demo_env)
            "__SERIAL__" "2014060301").
Proof. vm_compute. repeat split. Qed.


(** The serial number on the usual inputs: a zone file of the same day gets
    the next number, and a zone file of an earlier day the number of the
    day. *)
Example write_nsd_zone_serial_demo :
  written (write_nsd_zone "example.com" demo_zonefile demo_records demo_env true
             (demo_zone_with_serial "2014060300") demo_now demo_now)
  = Some (Py.replace (render_zone "example.com" demo_records demo_env)
            "__SERIAL__" "2014060301") /\
  written (write_nsd_zone "example.com" demo_zonefile demo_records demo_env true
             (demo_zone_with_serial "2014060207") demo_now demo_now)
  = Some (Py.replace (render_zone "example.com" demo_records demo_env)
            "__SERIAL__" "2014060300").
Proof. vm_compute. repeat split. Qed.


(** * The further properties on concrete inputs *)

(** ** The custom override store *)

Lemma demo_store_is_dict : store_is_dict demo_store.
Proof.
  split.
  - unfold is_dict. simpl. repeat constructor; simpl; intuition discriminate.
  - intros qname values [[= <- <-] | [[=] | []]].
    unfold is_dict. simpl. repeat constructor; simpl; intuition.
Qed.

Lemma set_record_then_stored_witness :
  exists c,
    set_custom_dns_record demo_mail_domains demo_sort_domains demo_safe_domain_name
      demo_ip_address "www.example.com" "a" (Some "203.0.113.5") demo_env
      (Some demo_store) = Ok (true, Some c) /\
    stored_value c "www.example.com" "A" = Some "203.0.113.5" /\
    stored_value c "www.example.com" "TXT" = Some "hello" /\
    Py.dict_get "example.org" c = Some (ShortForm "198.51.100.7").
Proof.
  destruct (set_custom_dns_record demo_mail_domains demo_sort_domains
              demo_safe_domain_name demo_ip_address "www.example.com" "a"
              (Some "203.0.113.5") demo_env (Some demo_store))
    as [[b [c|]]|] eqn:E; try (vm_compute in E; discriminate E).
  destruct (set_record_then_stored demo_mail_domains demo_sort_domains
              demo_safe_domain_name demo_ip_address "www.example.com" "a"
              "203.0.113.5" demo_env (Some demo_store) b c E)
    as [-> [H1 [H2 H3]]].
  exists c. split; [reflexivity|]. split; [exact H1|]. split.
  - rewrite (H2 "TXT"); [reflexivity | vm_compute; discriminate].
  - rewrite (H3 "example.org"); [reflexivity | discriminate].
Defined.

Lemma delete_record_then_absent_witness :
  store_is_dict demo_store /\
  exists c,
    set_custom_dns_record demo_mail_domains demo_sort_domains demo_safe_domain_name
      demo_ip_address "www.example.com" "txt" None demo_env (Some demo_store)
    = Ok (true, Some c) /\
    stored_value c "www.example.com" "TXT" = None /\
    Py.dict_get "example.org" c = Some (ShortForm "198.51.100.7").
Proof.
  split; [exact demo_store_is_dict|].
  destruct (set_custom_dns_record demo_mail_domains demo_sort_domains
              demo_safe_domain_name demo_ip_address "www.example.com" "txt"
              None demo_env (Some demo_store))
    as [[b [c|]]|] eqn:E; try (vm_compute in E; discriminate E).
  destruct (delete_record_then_absent demo_mail_domains demo_sort_domains
              demo_safe_domain_name demo_ip_address "www.example.com" "txt"
              demo_env (Some demo_store) b c demo_store_is_dict E)
    as [-> [H1 [_ H3]]].
  exists c. split; [reflexivity|]. split; [exact H1|].
  rewrite (H3 "example.org"); [reflexivity | discriminate].
Defined.

Lemma no_empty_mapping_kept_witness :
  no_empty_mapping demo_store /\
  exists c,
    set_custom_dns_record demo_mail_domains demo_sort_domains demo_safe_domain_name
      demo_ip_address "www.example.com" "txt" None demo_env (Some demo_store)
    = Ok (true, Some c) /\
    no_empty_mapping c.
Proof.
  assert (H : no_empty_mapping demo_store).
  { intros q [[=] | [[=] | []]]. }
  split; [exact H|].
  destruct (set_custom_dns_record demo_mail_domains demo_sort_domains
              demo_safe_domain_name demo_ip_address "www.example.com" "txt"
              None demo_env (Some demo_store))
    as [[b [c|]]|] eqn:E; try (vm_compute in E; discriminate E).
  exists c. split.
  - vm_compute in E. injection E as <- <-. reflexivity.
  - exact (no_empty_mapping_kept demo_mail_domains demo_sort_domains
             demo_safe_domain_name demo_ip_address "www.example.com" "txt"
             None demo_env (Some demo_store) b c H E).
Defined.

Lemma set_then_delete_restores_witness :
  exists c,
    set_custom_dns_record demo_mail_domains demo_sort_domains demo_safe_domain_name
      demo_ip_address "mail.example.com" "cname" (Some "box.example.com.")
      demo_env (Some demo_store) = Ok (true, Some c) /\
    stored_value c "mail.example.com" "CNAME" = Some "box.example.com." /\
    set_custom_dns_record demo_mail_domains demo_sort_domains demo_safe_domain_name
      demo_ip_address "mail.example.com" "cname" None demo_env (Some c)
    = Ok (true, Some demo_store).
Proof.
  apply (set_then_delete_restores demo_mail_domains demo_sort_domains
           demo_safe_domain_name demo_ip_address "mail.example.com" "cname"
           "box.example.com." demo_env demo_store
           [("example.com", "example.com.txt"); ("example.org", "example.org.txt")]).
  - vm_compute. reflexivity.
  - vm_compute. reflexivity.
  - vm_compute. reflexivity.
  - vm_compute. reflexivity.
Defined.

(** ** The records of the store *)

Lemma get_custom_records_exact_witness :
  exists recs,
    get_custom_records "example.com" demo_store_local demo_env = Ok recs /\
    In (None, "A", "203.0.113.1") recs /\
    ~ In (None, "A", "local") recs.
Proof.
  destruct (get_custom_records "example.com" demo_store_local demo_env)
    as [recs|] eqn:E; [|vm_compute in E; discriminate E].
  exists recs. split; [reflexivity|]. split.
  - apply (get_custom_records_exact "example.com" demo_store_local demo_env recs
             None "A" "203.0.113.1" E).
    exists (ShortForm "local"), [("A", "local")], "local".
    repeat split; simpl; auto.
  - intros Hin.
    apply (get_custom_records_exact "example.com" demo_store_local demo_env recs
             None "A" "local" E) in Hin.
    destruct Hin as [value [values [v0 [Hin [Hv [Hin0 Hr]]]]]].
    simpl in Hin.
    destruct Hin as [[= <-] | [[=] | [[=] | []]]].
    injection Hv as <-. destruct Hin0 as [[= <-] | []].
    simpl in Hr. discriminate Hr.
Defined.

Lemma local_keyword_resolved_witness :
  exists recs,
    get_custom_records "example.com" demo_store_local demo_env = Ok recs /\
    In (Some "www", "TXT", "local") recs /\
    ("TXT" = "A" -> PUBLIC_IP demo_env = "local") /\
    ("TXT" = "AAAA" -> PUBLIC_IPV6 demo_env = Some "local").
Proof.
  destruct (get_custom_records "example.com" demo_store_local demo_env)
    as [recs|] eqn:E; [|vm_compute in E; discriminate E].
  assert (Hin : In (Some "www", "TXT", "local") recs).
  { vm_compute in E. injection E as <-. simpl. tauto. }
  exists recs. split; [reflexivity|]. split; [exact Hin|].
  exact (local_keyword_resolved "example.com" demo_store_local demo_env recs
           (Some "www") "TXT" E Hin).
Defined.

(** ** The names that take custom records, and the order of the zones *)

Lemma managed_names_are_domains_witness :
  is_managed [("example.com", "example.com.txt"); ("example.org", "example.org.txt")]
    "www.mail.example.com" = true <->
  exists d, (d = PRIMARY_HOSTNAME demo_env \/ In d (demo_mail_domains demo_env)) /\
            covered d "www.mail.example.com".
Proof.
  apply (managed_names_are_domains demo_mail_domains demo_sort_domains
           demo_safe_domain_name demo_ip_address "www.mail.example.com" demo_env
           [("example.com", "example.com.txt"); ("example.org", "example.org.txt")]).
  vm_compute. reflexivity.
Defined.

Lemma get_dns_zones_in_order_witness :
  get_dns_zones demo_mail_domains demo_sort_domains demo_safe_domain_name demo_env
  = Ok (map (fun domain => (domain, demo_safe_domain_name domain +++ ".txt"))
            (demo_sort_domains
               (zone_domains_of (get_dns_domains demo_mail_domains demo_env))
               demo_env)).
Proof.
  apply (get_dns_zones_in_order demo_mail_domains demo_sort_domains
           demo_safe_domain_name demo_env).
  apply Permutation_refl.
Defined.

(** ** The record synthesizer *)

Lemma apex_records_first_witness :
  exists recs apex named,
    build_zone demo_sshfp_digest demo_host "example.com"
      (get_dns_domains demo_mail_domains demo_env)
      [("www.example.com", ShortForm "198.51.100.7")] demo_env true = Ok recs /\
    recs = apex ++ named /\
    (forall t v x, In (None, t, v, x) recs -> In (None, t, v, x) apex) /\
    (forall r, In r apex -> fst (fst (fst r)) = None) /\
    (forall r, In r named -> exists q, fst (fst (fst r)) = Some q).
Proof.
  destruct (build_zone demo_sshfp_digest demo_host "example.com"
              (get_dns_domains demo_mail_domains demo_env)
              [("www.example.com", ShortForm "198.51.100.7")] demo_env true)
    as [recs|] eqn:E; [|vm_compute in E; discriminate E].
  destruct (apex_records_first demo_sshfp_digest demo_host "example.com"
              (get_dns_domains demo_mail_domains demo_env)
              [("www.example.com", ShortForm "198.51.100.7")] demo_env true recs E)
    as [apex [named H]].
  exists recs, apex, named. split; [reflexivity | exact H].
Defined.

Lemma mx_record_unique_witness :
  exists recs,
    build_zone demo_sshfp_digest demo_host "example.com"
      (get_dns_domains demo_mail_domains demo_env)
      [("example.com", MappingForm [("MX", "10 mail.elsewhere.net.")])]
      demo_env true = Ok recs /\
    filter (at_name_type None "MX") recs
    = [ (None, "MX", "10 box.example.com.",
         Some "Required. Specifies the hostname (and priority) of the machine that handles @example.com mail.") ].
Proof.
  destruct (build_zone demo_sshfp_digest demo_host "example.com"
              (get_dns_domains demo_mail_domains demo_env)
              [("example.com", MappingForm [("MX", "10 mail.elsewhere.net.")])]
              demo_env true)
    as [recs|] eqn:E; [|vm_compute in E; discriminate E].
  exists recs. split; [reflexivity|].
  exact (mx_record_unique demo_sshfp_digest demo_host "example.com"
           (get_dns_domains demo_mail_domains demo_env)
           [("example.com", MappingForm [("MX", "10 mail.elsewhere.net.")])]
           demo_env true recs E).
Defined.

Lemma user_record_unique_witness :
  exists recs,
    build_zone demo_sshfp_digest demo_host "example.com"
      (get_dns_domains demo_mail_domains demo_env)
      [("www.example.com", ShortForm "198.51.100.7")] demo_env true = Ok recs /\
    filter (at_name_type (Some "www") "A") recs
    = [(Some "www", "A", "198.51.100.7", Some "(Set by user.)")].
Proof.
  destruct (build_zone demo_sshfp_digest demo_host "example.com"
              (get_dns_domains demo_mail_domains demo_env)
              [("www.example.com", ShortForm "198.51.100.7")] demo_env true)
    as [recs|] eqn:E; [|vm_compute in E; discriminate E].
  exists recs. split; [reflexivity|].
  apply (user_record_unique demo_sshfp_digest demo_host "example.com"
           (get_dns_domains demo_mail_domains demo_env)
           [("www.example.com", ShortForm "198.51.100.7")] demo_env true recs
           (Some "www") "A" "198.51.100.7" E).
  - vm_compute in E. injection E as <-. simpl. tauto.
  - discriminate.
Defined.

Lemma zone_has_address_records_witness :
  exists recs,
    build_zone demo_sshfp_digest demo_host "example.org"
      (get_dns_domains demo_mail_domains demo_env) [] demo_env true = Ok recs /\
    (exists v x, In (None, "A", v, x) recs) /\
    (true = true -> exists v x, In (Some "www", "A", v, x) recs).
Proof.
  destruct (build_zone demo_sshfp_digest demo_host "example.org"
              (get_dns_domains demo_mail_domains demo_env) [] demo_env true)
    as [recs|] eqn:E; [|vm_compute in E; discriminate E].
  exists recs. split; [reflexivity|].
  apply (zone_has_address_records demo_sshfp_digest demo_host "example.org"
           (get_dns_domains demo_mail_domains demo_env) [] demo_env true recs E).
  vm_compute. reflexivity.
Defined.

(** ** The report of the records *)

Lemma recommended_dns_shows_explained_witness :
  exists ret zones,
    build_recommended_dns demo_mail_domains demo_sort_domains demo_safe_domain_name
      demo_sshfp_digest demo_host (Some demo_store) demo_env = Ok ret /\
    get_dns_zones demo_mail_domains demo_sort_domains demo_safe_domain_name demo_env
    = Ok zones /\
    map fst ret = map fst zones.
Proof.
  destruct (build_recommended_dns demo_mail_domains demo_sort_domains
              demo_safe_domain_name demo_sshfp_digest demo_host (Some demo_store)
              demo_env) as [ret|] eqn:E; [|vm_compute in E; discriminate E].
  destruct (recommended_dns_shows_explained demo_mail_domains demo_sort_domains
              demo_safe_domain_name demo_sshfp_digest demo_host (Some demo_store)
              demo_env ret E) as [zones [Hz [Hm _]]].
  exists ret, zones. repeat split; assumption.
Defined.

Lemma recommended_dns_required_first_witness :
  exists ret shown required recommended others,
    build_recommended_dns demo_mail_domains demo_sort_domains demo_safe_domain_name
      demo_sshfp_digest demo_host (Some demo_store) demo_env = Ok ret /\
    In ("example.org", shown) ret /\
    shown = required ++ recommended ++ others /\
    (forall r, In r required ->
       exists x, Py.dict_get "explanation" r = Some x /\
                 Py.startswith x "Required." = true).
Proof.
  destruct (build_recommended_dns demo_mail_domains demo_sort_domains
              demo_safe_domain_name demo_sshfp_digest demo_host (Some demo_store)
              demo_env) as [ret|] eqn:E; [|vm_compute in E; discriminate E].
  assert (Hin : exists shown, In ("example.org", shown) ret).
  { vm_compute in E. injection E as <-. eexists. right. left. reflexivity. }
  destruct Hin as [shown Hin].
  destruct (recommended_dns_required_first demo_mail_domains demo_sort_domains
              demo_safe_domain_name demo_sshfp_digest demo_host (Some demo_store)
              demo_env ret "example.org" shown E Hin)
    as [required [recommended [others [Heq [Hreq _]]]]].
  exists ret, shown, required, recommended, others. repeat split; assumption.
Defined.

(** ** The serial number *)

Lemma serial_number_increases_witness :
  exists zone serial n m,
    write_nsd_zone "example.com" demo_zonefile demo_records demo_env true
      (demo_zone_with_serial "2014060207") demo_now demo_now = Ok (true, Some zone) /\
    zone = Py.replace (render_zone "example.com" demo_records demo_env)
             "__SERIAL__" serial /\
    Py.int_of_digits "2014060207" = Some m /\
    Py.int_of_digits serial = Some n /\
    (m < n)%N.
Proof.
  destruct (write_nsd_zone "example.com" demo_zonefile demo_records demo_env true
              (demo_zone_with_serial "2014060207") demo_now demo_now)
    as [[b [zone|]]|] eqn:E; try (vm_compute in E; discriminate E).
  assert (Hb : b = true) by (vm_compute in E; now injection E as <- _).
  subst b.
  destruct (serial_number_increases "example.com" demo_zonefile demo_records
               demo_env true (demo_zone_with_serial "2014060207") demo_now demo_now
               (Py.replace (render_zone "example.com" demo_records demo_env)
                  "__SERIAL__" "2014060207")
               "2014060207" "2014060207     ; serial number" true zone)
    as [serial [n [m [Hz [Hm [Hn [Hlt _]]]]]]].
  - vm_compute. reflexivity.
  - vm_compute. reflexivity.
  - reflexivity.
  - reflexivity.
  - vm_compute. discriminate.
  - exact E.
  - exists zone, serial, n, m. repeat split; assumption.
Defined.

(** ** The key scan and the configuration of the name server *)


Lemma write_nsd_conf_detects_changes_witness :
  write_nsd_conf [("example.com", "example.com.txt.signed")] (Some "10.0.0.5") None
    (Some (nsd_conf [("example.com", "example.com.txt.signed");
                     ("example.org", "example.org.txt.signed")]
                    (Some "10.0.0.5") None))
  = Ok (true, Some (nsd_conf [("example.com", "example.com.txt.signed")]
                             (Some "10.0.0.5") None)).
Proof.
  apply (write_nsd_conf_detects_changes
           [("example.com", "example.com.txt.signed");
            ("example.org", "example.org.txt.signed")]
           [("example.com", "example.com.txt.signed")] (Some "10.0.0.5") None).
  - intros zone [<- | [<- | []]]; split; reflexivity.
  - intros zone [<- | []]; split; reflexivity.
  - discriminate.
Defined.
